(** * Live window previews: the preview session of [live-previews.cpp]

    A shallow embedding of the Wayfire plugin [live_previews_plugin]
    (file [src/live-previews.cpp]): the scaling computation of
    [request_stream], the frame throttle and capture of [post_hook], and the
    teardown paths [release_output], [view_unmapped], [on_output_pre_remove]
    and [destroy_output].

    - C++ [int] is a 32-bit integer, modelled as [Z]; the one increment that
      may leave the range ([drop_frame++]) has its wrap-around written out.
    - C++ [float] is IEEE-754 binary32 with round-to-nearest-even, modelled
      by the Standard Library's [SpecFloat] at precision 24 and [emax] 128.
      Each operation is rounded to [float] on its own.
    - The compositor (views, output layout, render hooks, seat) is an
      explicit host state next to the plugin's members; every host call is
      also recorded, in program order, in the trace a step returns.
    - Undefined behaviour (a null or dangling dereference, a [float] that
      does not fit the [int] it is assigned to) is the failure [None] of the
      step monad.
    - A run is a list of events (requests, releases, unmapped views, frames,
      views changing geometry); the invariant [wf] under which the session
      is studied holds along every run ([wf_run_events]). *)

From Stdlib Require Import ZArith Lia Reals Lra SpecFloat.
From stdpp Require Import gmap strings list.

Local Open Scope Z_scope.

(** ** binary32 arithmetic *)

Module F32.

(** [float(n)] and the implicit conversion of an [int] operand. *)
Definition of_int (n : Z) : spec_float := binary_normalize 24 128 n 0 false.

Definition fdiv : spec_float -> spec_float -> spec_float := SFdiv 24 128.
Definition fmul : spec_float -> spec_float -> spec_float := SFmul 24 128.

Definition INT_MIN : Z := - 2 ^ 31.
Definition INT_MAX : Z := 2 ^ 31 - 1.

(** Conversion of a [float] to [int]: truncation toward zero.  The
    behaviour is undefined ([None]) when the truncated value does not fit
    in [int], and for infinities and NaN. *)
Definition to_int (f : spec_float) : option Z :=
  match f with
  | S754_zero _ => Some 0
  | S754_finite s m e =>
      let t := cond_Zopp s (Z.shiftl (Z.pos m) e) in
      if (INT_MIN <=? t) && (t <=? INT_MAX) then Some t else None
  | S754_infinity _ | S754_nan => None
  end.

(** Two's complement wrap-around of a 32-bit [int]. *)
Definition wrap (n : Z) : Z := (n + 2 ^ 31) mod 2 ^ 32 - 2 ^ 31.

(** Real value of a positive finite float [m * 2^e], and the unit
    round-off [2^-24], used to state the accuracy of the operations. *)
Definition bpow (e : Z) : R := powerRZ 2 e.
Definition F2R (m : positive) (e : Z) : R := (IZR (Z.pos m) * bpow e)%R.
Definition u32 : R := (/ 16777216)%R.

(** [inloc m l N D]: the rational [N/D] lies in [[m, m+1)] at the position
    recorded by the location [l] (on [m], below, at or above [m + 1/2]). *)
Definition inloc (m : Z) (l : location) (N D : Z) : Prop :=
  match l with
  | loc_Exact => N = m * D
  | loc_Inexact Lt => m * D < N /\ 2 * N < (2 * m + 1) * D
  | loc_Inexact Eq => 2 * N = (2 * m + 1) * D
  | loc_Inexact Gt => (2 * m + 1) * D < 2 * N /\ N < (m + 1) * D
  end.

End F32.

(** ** Data of the plugin and of the compositor *)

(** A view is known by its identifier; an output by the identity of its
    [wf::output_t] object. *)
Definition view_id := N.
Definition output_id := nat.

(** [wf::geometry_t]. *)
Record geometry_t := {
  x : Z;
  y : Z;
  width : Z;
  height : Z
}.

(** [wf::dimensions_t]; its members are [width] and [height]. *)
Record dimensions_t := {
  dim_width : Z;
  dim_height : Z
}.

(** What the plugin reads of a view: whether [wf::toplevel_cast] succeeds,
    the toplevel's [get_geometry()] and the view's [get_output()]. *)
Record view_t := {
  v_toplevel : bool;
  v_geometry : geometry_t;
  v_output : option output_id
}.

#[global] Instance geometry_eq_dec : EqDecision geometry_t.
Proof. solve_decision. Defined.
#[global] Instance dimensions_eq_dec : EqDecision dimensions_t.
Proof. solve_decision. Defined.
#[global] Instance view_eq_dec : EqDecision view_t.
Proof. solve_decision. Defined.

(** An output of the output layout: [handle->name], its mode and
    [handle->scale]. *)
Record output_t := {
  o_id : output_id;
  o_name : string;
  o_mode : dimensions_t;
  o_scale : spec_float
}.

(** The members of [live_previews_plugin].  The two signal connections are
    the lists of providers they are connected to. *)
Record plugin_t := {
  max_dimension : Z;
  frame_skip : Z;
  current_preview : option view_id;
  wo : option output_id;
  current_size : dimensions_t;
  hooks_set : gmap (option output_id) bool;
  drop_frame : Z;
  instance_manager : option (view_id * output_id);
  headless_backend : bool;
  view_unmapped_conn : list view_id;
  on_output_pre_remove_conn : list output_id
}.

(** The compositor, as far as the plugin reads or changes it. *)
Record host_t := {
  views : gmap view_id view_t;
  outputs : list output_t;
  post_hooks : list output_id;
  effect_hooks : list output_id;
  active_output : option output_id;
  next_handle : output_id
}.

Definition world : Type := plugin_t * host_t.

(** Calls into the compositor and wlroots, as the trace records them. *)
Inductive call :=
  | add_post (o : output_id)
  | add_effect (o : output_id)
  | rem_post (o : output_id)
  | rem_effect (o : output_id)
  | view_connect (v : view_id)
  | view_unmapped_disconnect
  | output_connect (o : output_id)
  | on_output_pre_remove_disconnect
  | instance_manager_reset
  | instance_manager_make (v : view_id) (o : output_id)
  | view_damage (v : view_id)
  | damage_whole (o : output_id)
  | schedule_redraw (o : output_id)
  | wlr_output_test_state (o : output_id) (mode : option dimensions_t) (ok : bool)
  | wlr_output_commit_state (o : output_id) (mode : option dimensions_t)
  | wlr_headless_backend_create
  | wlr_headless_add_output (o : output_id) (w h : Z)
  | wlr_output_set_name (o : output_id) (name : string)
  | focus_output (o : output_id)
  | wlr_output_layout_remove (o : output_id)
  | wlr_output_destroy (o : output_id)
  | set_scale (o : output_id) (s : spec_float)
  | take_snapshot (v : view_id) (o : output_id) (s : spec_float)
  | blit (dst : dimensions_t)
  | aux_buffer_free.

(** [wf::json_t] results of the two IPC methods. *)
Inductive json_t :=
  | json_ok
  | json_error (msg : string).

(** What the compositor answers during one call: [wlr_output_test_state]
    for the mode change of an existing output and for the render format of
    a new one, and [get_next_output] for the output to be destroyed. *)
Record host_answers := {
  mode_ok : bool;
  format_ok : bool;
  next_output : output_id
}.

(** ** The step monad: state, trace, undefined behaviour *)

Definition M (A : Type) : Type := world -> option (A * world * list call).

Definition ret {A} (a : A) : M A := fun w => Some (a, w, []).

Definition bind {A B} (m : M A) (k : A -> M B) : M B :=
  fun w =>
    match m w with
    | None => None
    | Some (a, w1, t1) =>
        match k a w1 with
        | None => None
        | Some (b, w2, t2) => Some (b, w2, t1 ++ t2)
        end
    end.

Notation "v <- m ;; k" := (bind m (fun v => k))
  (at level 100, m at next level, right associativity).
Notation "m ;; k" := (bind m (fun _ => k))
  (at level 100, right associativity).

Definition undefined {A} : M A := fun _ => None.
Definition emit (c : call) : M unit := fun w => Some (tt, w, [c]).
Definition get_plugin : M plugin_t := fun w => Some (fst w, w, []).
Definition get_host : M host_t := fun w => Some (snd w, w, []).
Definition modify_plugin (f : plugin_t -> plugin_t) : M unit :=
  fun w => Some (tt, (f (fst w), snd w), []).
Definition modify_host (f : host_t -> host_t) : M unit :=
  fun w => Some (tt, (fst w, f (snd w)), []).
Definition when (b : bool) (m : M unit) : M unit := if b then m else ret tt.

(** Field updates. *)
Definition set_current_preview (v : option view_id) (p : plugin_t) : plugin_t :=
  let '(Build_plugin_t md fs _ o cs hs df im hb vu pr) := p in
  Build_plugin_t md fs v o cs hs df im hb vu pr.
Definition set_wo (o : option output_id) (p : plugin_t) : plugin_t :=
  let '(Build_plugin_t md fs cp _ cs hs df im hb vu pr) := p in
  Build_plugin_t md fs cp o cs hs df im hb vu pr.
Definition set_current_size (cs : dimensions_t) (p : plugin_t) : plugin_t :=
  let '(Build_plugin_t md fs cp o _ hs df im hb vu pr) := p in
  Build_plugin_t md fs cp o cs hs df im hb vu pr.
Definition set_hooks_set (hs : gmap (option output_id) bool) (p : plugin_t) : plugin_t :=
  let '(Build_plugin_t md fs cp o cs _ df im hb vu pr) := p in
  Build_plugin_t md fs cp o cs hs df im hb vu pr.
Definition set_drop_frame (df : Z) (p : plugin_t) : plugin_t :=
  let '(Build_plugin_t md fs cp o cs hs _ im hb vu pr) := p in
  Build_plugin_t md fs cp o cs hs df im hb vu pr.
Definition set_instance_manager (im : option (view_id * output_id)) (p : plugin_t) : plugin_t :=
  let '(Build_plugin_t md fs cp o cs hs df _ hb vu pr) := p in
  Build_plugin_t md fs cp o cs hs df im hb vu pr.
Definition set_headless_backend (hb : bool) (p : plugin_t) : plugin_t :=
  let '(Build_plugin_t md fs cp o cs hs df im _ vu pr) := p in
  Build_plugin_t md fs cp o cs hs df im hb vu pr.
Definition set_view_unmapped_conn (vu : list view_id) (p : plugin_t) : plugin_t :=
  let '(Build_plugin_t md fs cp o cs hs df im hb _ pr) := p in
  Build_plugin_t md fs cp o cs hs df im hb vu pr.
Definition set_on_output_pre_remove_conn (pr : list output_id) (p : plugin_t) : plugin_t :=
  let '(Build_plugin_t md fs cp o cs hs df im hb vu _) := p in
  Build_plugin_t md fs cp o cs hs df im hb vu pr.

Definition set_views (vs : gmap view_id view_t) (h : host_t) : host_t :=
  let '(Build_host_t _ os ph eh ao nh) := h in Build_host_t vs os ph eh ao nh.
Definition set_outputs (os : list output_t) (h : host_t) : host_t :=
  let '(Build_host_t vs _ ph eh ao nh) := h in Build_host_t vs os ph eh ao nh.
Definition set_post_hooks (ph : list output_id) (h : host_t) : host_t :=
  let '(Build_host_t vs os _ eh ao nh) := h in Build_host_t vs os ph eh ao nh.
Definition set_effect_hooks (eh : list output_id) (h : host_t) : host_t :=
  let '(Build_host_t vs os ph _ ao nh) := h in Build_host_t vs os ph eh ao nh.
Definition set_active_output (ao : option output_id) (h : host_t) : host_t :=
  let '(Build_host_t vs os ph eh _ nh) := h in Build_host_t vs os ph eh ao nh.
Definition set_next_handle (nh : output_id) (h : host_t) : host_t :=
  let '(Build_host_t vs os ph eh ao _) := h in Build_host_t vs os ph eh ao nh.

(** ** The compositor's side of the calls *)

Definition live_preview_name : string := "live-preview".

(** [output_layout->find_output(name)]. *)
Fixpoint find_output_by_name (name : string) (os : list output_t) : option output_id :=
  match os with
  | [] => None
  | r :: os' =>
      if String.eqb (o_name r) name then Some (o_id r)
      else find_output_by_name name os'
  end.

(** The output object behind a pointer, while it is in the layout. *)
Fixpoint find_output (o : output_id) (os : list output_t) : option output_t :=
  match os with
  | [] => None
  | r :: os' => if Nat.eqb (o_id r) o then Some r else find_output o os'
  end.

Definition update_output (o : output_id) (f : output_t -> output_t)
    (os : list output_t) : list output_t :=
  map (fun r => if Nat.eqb (o_id r) o then f r else r) os.

Definition remove_output (o : output_id) (os : list output_t) : list output_t :=
  filter (fun r => o_id r <> o) os.

Definition remove_hook (o : output_id) (l : list output_id) : list output_id :=
  filter (fun o' => o' <> o) l.

Definition with_mode (m : dimensions_t) (r : output_t) : output_t :=
  {| o_id := o_id r; o_name := o_name r; o_mode := m; o_scale := o_scale r |}.
Definition with_name (n : string) (r : output_t) : output_t :=
  {| o_id := o_id r; o_name := n; o_mode := o_mode r; o_scale := o_scale r |}.
Definition with_scale (s : spec_float) (r : output_t) : output_t :=
  {| o_id := o_id r; o_name := o_name r; o_mode := o_mode r; o_scale := s |}.

(** Dereferencing an output pointer: undefined once the output has left
    the layout, and for the null pointer. *)
Definition deref_output (o : output_id) : M output_t :=
  h <- get_host ;;
  match find_output o (outputs h) with
  | Some r => ret r
  | None => undefined
  end.

Definition deref (o : option output_id) : M output_t :=
  match o with
  | Some o' => deref_output o'
  | None => undefined
  end.

Definition deref_view (v : view_id) : M view_t :=
  h <- get_host ;;
  match views h !! v with
  | Some r => ret r
  | None => undefined
  end.

(** [o->render->add_post(&post_hook)] and its three siblings. *)
Definition render_add_post (o : option output_id) : M unit :=
  r <- deref o ;;
  emit (add_post (o_id r)) ;;
  modify_host (fun h => set_post_hooks (o_id r :: post_hooks h) h).

Definition render_add_effect (o : option output_id) : M unit :=
  r <- deref o ;;
  emit (add_effect (o_id r)) ;;
  modify_host (fun h => set_effect_hooks (o_id r :: effect_hooks h) h).

Definition render_rem_post (o : option output_id) : M unit :=
  r <- deref o ;;
  emit (rem_post (o_id r)) ;;
  modify_host (fun h => set_post_hooks (remove_hook (o_id r) (post_hooks h)) h).

Definition render_rem_effect (o : option output_id) : M unit :=
  r <- deref o ;;
  emit (rem_effect (o_id r)) ;;
  modify_host (fun h => set_effect_hooks (remove_hook (o_id r) (effect_hooks h)) h).

(** [wlr_headless_add_output]: a new output object enters the layout. *)
Definition headless_add_output (w h : Z) : M output_id :=
  hs <- get_host ;;
  let o := next_handle hs in
  emit (wlr_headless_add_output o w h) ;;
  modify_host (fun hs =>
    set_next_handle (S o)
      (set_outputs (outputs hs ++
         [{| o_id := o; o_name := "HEADLESS";
             o_mode := {| dim_width := w; dim_height := h |};
             o_scale := F32.of_int 1 |}]) hs)) ;;
  ret o.

(** ** The plugin *)

(** [hooks_set[k]] read: [std::map::operator[]] inserts [false] for a key
    that is absent. *)
Definition hooks_set_at (k : option output_id) : M bool :=
  p <- get_plugin ;;
  match hooks_set p !! k with
  | Some b => ret b
  | None =>
      modify_plugin (set_hooks_set (<[k := false]> (hooks_set p))) ;;
      ret false
  end.

Definition hooks_set_assign (k : option output_id) (b : bool) : M unit :=
  modify_plugin (fun p => set_hooks_set (<[k := b]> (hooks_set p)) p).

Definition view_unmapped_disconnect_all : M unit :=
  emit view_unmapped_disconnect ;;
  modify_plugin (set_view_unmapped_conn []).

Definition on_output_pre_remove_disconnect_all : M unit :=
  emit on_output_pre_remove_disconnect ;;
  modify_plugin (set_on_output_pre_remove_conn []).

Definition destroy_render_instance_manager : M unit :=
  p <- get_plugin ;;
  match instance_manager p with
  | None => ret tt
  | Some _ =>
      emit instance_manager_reset ;;
      modify_plugin (set_instance_manager None)
  end.

Definition create_render_instance_manager (view : view_id) : M unit :=
  p <- get_plugin ;;
  match instance_manager p with
  | Some _ => ret tt
  | None =>
      v <- deref_view view ;;
      r <- deref (v_output v) ;;
      emit (instance_manager_make view (o_id r)) ;;
      modify_plugin (set_instance_manager (Some (view, o_id r)))
  end.

(** The size computed at the head of [request_stream] (lines 113-123): the
    longer side becomes [max_dimension], the other one
    [side * (max_dimension / float(longer))] converted back to [int]. *)
Definition scale_float (side other max_dim : Z) : spec_float :=
  F32.fmul (F32.of_int side) (F32.fdiv (F32.of_int max_dim) (F32.of_int other)).

Definition scale_side (side other max_dim : Z) : option Z :=
  F32.to_int (scale_float side other max_dim).

Definition scaled_geometry (max_dim : Z) (vg : geometry_t) : option geometry_t :=
  if width vg <? height vg then
    match scale_side (width vg) (height vg) max_dim with
    | Some w' => Some {| x := x vg; y := y vg; width := w'; height := max_dim |}
    | None => None
    end
  else
    match scale_side (height vg) (width vg) max_dim with
    | Some h' => Some {| x := x vg; y := y vg; width := max_dim; height := h' |}
    | None => None
    end.

Definition destroy_output (ans : host_answers) : M unit :=
  h <- get_host ;;
  match find_output_by_name live_preview_name (outputs h) with
  | None => ret tt
  | Some output =>
      destroy_render_instance_manager ;;
      modify_plugin (set_current_preview None) ;;
      view_unmapped_disconnect_all ;;
      hs <- hooks_set_at (Some output) ;;
      when hs
        (render_rem_post (Some output) ;;
         render_rem_effect (Some output) ;;
         hooks_set_assign (Some output) false) ;;
      on_output_pre_remove_disconnect_all ;;
      h <- get_host ;;
      when (bool_decide (active_output h = Some output))
        (emit (focus_output (next_output ans)) ;;
         modify_host (set_active_output (Some (next_output ans)))) ;;
      emit (wlr_output_layout_remove output) ;;
      emit (wlr_output_destroy output) ;;
      modify_host (fun h =>
        set_outputs (remove_output output (outputs h))
          (set_post_hooks (remove_hook output (post_hooks h))
             (set_effect_hooks (remove_hook output (effect_hooks h)) h))) ;;
      p <- get_plugin ;;
      when (bool_decide (wo p = Some output)) (modify_plugin (set_wo None))
  end.

(** [request_stream], lines 126-152: a size that differs from
    [current_size] is recorded, and an existing output is asked to change
    mode; when the compositor refuses the mode the output is destroyed. *)
Definition request_resize (vg : geometry_t) (ans : host_answers) : M unit :=
  p <- get_plugin ;;
  when (negb (width vg =? dim_width (current_size p))
        || negb (height vg =? dim_height (current_size p)))
    (let mode := {| dim_width := width vg; dim_height := height vg |} in
     modify_plugin (set_current_size mode) ;;
     match wo p with
     | Some o =>
         deref_output o ;;
         emit (wlr_output_test_state o (Some mode) (mode_ok ans)) ;;
         if mode_ok ans then
           emit (wlr_output_commit_state o (Some mode)) ;;
           modify_host (fun h =>
             set_outputs (update_output o (with_mode mode) (outputs h)) h)
         else destroy_output ans
     | None => ret tt
     end).

(** [request_stream], lines 153-167: the body of [if (wo)]. *)
Definition request_attach (id : view_id) : M json_t :=
  p <- get_plugin ;;
  hs <- hooks_set_at (wo p) ;;
  when (negb hs)
    (render_add_post (wo p) ;;
     render_add_effect (wo p) ;;
     hooks_set_assign (wo p) true) ;;
  emit (view_connect id) ;;
  modify_plugin (fun p => set_view_unmapped_conn (id :: view_unmapped_conn p) p) ;;
  destroy_render_instance_manager ;;
  create_render_instance_manager id ;;
  modify_plugin (set_current_preview (Some id)) ;;
  emit (view_damage id) ;;
  ret json_ok.

(** [request_stream], lines 168-201: a new headless output. *)
Definition request_create (id : view_id) (vg : geometry_t) (ans : host_answers) : M json_t :=
  p <- get_plugin ;;
  when (negb (headless_backend p))
    (emit wlr_headless_backend_create ;;
     modify_plugin (set_headless_backend true)) ;;
  handle <- headless_add_output (width vg) (height vg) ;;
  emit (wlr_output_test_state handle None (format_ok ans)) ;;
  when (format_ok ans) (emit (wlr_output_commit_state handle None)) ;;
  emit (wlr_output_set_name handle live_preview_name) ;;
  modify_host (fun h =>
    set_outputs (update_output handle (with_name live_preview_name) (outputs h)) h) ;;
  h <- get_host ;;
  let wo' := option_map o_id (find_output handle (outputs h)) in
  modify_plugin (set_wo wo') ;;
  hs <- hooks_set_at wo' ;;
  when (negb hs)
    (render_add_post wo' ;;
     render_add_effect wo' ;;
     hooks_set_assign wo' true) ;;
  r <- deref wo' ;;
  emit (output_connect (o_id r)) ;;
  modify_plugin (fun p =>
    set_on_output_pre_remove_conn (o_id r :: on_output_pre_remove_conn p) p) ;;
  emit (view_connect id) ;;
  modify_plugin (fun p => set_view_unmapped_conn (id :: view_unmapped_conn p) p) ;;
  destroy_render_instance_manager ;;
  create_render_instance_manager id ;;
  modify_plugin (set_current_preview (Some id)) ;;
  emit (view_damage id) ;;
  ret json_ok.

Definition request_stream (id : view_id) (ans : host_answers) : M json_t :=
  h <- get_host ;;
  match views h !! id with
  | Some view =>
      if negb (v_toplevel view) then ret (json_error "view is not a toplevel")
      else
        p <- get_plugin ;;
        match scaled_geometry (max_dimension p) (v_geometry view) with
        | None => undefined
        | Some vg =>
            modify_plugin (set_drop_frame (frame_skip p)) ;;
            request_resize vg ans ;;
            p <- get_plugin ;;
            match wo p with
            | Some _ => request_attach id
            | None => request_create id vg ans
            end
        end
  | None => ret (json_error "no such view")
  end.

Definition release_output : M json_t :=
  destroy_render_instance_manager ;;
  view_unmapped_disconnect_all ;;
  p <- get_plugin ;;
  hs <- hooks_set_at (wo p) ;;
  when hs
    (render_rem_post (wo p) ;;
     render_rem_effect (wo p) ;;
     hooks_set_assign (wo p) false) ;;
  ret json_ok.

Definition damage_hook : M unit :=
  p <- get_plugin ;;
  match wo p with
  | Some o =>
      deref_output o ;;
      emit (damage_whole o) ;;
      emit (schedule_redraw o)
  | None => ret tt
  end.

(** The body handed to [run_in_context] by [post_hook] (lines 248-261). *)
Definition capture (view : view_id) : M unit :=
  p <- get_plugin ;;
  emit (view_damage view) ;;
  v <- deref_view view ;;
  if negb (v_toplevel v) then undefined
  else
    let vg := v_geometry v in
    view_output <- deref (v_output v) ;;
    let output_scale := o_scale view_output in
    let temp_scale := F32.fdiv (F32.of_int (max_dimension p)) (F32.of_int (width vg)) in
    emit (set_scale (o_id view_output) temp_scale) ;;
    modify_host (fun h =>
      set_outputs (update_output (o_id view_output) (with_scale temp_scale) (outputs h)) h) ;;
    r <- deref_output (o_id view_output) ;;
    emit (take_snapshot view (o_id r) (o_scale r)) ;;
    emit (set_scale (o_id view_output) output_scale) ;;
    modify_host (fun h =>
      set_outputs (update_output (o_id view_output) (with_scale output_scale) (outputs h)) h) ;;
    emit (blit (current_size p)) ;;
    emit aux_buffer_free ;;
    emit (view_damage view).

Definition post_hook : M unit :=
  p <- get_plugin ;;
  match current_preview p with
  | None => ret tt
  | Some view =>
      modify_plugin (set_drop_frame (F32.wrap (drop_frame p + 1))) ;;
      if drop_frame p >=? frame_skip p then
        modify_plugin (set_drop_frame 0) ;;
        capture view
      else ret tt
  end.

Definition on_output_pre_remove : M unit :=
  p <- get_plugin ;;
  match wo p with
  | None => ret tt
  | Some _ =>
      destroy_render_instance_manager ;;
      modify_plugin (set_current_preview None) ;;
      hs <- hooks_set_at (wo p) ;;
      when hs
        (render_rem_post (wo p) ;;
         render_rem_effect (wo p) ;;
         hooks_set_assign (wo p) false)
  end.

Definition view_unmapped (ev_view : view_id) : M unit :=
  p <- get_plugin ;;
  if bool_decide (current_preview p = Some ev_view) then
    view_unmapped_disconnect_all ;;
    destroy_render_instance_manager ;;
    modify_plugin (set_current_preview None) ;;
    hs <- hooks_set_at (wo p) ;;
    when hs
      (render_rem_post (wo p) ;;
       render_rem_effect (wo p) ;;
       hooks_set_assign (wo p) false)
  else ret tt.

Definition fini (ans : host_answers) : M unit := destroy_output ans.

(** ** Frames *)

(** One frame of output [o]: the compositor runs the hooks registered on
    it, the pre-effect before the post hook. *)
Definition render_frame (o : output_id) : M unit :=
  h <- get_host ;;
  when (bool_decide (o ∈ effect_hooks h)) damage_hook ;;
  when (bool_decide (o ∈ post_hooks h)) post_hook.

(** [n] consecutive ticks of the post hook. *)
Fixpoint ticks (n : nat) : M unit :=
  match n with
  | O => ret tt
  | S n' => post_hook ;; ticks n'
  end.

(** The captures in a trace: one [take_snapshot] each. *)
Fixpoint captures (t : list call) : nat :=
  match t with
  | [] => O
  | take_snapshot _ _ _ :: t' => S (captures t')
  | _ :: t' => captures t'
  end.

Arguments bind {A B} m k w /.
Arguments ret {A} a w /.
Arguments undefined {A} w /.
Arguments emit c w /.
Arguments get_plugin w /.
Arguments get_host w /.
Arguments modify_plugin f w /.
Arguments modify_host f w /.
Arguments when b m /.

(** The plugin object as constructed: the two options at their configured
    values, the members at their initialisers; [current_size] and
    [drop_frame] have none and hold whatever they hold. *)
Definition init_plugin (max_dim skip : Z) (size : dimensions_t) (df : Z) : plugin_t :=
  {| max_dimension := max_dim; frame_skip := skip;
     current_preview := None; wo := None;
     current_size := size;
     hooks_set := ∅; drop_frame := df;
     instance_manager := None; headless_backend := false;
     view_unmapped_conn := []; on_output_pre_remove_conn := [] |}.

(** The output a view is shown on, when both are alive. *)
Definition shown_on (h : host_t) (id : view_id) : option output_id :=
  match views h !! id with
  | Some view =>
      match v_output view with
      | Some vo =>
          match find_output vo (outputs h) with
          | Some _ => Some vo
          | None => None
          end
      | None => None
      end
  | None => None
  end.

(** ** Well-formed states and closed forms *)

(** The per-frame hooks are registered on [wo] only, and [hooks_set]
    knows about them. *)
Definition hooks_inv (w : world) : Prop :=
  Forall (fun o => wo (fst w) = Some o /\ hooks_set (fst w) !! Some o = Some true)
    (post_hooks (snd w) ++ effect_hooks (snd w)).

(** States the plugin keeps itself in: [wo] is the output named
    [live-preview] and no other output carries that name; output objects
    are distinct and older than the next handle; no hook is recorded for
    the null output. *)
Definition wf (w : world) : Prop :=
  hooks_set (fst w) !! None <> Some true /\
  find_output_by_name live_preview_name (outputs (snd w)) = wo (fst w) /\
  Forall (fun r => o_name r = live_preview_name -> wo (fst w) = Some (o_id r))
    (outputs (snd w)) /\
  NoDup (map o_id (outputs (snd w))) /\
  Forall (fun r => (o_id r < next_handle (snd w))%nat) (outputs (snd w)) /\
  hooks_inv w.

#[global] Instance wf_dec (w : world) : Decision (wf w).
Proof. unfold wf, hooks_inv. apply _. Defined.

(** A view the plugin can preview without undefined behaviour: a toplevel
    on an output of the layout. *)
Definition previewable (h : host_t) (id : view_id) (view : view_t) (vo : output_id) : Prop :=
  views h !! id = Some view /\ v_toplevel view = true /\
  v_output view = Some vo /\ is_Some (find_output vo (outputs h)).

#[global] Instance previewable_dec h id view vo : Decision (previewable h id view vo).
Proof. unfold previewable. apply _. Defined.

(** The plugin and the compositor after [release_output]. *)
Definition released_plugin (p : plugin_t) : plugin_t :=
  set_hooks_set (<[wo p := false]> (hooks_set p))
    (set_view_unmapped_conn [] (set_instance_manager None p)).

Definition released_host (p : plugin_t) (h : host_t) : host_t :=
  match wo p, hooks_set p !! wo p with
  | Some o, Some true =>
      set_effect_hooks (remove_hook o (effect_hooks h))
        (set_post_hooks (remove_hook o (post_hooks h)) h)
  | _, _ => h
  end.

(** The trace of one capture at geometry [vg] on output [vo] whose scale
    was [s0]. *)
Definition capture_trace (p : plugin_t) (view : view_id) (vg : geometry_t)
    (vo : output_id) (s0 : spec_float) : list call :=
  let temp_scale := F32.fdiv (F32.of_int (max_dimension p)) (F32.of_int (width vg)) in
  [view_damage view; set_scale vo temp_scale; take_snapshot view vo temp_scale;
   set_scale vo s0; blit (current_size p); aux_buffer_free; view_damage view].

(** Calls that create, resize or destroy an output. *)
Definition surface_call (c : call) : bool :=
  match c with
  | wlr_output_test_state _ _ _ | wlr_output_commit_state _ _
  | wlr_headless_add_output _ _ _ | wlr_output_layout_remove _
  | wlr_output_destroy _ => true
  | _ => false
  end.

(** ** Concrete states for the examples *)

Definition geometry_of (w h : Z) : geometry_t :=
  {| x := 0; y := 0; width := w; height := h |}.

Definition toplevel_of (w h : Z) : view_t :=
  {| v_toplevel := true; v_geometry := geometry_of w h; v_output := Some 0%nat |}.

(** One real output [eDP-1]; views 1 (800x600), 2 (600x800), 3 (0x600) and
    4 (1024x768); the plugin freshly constructed with [max_dimension] 256. *)
Definition example_host : host_t :=
  {| views := {[ 1%N := toplevel_of 800 600; 2%N := toplevel_of 600 800;
                 3%N := toplevel_of 0 600; 4%N := toplevel_of 1024 768 ]};
     outputs := [{| o_id := 0%nat; o_name := "eDP-1";
                    o_mode := {| dim_width := 1920; dim_height := 1080 |};
                    o_scale := F32.of_int 1 |}];
     post_hooks := []; effect_hooks := [];
     active_output := Some 0%nat; next_handle := 1%nat |}.

Definition example_plugin (skip : Z) : plugin_t :=
  init_plugin 256 skip {| dim_width := 0; dim_height := 0 |} 0.

Definition example_answers (ok : bool) : host_answers :=
  {| mode_ok := ok; format_ok := true; next_output := 0%nat |}.

Definition example_initial (skip : Z) : world := (example_plugin skip, example_host).

(** The state of a step's result, or the state itself when the step is
    undefined. *)
Definition state_after {A} (m : M A) (w : world) : world :=
  match m w with
  | Some (_, w', _) => w'
  | None => w
  end.

(** The value and the trace of a step's result. *)
Definition answer_of {A} (m : M A) (w : world) : option A :=
  match m w with
  | Some (a, _, _) => Some a
  | None => None
  end.

Definition trace_of {A} (m : M A) (w : world) : list call :=
  match m w with
  | Some (_, _, t) => t
  | None => []
  end.

(** View 1 is being previewed on the synthetic output 1. *)
Definition example_bound (skip : Z) : world :=
  state_after (request_stream 1%N (example_answers true)) (example_initial skip).

(** The counter of the frame throttle after one tick. *)
Definition next_drop_frame (skip d : Z) : Z :=
  if d >=? skip then 0 else F32.wrap (d + 1).

(** The plugin, the compositor and the trace after [destroy_output] found
    the output [o]. *)
Definition destroyed_plugin (o : output_id) (p : plugin_t) : plugin_t :=
  set_wo (if bool_decide (wo p = Some o) then None else wo p)
    (set_on_output_pre_remove_conn []
       (set_hooks_set (<[Some o := false]> (hooks_set p))
          (set_view_unmapped_conn []
             (set_current_preview None (set_instance_manager None p))))).

Definition destroyed_host (ans : host_answers) (o : output_id) (h : host_t) : host_t :=
  set_outputs (remove_output o (outputs h))
    (set_post_hooks (remove_hook o (post_hooks h))
       (set_effect_hooks (remove_hook o (effect_hooks h))
          (set_active_output
             (if bool_decide (active_output h = Some o)
              then Some (next_output ans) else active_output h) h))).

Definition destroy_trace (ans : host_answers) (o : output_id)
    (p : plugin_t) (h : host_t) : list call :=
  match instance_manager p with Some _ => [instance_manager_reset] | None => [] end ++
  [view_unmapped_disconnect] ++
  (if default false (hooks_set p !! Some o) then [rem_post o; rem_effect o] else []) ++
  [on_output_pre_remove_disconnect] ++
  (if bool_decide (active_output h = Some o) then [focus_output (next_output ans)] else []) ++
  [wlr_output_layout_remove o; wlr_output_destroy o].

(** The same for the branch of [request_stream] that binds the view [id],
    shown on output [vo], to the existing output [o]. *)
Definition attached_plugin (id : view_id) (vo o : output_id) (p : plugin_t) : plugin_t :=
  set_current_preview (Some id)
    (set_instance_manager (Some (id, vo))
       (set_view_unmapped_conn (id :: view_unmapped_conn p)
          (set_hooks_set (<[Some o := true]> (hooks_set p)) p))).

Definition attached_host (o : output_id) (p : plugin_t) (h : host_t) : host_t :=
  if default false (hooks_set p !! Some o) then h
  else set_effect_hooks (o :: effect_hooks h) (set_post_hooks (o :: post_hooks h) h).

Definition attach_trace (id : view_id) (vo o : output_id) (p : plugin_t) : list call :=
  (if default false (hooks_set p !! Some o) then [] else [add_post o; add_effect o]) ++
  [view_connect id] ++
  match instance_manager p with Some _ => [instance_manager_reset] | None => [] end ++
  [instance_manager_make id vo; view_damage id].

(** The same for the branch that creates the output; its handle is the
    compositor's [next_handle]. *)
Definition created_output (o : output_id) (vg : geometry_t) : output_t :=
  {| o_id := o; o_name := live_preview_name;
     o_mode := {| dim_width := width vg; dim_height := height vg |};
     o_scale := F32.of_int 1 |}.

Definition created_plugin (id : view_id) (vo o : output_id) (p : plugin_t) : plugin_t :=
  attached_plugin id vo o
    (set_on_output_pre_remove_conn (o :: on_output_pre_remove_conn p)
       (set_wo (Some o) (set_headless_backend true p))).

Definition created_host (o : output_id) (vg : geometry_t) (p : plugin_t) (h : host_t) : host_t :=
  attached_host o p
    (set_next_handle (S o) (set_outputs (outputs h ++ [created_output o vg]) h)).

Definition create_trace (id : view_id) (vo o : output_id) (vg : geometry_t)
    (ans : host_answers) (p : plugin_t) : list call :=
  (if headless_backend p then [] else [wlr_headless_backend_create]) ++
  [wlr_headless_add_output o (width vg) (height vg);
   wlr_output_test_state o None (format_ok ans)] ++
  (if format_ok ans then [wlr_output_commit_state o None] else []) ++
  [wlr_output_set_name o live_preview_name] ++
  (if default false (hooks_set p !! Some o) then [] else [add_post o; add_effect o]) ++
  [output_connect o; view_connect id] ++
  match instance_manager p with Some _ => [instance_manager_reset] | None => [] end ++
  [instance_manager_make id vo; view_damage id].

(** Whether the size [vg] is the one recorded in [current_size]. *)
Definition same_size (vg : geometry_t) (cs : dimensions_t) : bool :=
  (width vg =? dim_width cs) && (height vg =? dim_height cs).

Definition mode_of (vg : geometry_t) : dimensions_t :=
  {| dim_width := width vg; dim_height := height vg |}.

(** The plugin once [request_stream] has recorded the throttle counter and
    the size [vg]. *)
Definition sized (vg : geometry_t) (p : plugin_t) : plugin_t :=
  set_current_size (mode_of vg) (set_drop_frame (frame_skip p) p).

(** Calls that bring a new output into being. *)
Definition creates_output (c : call) : bool :=
  match c with
  | wlr_headless_add_output _ _ _ => true
  | _ => false
  end.

(** View 2 (600x800, taller than wide) is being previewed and every frame
    captures ([frame_skip] 0). *)
Definition example_portrait : world :=
  state_after (request_stream 2%N (example_answers true)) (example_initial 0).

(** ** Runs of the plugin *)

(** What reaches the plugin once [init] has registered its two methods:
    a [request_stream], a [release_output], the unmapping of a view (the
    handler runs when the plugin is subscribed to that view), a frame of
    an output, and the compositor giving a view another geometry or
    output, which the plugin only notices at its next request or capture. *)
Inductive event : Type :=
| ev_request_stream (id : view_id) (ans : host_answers)
| ev_release_output
| ev_view_unmapped (v : view_id)
| ev_frame (o : output_id)
| ev_view_changed (id : view_id) (view : view_t).

Definition run_event (e : event) : M unit :=
  match e with
  | ev_request_stream id ans => request_stream id ans ;; ret tt
  | ev_release_output => release_output ;; ret tt
  | ev_view_unmapped v =>
      p <- get_plugin ;;
      when (bool_decide (v ∈ view_unmapped_conn p)) (view_unmapped v)
  | ev_frame o => render_frame o
  | ev_view_changed id view =>
      modify_host (fun h => set_views (<[id := view]> (views h)) h)
  end.

Fixpoint run_events (es : list event) : M unit :=
  match es with
  | [] => ret tt
  | e :: es' => run_event e ;; run_events es'
  end.

(** While a window is bound the throttle counter lies between 0 and
    [frame_skip]. *)
Definition throttle_inv (w : world) : Prop :=
  is_Some (current_preview (fst w)) -> 0 <= drop_frame (fst w) <= frame_skip (fst w).

(** A step that leaves the throttle's two members alone. *)
Definition keeps_throttle {A} (m : M A) : Prop :=
  forall w a w' t, m w = Some (a, w', t) ->
    frame_skip (fst w') = frame_skip (fst w) /\ drop_frame (fst w') = drop_frame (fst w).

(** A method that can only answer [json_ok]. *)
Definition answers_ok (m : M json_t) : Prop :=
  forall w j w' t, m w = Some (j, w', t) -> j = json_ok.

(** ** Closed form of a request, and what is counted along a run *)

(** The state and the trace of a [request_stream] that binds the view
    [id], shown on output [vo], at the computed size [vg]: the four ways
    through lines 125-201. *)
Definition request_result (id : view_id) (ans : host_answers) (vg : geometry_t)
    (vo : output_id) (p : plugin_t) (h : host_t) : world * list call :=
  match wo p with
  | None =>
      ((created_plugin id vo (next_handle h) (sized vg p),
        created_host (next_handle h) vg (sized vg p) h),
       create_trace id vo (next_handle h) vg ans (sized vg p))
  | Some o =>
      if same_size vg (current_size p) then
        ((attached_plugin id vo o (sized vg p), attached_host o p h),
         attach_trace id vo o p)
      else if mode_ok ans then
        ((attached_plugin id vo o (sized vg p),
          attached_host o p
            (set_outputs (update_output o (with_mode (mode_of vg)) (outputs h)) h)),
         [wlr_output_test_state o (Some (mode_of vg)) true;
          wlr_output_commit_state o (Some (mode_of vg))] ++ attach_trace id vo o p)
      else
        ((created_plugin id vo (next_handle h) (destroyed_plugin o (sized vg p)),
          created_host (next_handle h) vg (destroyed_plugin o (sized vg p))
            (destroyed_host ans o h)),
         wlr_output_test_state o (Some (mode_of vg)) false ::
         destroy_trace ans o (sized vg p) h ++
         create_trace id vo (next_handle h) vg ans (destroyed_plugin o (sized vg p)))
  end.

(** The calls of a trace that satisfy [P]. *)
Fixpoint count_calls (P : call -> bool) (t : list call) : nat :=
  match t with
  | [] => O
  | c :: t' => if P c then S (count_calls P t') else count_calls P t'
  end.

Definition is_backend_create (c : call) : bool :=
  match c with
  | wlr_headless_backend_create => true
  | _ => false
  end.

(** A step all of whose calls satisfy [P] and that leaves the observation
    [f] of the state as it was, whatever the state it runs in. *)
Definition preserves {A B} (P : call -> bool) (f : world -> B) (m : M A) : Prop :=
  forall w a w' t, m w = Some (a, w', t) -> Forall (fun c => P c = true) t /\ f w' = f w.

(** Whether the headless backend has been created. *)
Definition has_backend (w : world) : bool := headless_backend (fst w).

(** Calls other than the creation of the headless backend. *)
Definition not_backend_create (c : call) : bool := negb (is_backend_create c).

(** Calls that manage no output and no backend. *)
Definition quiet_call (c : call) : bool :=
  negb (surface_call c) && negb (is_backend_create c).

(** Whether the per-frame hooks are registered, as [hooks_set] has it. *)
Definition armed (p : plugin_t) : bool :=
  match wo p with
  | Some o => default false (hooks_set p !! Some o)
  | None => false
  end.

(** The session is either streaming or not: [hooks_set] is true at [wo]
    at most; the two hooks are registered once on [wo] when it is, and not
    at all otherwise; the render instance manager exists exactly then, and
    it is the one of [current_preview], to whose unmapping the plugin
    listens. *)
Definition streaming_inv (w : world) : Prop :=
  (forall k, hooks_set (fst w) !! k = Some true -> k = wo (fst w)) /\
  post_hooks (snd w) = (if armed (fst w) then option_list (wo (fst w)) else []) /\
  effect_hooks (snd w) = (if armed (fst w) then option_list (wo (fst w)) else []) /\
  (is_Some (instance_manager (fst w)) <-> armed (fst w) = true) /\
  (forall v vo, instance_manager (fst w) = Some (v, vo) ->
     current_preview (fst w) = Some v /\ v ∈ view_unmapped_conn (fst w)).

(** A layout as the plugin finds it: nothing is named [live-preview],
    output objects are distinct and older than the next handle, and no hook
    of the plugin is registered. *)
Definition untouched (h : host_t) : Prop :=
  Forall (fun r => o_name r <> live_preview_name) (outputs h) /\
  NoDup (map o_id (outputs h)) /\
  Forall (fun r => (o_id r < next_handle h)%nat) (outputs h) /\
  post_hooks h = [] /\ effect_hooks h = [].

#[global] Instance untouched_dec (h : host_t) : Decision (untouched h).
Proof. unfold untouched. apply _. Defined.

(** The outputs [outs0], all older than the handle [n0], are in the layout
    as they were, and the plugin's own output is none of them. *)
Definition keeps_outputs (outs0 : list output_t) (n0 : output_id) (w : world) : Prop :=
  (n0 <= next_handle (snd w))%nat /\
  (forall o, wo (fst w) = Some o -> (n0 <= o)%nat) /\
  (forall r, r ∈ outs0 -> r ∈ outputs (snd w)).

(** A run for the examples: view 1 is previewed; view 2, taller than wide,
    is requested and the compositor refuses the new mode, so that the
    output is destroyed and created again; the preview is released; view 4
    is previewed on the output that was kept. *)
Definition example_run : list event :=
  [ev_request_stream 1%N (example_answers true); ev_frame 1%nat;
   ev_request_stream 2%N (example_answers false); ev_frame 2%nat; ev_frame 2%nat;
   ev_release_output; ev_view_unmapped 2%N;
   ev_request_stream 4%N (example_answers true); ev_frame 2%nat].

Definition example_final : world := state_after (run_events example_run) (example_initial 2).

(** Calls other than a snapshot. *)
Definition not_snapshot (c : call) : bool :=
  match c with
  | take_snapshot _ _ _ => false
  | _ => true
  end.

(** Whether a frame of output [o] captures in the state [w]: the post hook
    is registered on [o], a window is bound and the throttle is due. *)
Definition frame_captures (o : output_id) (w : world) : bool :=
  bool_decide (o ∈ post_hooks (snd w)) &&
  bool_decide (is_Some (current_preview (fst w))) &&
  (drop_frame (fst w) >=? frame_skip (fst w)).

(** View 3 (0x600) is being previewed and every frame captures. *)
Definition example_degenerate : world :=
  state_after (request_stream 3%N (example_answers true)) (example_initial 0).

(** The plugin after [on_output_pre_remove] ran with an output: the
    unwind of [release_output] with [current_preview] cleared, except that
    the connection to the view stays. *)
Definition pre_removed_plugin (p : plugin_t) : plugin_t :=
  set_view_unmapped_conn (view_unmapped_conn p)
    (set_current_preview None (released_plugin p)).

(** Every [wlr_output_commit_state] of a trace comes right after a
    successful [wlr_output_test_state] of the same output and state;
    [prev] is the call before the trace. *)
Fixpoint commits_tested (prev : option call) (t : list call) : bool :=
  match t with
  | [] => true
  | c :: t' =>
      match c with
      | wlr_output_commit_state o m =>
          match prev with
          | Some (wlr_output_test_state o' m' true) =>
              bool_decide (o' = o) && bool_decide (m' = m)
          | _ => false
          end
      | _ => true
      end && commits_tested (Some c) t'
  end.

(** Calls other than [wlr_output_commit_state]. *)
Definition not_commit (c : call) : bool :=
  match c with
  | wlr_output_commit_state _ _ => false
  | _ => true
  end.

(** The mode of the plugin's output is the size recorded in
    [current_size]. *)
Definition mode_inv (w : world) : Prop :=
  forall o, wo (fst w) = Some o ->
    o_mode <$> find_output o (outputs (snd w)) = Some (current_size (fst w)).

(** ** Accuracy of the binary32 operations *)

Module F32Facts.
Import F32.

Lemma digits2_pos_bounds (p : positive) :
2 ^ (Z.pos (digits2_pos p) - 1) <= Z.pos p < 2 ^ Z.pos (digits2_pos p).
Proof.
induction p as [p IH|p IH|]; cbn [digits2_pos].
- rewrite Pos2Z.inj_succ. replace (Z.succ (Z.pos (digits2_pos p)) - 1) with (Z.succ (Z.pos (digits2_pos p) - 1)) by lia.
  rewrite !Z.pow_succ_r by lia. lia.
- rewrite Pos2Z.inj_succ. replace (Z.succ (Z.pos (digits2_pos p)) - 1) with (Z.succ (Z.pos (digits2_pos p) - 1)) by lia.
  rewrite !Z.pow_succ_r by lia. lia.
- cbn. lia.
Qed.

Lemma Zdigits2_unique (m d : Z) :
2 ^ (d - 1) <= m < 2 ^ d -> 0 < d -> Zdigits2 m = d.
Proof.
intros [Hlo Hhi] Hd.
assert (0 < m) by (pose proof (Z.pow_pos_nonneg 2 (d - 1)); lia).
destruct m as [|p|p]; try lia. cbn [Zdigits2].
pose proof (digits2_pos_bounds p) as [Hlo' Hhi'].
set (d' := Z.pos (digits2_pos p)) in *.
assert (d - 1 < d') by (apply (Z.pow_lt_mono_r_iff 2); lia).
assert (d' - 1 < d) by (apply (Z.pow_lt_mono_r_iff 2); lia).
lia.
Qed.

Lemma iter_pos_nat {A} (f : A -> A) (n : positive) (x : A) :
SpecFloat.iter_pos f n x = Nat.iter (Pos.to_nat n) f x.
Proof.
revert x. induction n as [n IH|n IH|]; intros x; cbn [SpecFloat.iter_pos].
- rewrite !IH, Pos2Nat.inj_xI. 
  replace (S (2 * Pos.to_nat n))%nat with (Pos.to_nat n + (Pos.to_nat n + 1))%nat by lia.
  rewrite !Nat.iter_add. reflexivity.
- rewrite !IH, Pos2Nat.inj_xO.
  replace (2 * Pos.to_nat n)%nat with (Pos.to_nat n + Pos.to_nat n)%nat by lia.
  rewrite Nat.iter_add. reflexivity.
- reflexivity.
Qed.

Lemma shr_1_inloc (mrs : shr_record) (N D : Z) :
0 <= shr_m mrs -> 0 < D ->
inloc (shr_m mrs) (loc_of_shr_record mrs) N D ->
inloc (shr_m (shr_1 mrs)) (loc_of_shr_record (shr_1 mrs)) N (2 * D) /\
shr_m (shr_1 mrs) = shr_m mrs / 2.
Proof.
destruct mrs as [m r s]. cbn [shr_m]. intros Hm HD H.
destruct m as [|[p|p|]|p]; try lia; destruct r, s; cbn in *;
  (split; [nia | try reflexivity; Z.to_euclidean_division_equations; lia]).
Qed.

Lemma shr_iter_inloc (n : nat) (mrs : shr_record) (N D : Z) :
0 <= shr_m mrs -> 0 < D ->
inloc (shr_m mrs) (loc_of_shr_record mrs) N D ->
inloc (shr_m (Nat.iter n shr_1 mrs))
      (loc_of_shr_record (Nat.iter n shr_1 mrs)) N (2 ^ Z.of_nat n * D) /\
shr_m (Nat.iter n shr_1 mrs) = shr_m mrs / 2 ^ Z.of_nat n.
Proof.
intros Hm HD H. induction n as [|n [IHl IHm]].
- cbn [Nat.iter]. change (2 ^ Z.of_nat 0) with 1.
  rewrite Z.mul_1_l, Z.div_1_r. auto.
- change (Nat.iter (S n) shr_1 mrs) with (shr_1 (Nat.iter n shr_1 mrs)).
  rewrite Nat2Z.inj_succ, Z.pow_succ_r by lia.
  assert (Hp : 0 < 2 ^ Z.of_nat n) by (apply Z.pow_pos_nonneg; lia).
  destruct (shr_1_inloc (Nat.iter n shr_1 mrs) N (2 ^ Z.of_nat n * D)) as [Hl' Hm'].
  + rewrite IHm. apply Z.div_pos; lia.
  + lia.
  + exact IHl.
  + split.
    * replace (2 * 2 ^ Z.of_nat n * D) with (2 * (2 ^ Z.of_nat n * D)) by ring. exact Hl'.
    * rewrite Hm', IHm, Z.div_div by lia. f_equal. ring.
Qed.

Lemma shr_nat (mrs : shr_record) (e n : Z) :
0 <= n -> shr mrs e n = (Nat.iter (Z.to_nat n) shr_1 mrs, e + n).
Proof.
intros Hn. destruct n as [|p|p]; try lia; cbn [shr].
- rewrite Z.add_0_r. reflexivity.
- rewrite iter_pos_nat. reflexivity.
Qed.

Lemma shr_record_of_loc_m (m : Z) (l : location) :
shr_m (shr_record_of_loc m l) = m.
Proof. destruct l as [|[]]; reflexivity. Qed.

Lemma loc_of_shr_record_of_loc (m : Z) (l : location) :
loc_of_shr_record (shr_record_of_loc m l) = l.
Proof. destruct l as [|[]]; reflexivity. Qed.

Lemma round_nearest_even_inloc (m : Z) (l : location) (N D : Z) :
0 < D -> inloc m l N D ->
m <= round_nearest_even m l <= m + 1 /\
2 * Z.abs (round_nearest_even m l * D - N) <= D.
Proof.
intros HD H. destruct l as [|[]]; cbn in *; try (destruct (Z.even m)); nia.
Qed.

Lemma inloc_lower (m : Z) (l : location) (N D : Z) :
0 < D -> inloc m l N D -> m * D <= N.
Proof. intros HD H. destruct l as [|[]]; cbn in H; nia. Qed.

(** Rounding to binary32 in the normal range: the result is a canonical
  finite float within relative error [2^-24] of the exact value
  [N/D * 2^ex]. *)
Lemma binary_round_aux_correct (mx ex : Z) (lx : location) (N D : Z) :
0 < mx -> 0 < D -> inloc mx lx N D ->
24 <= Zdigits2 mx -> -149 <= Zdigits2 mx + ex - 24 -> Zdigits2 mx + ex <= 127 ->
exists (m : positive) (e : Z),
  binary_round_aux 24 128 false mx ex lx = S754_finite false m e /\
  2 ^ 23 <= Z.pos m < 2 ^ 24 /\
  Zdigits2 mx + ex - 24 <= e <= Zdigits2 mx + ex - 23 /\
  2 ^ 24 * Z.abs (Z.pos m * 2 ^ (e - ex) * D - N) <= N.
Proof.
intros Hmx HD Hloc Hd Hlo Hhi.
set (d := Zdigits2 mx) in *.
set (n := d - 24).
assert (Hdig : 2 ^ (d - 1) <= mx < 2 ^ d).
{ destruct mx as [|p|p]; try lia. apply digits2_pos_bounds. }
assert (Hpn : 0 < 2 ^ n) by (apply Z.pow_pos_nonneg; lia).
assert (Hsplit1 : 2 ^ (d - 1) = 2 ^ 23 * 2 ^ n).
{ rewrite <- Z.pow_add_r by lia. f_equal. lia. }
assert (Hsplit2 : 2 ^ d = 2 ^ 24 * 2 ^ n).
{ rewrite <- Z.pow_add_r by lia. f_equal. lia. }
unfold binary_round_aux, shr_fexp. fold d.
replace (fexp 24 128 (d + ex) - ex) with n by (unfold fexp, emin, n; lia).
rewrite shr_nat by lia.
destruct (shr_iter_inloc (Z.to_nat n) (shr_record_of_loc mx lx) N D) as [Hl1 Hm1].
{ rewrite shr_record_of_loc_m. lia. }
{ exact HD. }
{ rewrite shr_record_of_loc_m, loc_of_shr_record_of_loc. exact Hloc. }
rewrite Z2Nat.id in Hl1, Hm1 by lia. rewrite shr_record_of_loc_m in Hm1.
set (mrs1 := Nat.iter (Z.to_nat n) shr_1 (shr_record_of_loc mx lx)) in *.
assert (Hm1r : 2 ^ 23 <= shr_m mrs1 < 2 ^ 24).
{ rewrite Hm1. split.
  - apply Z.div_le_lower_bound; lia.
  - apply Z.div_lt_upper_bound; lia. }
assert (HD' : 0 < 2 ^ n * D) by (apply Z.mul_pos_pos; lia).
destruct (round_nearest_even_inloc _ _ _ _ HD' Hl1) as [Hr Herr].
set (mr := round_nearest_even (shr_m mrs1) (loc_of_shr_record mrs1)) in *.
pose proof (inloc_lower _ _ _ _ HD Hloc) as HN.
assert (HNlow : 2 ^ 23 * (2 ^ n * D) <= N) by nia.
destruct (Z_lt_le_dec mr (2 ^ 24)) as [Hlt|Hge].
- (* no carry *)
  rewrite (Zdigits2_unique mr 24) by lia.
  replace (fexp 24 128 (24 + (ex + n)) - (ex + n)) with 0
    by (unfold fexp, emin, n; lia).
  cbn [shr shr_record_of_loc shr_m].
  destruct mr as [|pm|pm] eqn:Emr; try lia.
  exists pm, (ex + n).
  replace (ex + n <=? 128 - 24) with true by (symmetry; apply Z.leb_le; unfold n; lia).
  split; [reflexivity|]. split; [lia|]. split; [unfold n; lia|].
  replace (ex + n - ex) with n by lia. nia.
- (* the rounded mantissa reaches 2^24 and is renormalised *)
  assert (Emr : mr = 16777216) by (change (2 ^ 24) with 16777216 in *; lia).
  rewrite Emr in *.
  replace (fexp 24 128 (Zdigits2 16777216 + (ex + n)) - (ex + n)) with 1
    by (cbn [Zdigits2 digits2_pos Pos.succ]; unfold fexp, emin, n; lia).
  cbn -[Z.leb Z.add Z.sub fexp].
  exists 8388608%positive, (ex + n + 1).
  replace (ex + n + 1 <=? 128 - 24) with true by (symmetry; apply Z.leb_le; unfold n; lia).
  split; [reflexivity|]. split; [cbn; lia|]. split; [unfold n; lia|].
  replace (ex + n + 1 - ex) with (n + 1) by lia.
  rewrite Z.pow_add_r by lia. change (2 ^ 1) with 2. nia.
Qed.

Lemma bpow_pos (e : Z) : (0 < bpow e)%R.
Proof. apply powerRZ_lt. lra. Qed.

Lemma bpow_add (a b : Z) : bpow (a + b) = (bpow a * bpow b)%R.
Proof. apply powerRZ_add. lra. Qed.

Lemma bpow_IZR (k : Z) : 0 <= k -> bpow k = IZR (2 ^ k).
Proof.
intros Hk. unfold bpow. rewrite <- (Z2Nat.id k) by lia.
rewrite <- pow_IZR, pow_powerRZ. reflexivity.
Qed.

(** From the integer form of the error bound to the real one. *)
Lemma rel_error_Z_R (m : positive) (e ex N D : Z) :
ex <= e -> 0 < D -> 0 <= N ->
2 ^ 24 * Z.abs (Z.pos m * 2 ^ (e - ex) * D - N) <= N ->
(Rabs (F2R m e - IZR N / IZR D * bpow ex) <= IZR N / IZR D * bpow ex * u32)%R.
Proof.
intros He HD HN H.
assert (HDr : (0 < IZR D)%R) by (apply IZR_lt; lia).
pose proof (bpow_pos ex) as Hb.
unfold F2R. replace e with ((e - ex) + ex) at 1 by lia.
rewrite bpow_add, (bpow_IZR (e - ex)) by lia.
apply IZR_le in H. rewrite mult_IZR, abs_IZR, minus_IZR, !mult_IZR in H.
change (IZR (2 ^ 24)) with 16777216%R in H.
set (A := (IZR (Z.pos m) * IZR (2 ^ (e - ex)))%R) in *.
replace (IZR (Z.pos m) * (IZR (2 ^ (e - ex)) * bpow ex) - IZR N / IZR D * bpow ex)%R
  with ((A * IZR D - IZR N) * (bpow ex / IZR D))%R by (unfold A; field; lra).
rewrite Rabs_mult, (Rabs_pos_eq (bpow ex / IZR D)).
2:{ apply Rlt_le, Rdiv_lt_0_compat; lra. }
replace (IZR N / IZR D * bpow ex * u32)%R
  with ((IZR N * u32) * (bpow ex / IZR D))%R by (field; lra).
apply Rmult_le_compat_r.
- apply Rlt_le, Rdiv_lt_0_compat; lra.
- unfold u32. lra.
Qed.

Lemma Zdigits2_range (m a b : Z) :
0 <= a -> 2 ^ a <= m < 2 ^ b -> a < Zdigits2 m <= b.
Proof.
intros Ha [Hlo Hhi].
assert (0 < m) by (pose proof (Z.pow_pos_nonneg 2 a); lia).
destruct m as [|p|p]; try lia. cbn [Zdigits2].
pose proof (digits2_pos_bounds p) as [Hlo' Hhi'].
assert (0 <= b).
{ destruct (Z_lt_le_dec b 0) as [Hb|Hb]; [|lia]. rewrite Z.pow_neg_r in Hhi by lia. lia. }
split.
- apply (Z.pow_lt_mono_r_iff 2); lia.
- assert (Z.pos (digits2_pos p) - 1 < b) by (apply (Z.pow_lt_mono_r_iff 2); lia). lia.
Qed.

Lemma pos_iter_xO (d p : positive) :
Z.pos (Pos.iter xO p d) = Z.pos p * 2 ^ Z.pos d.
Proof.
induction d as [|d IH] using Pos.peano_ind.
- cbn. lia.
- rewrite Pos.iter_succ, Pos2Z.inj_xO, IH, Pos2Z.inj_succ, Z.pow_succ_r by lia. ring.
Qed.

Lemma of_int_correct (n : Z) :
0 < n < 2 ^ 31 ->
exists (m : positive) (e : Z),
  of_int n = S754_finite false m e /\
  2 ^ 23 <= Z.pos m < 2 ^ 24 /\ -23 <= e <= 8 /\
  (Rabs (F2R m e - IZR n) <= IZR n * u32)%R.
Proof.
intros Hn. destruct n as [|p|p]; try lia.
unfold of_int, binary_normalize, binary_round, shl_align.
pose proof (digits2_pos_bounds p) as Hdig.
destruct (Zdigits2_range (Z.pos p) 0 31 ltac:(lia) ltac:(change (2^0) with 1; lia)) as [Hd0 Hd1].
cbn [Zdigits2] in Hd0, Hd1.
set (d := Z.pos (digits2_pos p)) in *.
replace (fexp 24 128 (d + 0) - 0) with (d - 24) by (unfold fexp, emin; lia).
destruct (d - 24) as [|k|k] eqn:Ek.
- destruct (binary_round_aux_correct (Z.pos p) 0 loc_Exact (Z.pos p) 1)
    as (m & e & Heq & Hm & He & Herr); cbn [Zdigits2 inloc]; fold d; try lia.
  cbn [Zdigits2] in He; fold d in He.
  exists m, e. split; [exact Heq|]. split; [exact Hm|]. split; [lia|].
  pose proof (rel_error_Z_R m e 0 (Z.pos p) 1 ltac:(lia) ltac:(lia) ltac:(lia) Herr) as H.
  unfold bpow in H. cbn [powerRZ] in H.
  replace (IZR (Z.pos p) / 1 * 1)%R with (IZR (Z.pos p)) in H by field. exact H.
- destruct (binary_round_aux_correct (Z.pos p) 0 loc_Exact (Z.pos p) 1)
    as (m & e & Heq & Hm & He & Herr); cbn [Zdigits2 inloc]; fold d; try lia.
  cbn [Zdigits2] in He; fold d in He.
  exists m, e. split; [exact Heq|]. split; [exact Hm|]. split; [lia|].
  pose proof (rel_error_Z_R m e 0 (Z.pos p) 1 ltac:(lia) ltac:(lia) ltac:(lia) Herr) as H.
  unfold bpow in H. cbn [powerRZ] in H.
  replace (IZR (Z.pos p) / 1 * 1)%R with (IZR (Z.pos p)) in H by field. exact H.
- (* fewer than 24 digits: the mantissa is shifted left, exactly *)
  set (mz := Pos.iter xO p k).
  assert (Hmz : Z.pos mz = Z.pos p * 2 ^ Z.pos k) by apply pos_iter_xO.
  assert (Hk : Z.pos k = 24 - d) by lia.
  assert (Hpk : 0 < 2 ^ Z.pos k) by (apply Z.pow_pos_nonneg; lia).
  assert (Hmzr : 2 ^ 23 <= Z.pos mz < 2 ^ 24).
  { assert (E1 : 2 ^ 23 = 2 ^ (d - 1) * 2 ^ Z.pos k)
      by (rewrite <- Z.pow_add_r by lia; f_equal; lia).
    assert (E2 : 2 ^ 24 = 2 ^ d * 2 ^ Z.pos k)
      by (rewrite <- Z.pow_add_r by lia; f_equal; lia).
    rewrite Hmz, E1, E2. nia. }
  assert (Hdz : Zdigits2 (Z.pos mz) = 24) by (apply Zdigits2_unique; lia).
  replace (fexp 24 128 (d + 0)) with (d - 24) by (unfold fexp, emin; lia).
  destruct (binary_round_aux_correct (Z.pos mz) (d - 24) loc_Exact (Z.pos mz) 1)
    as (m & e & Heq & Hm & He & Herr); rewrite ?Hdz; cbn [inloc]; try lia.
  rewrite Hdz in He.
  exists m, e. split; [exact Heq|]. split; [exact Hm|]. split; [lia|].
  pose proof (rel_error_Z_R m e (d - 24) (Z.pos mz) 1 ltac:(lia) ltac:(lia) ltac:(lia) Herr) as H.
  assert (Hval : (IZR (Z.pos mz) / 1 * bpow (d - 24))%R = IZR (Z.pos p)).
  { rewrite Hmz, mult_IZR, <- bpow_IZR by lia. 
    replace (IZR (Z.pos p) * bpow (Z.pos k) / 1 * bpow (d - 24))%R
      with (IZR (Z.pos p) * (bpow (Z.pos k) * bpow (d - 24)))%R by field.
    rewrite <- bpow_add. replace (Z.pos k + (d - 24)) with 0 by lia.
    unfold bpow. cbn [powerRZ]. ring. }
  rewrite Hval in H. exact H.
Qed.

Lemma fmul_correct (m1 m2 : positive) (e1 e2 : Z) :
2 ^ 23 <= Z.pos m1 < 2 ^ 24 -> 2 ^ 23 <= Z.pos m2 < 2 ^ 24 ->
-140 <= e1 + e2 <= 60 ->
exists (m : positive) (e : Z),
  fmul (S754_finite false m1 e1) (S754_finite false m2 e2) = S754_finite false m e /\
  2 ^ 23 <= Z.pos m < 2 ^ 24 /\ e1 + e2 + 23 <= e <= e1 + e2 + 25 /\
  (Rabs (F2R m e - F2R m1 e1 * F2R m2 e2) <= F2R m1 e1 * F2R m2 e2 * u32)%R.
Proof.
intros H1 H2 He.
assert (Hprod : 2 ^ 46 <= Z.pos (m1 * m2) < 2 ^ 48).
{ rewrite Pos2Z.inj_mul. change (2 ^ 46) with (2 ^ 23 * 2 ^ 23).
  change (2 ^ 48) with (2 ^ 24 * 2 ^ 24). nia. }
destruct (Zdigits2_range _ 46 48 ltac:(lia) Hprod) as [Hd0 Hd1].
unfold fmul, SFmul. cbn [xorb].
destruct (binary_round_aux_correct (Z.pos (m1 * m2)) (e1 + e2) loc_Exact (Z.pos (m1 * m2)) 1)
  as (m & e & Heq & Hm & Hex & Herr); cbn [inloc]; try lia.
exists m, e. split; [exact Heq|]. split; [exact Hm|]. split; [lia|].
pose proof (rel_error_Z_R m e (e1 + e2) (Z.pos (m1 * m2)) 1
              ltac:(lia) ltac:(lia) ltac:(lia) Herr) as H.
replace (IZR (Z.pos (m1 * m2)) / 1 * bpow (e1 + e2))%R
  with (F2R m1 e1 * F2R m2 e2)%R in H.
- exact H.
- unfold F2R. rewrite Pos2Z.inj_mul, mult_IZR, bpow_add. field.
Qed.

Lemma new_location_inloc (D q r : Z) :
0 < D -> 0 <= r < D -> inloc q (new_location D r) (q * D + r) D.
Proof.
intros HD Hr. unfold new_location, new_location_even, new_location_odd.
destruct (Z.even D) eqn:Ev; destruct (Z.eqb_spec r 0) as [->|Hr0]; cbn [inloc]; try lia.
- destruct (Z.compare_spec (2 * r) D); cbn [inloc]; lia.
- assert (Hodd : Z.odd D = true) by (rewrite <- Z.negb_even, Ev; reflexivity).
  apply Z.odd_spec in Hodd. destruct Hodd as [k Hk].
  destruct (Z.compare_spec (2 * r + 1) D); cbn [inloc]; lia.
Qed.

Lemma fdiv_correct (m1 m2 : positive) (e1 e2 : Z) :
2 ^ 23 <= Z.pos m1 < 2 ^ 24 -> 2 ^ 23 <= Z.pos m2 < 2 ^ 24 ->
-100 <= e1 - e2 <= 100 ->
exists (m : positive) (e : Z),
  fdiv (S754_finite false m1 e1) (S754_finite false m2 e2) = S754_finite false m e /\
  2 ^ 23 <= Z.pos m < 2 ^ 24 /\ e1 - e2 - 24 <= e <= e1 - e2 - 22 /\
  (Rabs (F2R m e - F2R m1 e1 / F2R m2 e2) <= F2R m1 e1 / F2R m2 e2 * u32)%R.
Proof.
intros H1 H2 He.
unfold fdiv, SFdiv, SFdiv_core_binary. cbn [xorb].
rewrite (Zdigits2_unique (Z.pos m1) 24), (Zdigits2_unique (Z.pos m2) 24) by lia.
replace (Z.min (fexp 24 128 (24 + e1 - (24 + e2))) (e1 - e2)) with (e1 - e2 - 24)
  by (unfold fexp, emin; lia).
replace (e1 - e2 - (e1 - e2 - 24)) with 24 by lia.
cbv beta iota zeta.
rewrite Z.shiftl_mul_pow2 by lia.
pose proof (Z_div_mod (Z.pos m1 * 2 ^ 24) (Z.pos m2) ltac:(lia)) as Hdm.
destruct (Z.div_eucl (Z.pos m1 * 2 ^ 24) (Z.pos m2)) as [q r]. destruct Hdm as [Hq Hr].
assert (Hqr : 2 ^ 23 <= q < 2 ^ 25).
{ change (2 ^ 25) with (2 * 2 ^ 24). change (2 ^ 24) with (2 * 2 ^ 23) in *. nia. }
destruct (Zdigits2_range q 23 25 ltac:(lia) Hqr) as [Hd0 Hd1].
destruct (binary_round_aux_correct q (e1 - e2 - 24) (new_location (Z.pos m2) r)
            (Z.pos m1 * 2 ^ 24) (Z.pos m2))
  as (m & e & Heq & Hm & Hex & Herr); try lia.
{ rewrite Hq. replace (Z.pos m2 * q + r) with (q * Z.pos m2 + r) by ring.
  apply new_location_inloc; lia. }
exists m, e. split; [exact Heq|]. split; [exact Hm|]. split; [lia|].
pose proof (rel_error_Z_R m e (e1 - e2 - 24) (Z.pos m1 * 2 ^ 24) (Z.pos m2)
              ltac:(lia) ltac:(lia) ltac:(lia) Herr) as H.
replace (IZR (Z.pos m1 * 2 ^ 24) / IZR (Z.pos m2) * bpow (e1 - e2 - 24))%R
  with (F2R m1 e1 / F2R m2 e2)%R in H.
- exact H.
- unfold F2R. rewrite mult_IZR, <- (bpow_IZR 24) by lia.
  replace e1 with ((e1 - e2 - 24) + 24 + e2) at 1 by lia. rewrite !bpow_add.
  pose proof (bpow_pos e2). pose proof (bpow_pos 24).
  assert (0 < IZR (Z.pos m2))%R by (apply IZR_lt; lia).
  field. lra.
Qed.

Lemma shiftl_floor (m : positive) (e : Z) :
(IZR (Z.shiftl (Z.pos m) e) <= F2R m e < IZR (Z.shiftl (Z.pos m) e) + 1)%R.
Proof.
unfold F2R. destruct (Z_le_gt_dec 0 e) as [He|He].
- rewrite Z.shiftl_mul_pow2, mult_IZR, <- bpow_IZR by lia. lra.
- rewrite Z.shiftl_div_pow2 by lia.
  set (k := - e). assert (Hk : 0 < k) by (unfold k; lia).
  assert (Hp : 0 < 2 ^ k) by (apply Z.pow_pos_nonneg; lia).
  set (t := Z.pos m / 2 ^ k).
  assert (Ht : t * 2 ^ k <= Z.pos m < (t + 1) * 2 ^ k).
  { unfold t. Z.to_euclidean_division_equations. nia. }
  destruct Ht as [Ht1 Ht2]. apply IZR_le in Ht1. apply IZR_lt in Ht2.
  rewrite mult_IZR in Ht1, Ht2. rewrite plus_IZR in Ht2.
  rewrite <- bpow_IZR in Ht1, Ht2 by lia.
  replace e with (- k) by (unfold k; lia).
  change (bpow (- k)) with (powerRZ 2 (- k)). rewrite powerRZ_neg'. fold (bpow k).
  pose proof (bpow_pos k) as Hb.
  split.
  + apply (Rmult_le_reg_r (bpow k)); [exact Hb|].
    replace (IZR (Z.pos m) * / bpow k * bpow k)%R with (IZR (Z.pos m)) by (field; lra).
    exact Ht1.
  + apply (Rmult_lt_reg_r (bpow k)); [exact Hb|].
    replace (IZR (Z.pos m) * / bpow k * bpow k)%R with (IZR (Z.pos m)) by (field; lra).
    exact Ht2.
Qed.

Lemma rel_ratio (x y : R) :
(0 < x)%R -> (Rabs (y - x) <= x * u32)%R ->
exists rho : R, y = (x * rho)%R /\ (1 - u32 <= rho <= 1 + u32)%R.
Proof.
intros Hx H. exists (y / x)%R. split; [field; lra|].
assert (H1 : (- (x * u32) <= y - x)%R)
  by (unfold Rabs in H; destruct (Rcase_abs (y - x)); lra).
assert (H2 : (y - x <= x * u32)%R)
  by (unfold Rabs in H; destruct (Rcase_abs (y - x)); lra).
clear H. split.
- apply (Rmult_le_reg_r x); [exact Hx|].
  replace (y / x * x)%R with y by (field; lra). lra.
- apply (Rmult_le_reg_r x); [exact Hx|].
  replace (y / x * x)%R with y by (field; lra). lra.
Qed.

Lemma Rmult_interval (x y a b c d : R) :
(a <= x <= b)%R -> (c <= y <= d)%R -> (0 <= a)%R -> (0 <= c)%R ->
(a * c <= x * y <= b * d)%R.
Proof.
intros [Hx1 Hx2] [Hy1 Hy2] Ha Hc. split; apply Rmult_le_compat; lra.
Qed.

Lemma Rinv_interval (x : R) :
(1 - u32 <= x <= 1 + u32)%R -> (1 - u32 <= / x <= 1 + 2 * u32)%R.
Proof.
unfold u32. intros [H1 H2].
assert (Hx : (0 < x)%R) by lra.
assert (Hi : (0 < / x)%R) by (apply Rinv_0_lt_compat; exact Hx).
assert (E : (x * / x = 1)%R) by (field; lra).
split.
- apply (Rmult_le_reg_l x); [exact Hx|]. rewrite E. nra.
- apply (Rmult_le_reg_l x); [exact Hx|]. rewrite E. nra.
Qed.

Lemma F2R_pos (m : positive) (e : Z) : (0 < F2R m e)%R.
Proof.
unfold F2R. apply Rmult_lt_0_compat; [apply IZR_lt; lia | apply bpow_pos].
Qed.


End F32Facts.

(** ** The scaling computation *)

Section Scaling.
Import F32 F32Facts.

Lemma scale_float_correct (s L M : Z) :
0 < s < 2 ^ 31 -> 0 < L < 2 ^ 31 -> 0 < M < 2 ^ 31 ->
exists (m : positive) (e : Z) (rho : R),
  scale_float s L M = S754_finite false m e /\
  F2R m e = (IZR s * IZR M / IZR L * rho)%R /\
  (1 - 5 * u32 <= rho <= 1 + 7 * u32)%R.
Proof.
intros Hs HL HM.
destruct (of_int_correct s Hs) as (ma & ea & Ea & Hma & Hea & Ra).
destruct (of_int_correct L HL) as (mb & eb & Eb & Hmb & Heb & Rb).
destruct (of_int_correct M HM) as (mc & ec & Ec & Hmc & Hec & Rc).
destruct (fdiv_correct mc mb ec eb Hmc Hmb ltac:(lia)) as (mq & eq & Eq & Hmq & Heq & Rq).
destruct (fmul_correct ma mq ea eq Hma Hmq ltac:(lia)) as (mp & ep & Ep & Hmp & Hep & Rp).
assert (Hsr : (0 < IZR s)%R) by (apply IZR_lt; lia).
assert (HLr : (0 < IZR L)%R) by (apply IZR_lt; lia).
assert (HMr : (0 < IZR M)%R) by (apply IZR_lt; lia).
pose proof (F2R_pos ma ea) as Pa. pose proof (F2R_pos mb eb) as Pb.
pose proof (F2R_pos mc ec) as Pc. pose proof (F2R_pos mq eq) as Pq.
destruct (rel_ratio _ _ Hsr Ra) as (r1 & E1 & B1).
destruct (rel_ratio _ _ HLr Rb) as (r2 & E2 & B2).
destruct (rel_ratio _ _ HMr Rc) as (r3 & E3 & B3).
destruct (rel_ratio _ _ (Rdiv_lt_0_compat _ _ Pc Pb) Rq) as (r4 & E4 & B4).
destruct (rel_ratio _ _ (Rmult_lt_0_compat _ _ Pa Pq) Rp) as (r5 & E5 & B5).
pose proof (Rinv_interval r2 B2) as B2'.
exists mp, ep, (r1 * r3 * r4 * r5 * / r2)%R.
split; [unfold scale_float; rewrite Ea, Eb, Ec, Eq; exact Ep|].
assert (Hr2 : (0 < r2)%R) by (unfold u32 in B2; lra).
split.
- rewrite E5, E4, E1, E3, E2. field. split; lra.
- unfold u32 in *.
  pose proof (Rmult_interval _ _ _ _ _ _ B1 B3) as I1.
  specialize (I1 ltac:(lra) ltac:(lra)).
  pose proof (Rmult_interval _ _ _ _ _ _ I1 B4) as I2.
  specialize (I2 ltac:(lra) ltac:(lra)).
  pose proof (Rmult_interval _ _ _ _ _ _ I2 B5) as I3.
  specialize (I3 ltac:(lra) ltac:(lra)).
  pose proof (Rmult_interval _ _ _ _ _ _ I3 B2') as I4.
  specialize (I4 ltac:(lra) ltac:(lra)).
  lra.
Qed.

Lemma scale_side_correct (s L M : Z) :
0 < s <= L -> L < 2 ^ 31 -> 0 < M <= 2 ^ 21 ->
exists p : Z,
  scale_side s L M = Some p /\ 0 <= p <= M /\ Z.abs (p - s * M / L) <= 1 /\
  (7 * (s * M) < 2 ^ 24 -> s * M - L <= p * L <= s * M).
Proof.
intros Hs HL HM.
destruct (scale_float_correct s L M) as (m & e & rho & Ef & Ev & Hrho); try lia.
pose proof (shiftl_floor m e) as [Ht1 Ht2].
set (t := Z.shiftl (Z.pos m) e) in *.
set (k := s * M / L).
assert (Hk : k * L <= s * M < (k + 1) * L).
{ unfold k. Z.to_euclidean_division_equations. nia. }
assert (Hsr : (0 < IZR s)%R) by (apply IZR_lt; lia).
assert (HLr : (0 < IZR L)%R) by (apply IZR_lt; lia).
assert (HMr : (0 < IZR M)%R) by (apply IZR_lt; lia).
set (v := (IZR s * IZR M / IZR L)%R) in *.
assert (Hv0 : (0 < v)%R).
{ unfold v. apply Rdiv_lt_0_compat; [apply Rmult_lt_0_compat|]; lra. }
assert (HvL : (v * IZR L = IZR s * IZR M)%R) by (unfold v; field; lra).
assert (HvM : (v <= IZR M)%R).
{ apply (Rmult_le_reg_r (IZR L)); [exact HLr|]. rewrite HvL, <- !mult_IZR.
  apply IZR_le. nia. }
assert (HM21 : (IZR M <= 2097152)%R) by (apply IZR_le; exact (proj2 HM)).
assert (Hvk : (IZR k <= v < IZR k + 1)%R).
{ destruct Hk as [Hk1 Hk2]. apply IZR_le in Hk1. apply IZR_lt in Hk2.
  rewrite !mult_IZR in Hk1. rewrite !mult_IZR, plus_IZR in Hk2. rewrite <- HvL in Hk1, Hk2.
  split.
  - apply (Rmult_le_reg_r (IZR L)); [exact HLr|]. exact Hk1.
  - apply (Rmult_lt_reg_r (IZR L)); [exact HLr|]. exact Hk2. }
assert (Herr : (v - 7 / 8 <= F2R m e <= v + 7 / 8)%R).
{ rewrite Ev. unfold u32 in Hrho. nra. }
assert (Htk1 : t < k + 2).
{ apply lt_IZR. rewrite plus_IZR. lra. }
assert (Htk2 : k - 2 < t).
{ apply lt_IZR. rewrite minus_IZR. lra. }
assert (HtM : t < M + 1).
{ apply lt_IZR. rewrite plus_IZR. lra. }
assert (Ht0 : -1 < t).
{ apply lt_IZR. pose proof (F2R_pos m e). lra. }
exists t. unfold scale_side. rewrite Ef. cbn [to_int cond_Zopp]. fold t.
replace ((INT_MIN <=? t) && (t <=? INT_MAX)) with true.
- split; [reflexivity|]. split; [lia|]. split; [lia|].
  intros Hsmall.
  assert (HX : (7 * (IZR s * IZR M) < 16777216)%R).
  { rewrite <- mult_IZR. change 7%R with (IZR 7). rewrite <- mult_IZR.
    apply IZR_lt. exact Hsmall. }
  assert (HX0 : (0 < IZR s * IZR M)%R) by (apply Rmult_lt_0_compat; lra).
  assert (HPL : (F2R m e * IZR L = IZR s * IZR M * rho)%R).
  { rewrite Ev. unfold v. field. lra. }
  assert (HPLb : (IZR s * IZR M - 1 < F2R m e * IZR L < IZR s * IZR M + 1)%R).
  { rewrite HPL. unfold u32 in Hrho. nra. }
  assert (HtL1 : (IZR t * IZR L <= F2R m e * IZR L)%R)
    by (apply Rmult_le_compat_r; lra).
  assert (HtL2 : (F2R m e * IZR L < (IZR t + 1) * IZR L)%R)
    by (apply Rmult_lt_compat_r; lra).
  split.
  + assert (s * M - 1 < (t + 1) * L); [|lia].
    apply lt_IZR. rewrite minus_IZR, !mult_IZR, plus_IZR. lra.
  + assert (t * L < s * M + 1); [|lia].
    apply lt_IZR. rewrite plus_IZR, !mult_IZR. lra.
- symmetry. apply andb_true_intro. unfold INT_MIN, INT_MAX.
  split; apply Z.leb_le; lia.
Qed.

Example scale_side_800x600 : scale_side 600 800 256 = Some 192.
Proof. vm_compute. reflexivity. Qed.

End Scaling.

Arguments F32.of_int : simpl never.
Arguments F32.fdiv : simpl never.
Arguments F32.fmul : simpl never.
Arguments F32.to_int : simpl never.

(** ** The output layout *)

Section Layout.

Lemma find_output_id (o : output_id) (os : list output_t) (r : output_t) :
  find_output o os = Some r -> o_id r = o.
Proof.
  induction os as [|r' os IH]; cbn; [discriminate|].
  destruct (Nat.eqb_spec (o_id r') o); [intros [= <-]; assumption|exact IH].
Qed.

Lemma find_output_elem (o : output_id) (os : list output_t) (r : output_t) :
  find_output o os = Some r -> r ∈ os.
Proof.
  induction os as [|r' os IH]; cbn; [discriminate|].
  destruct (Nat.eqb (o_id r') o).
  - intros [= <-]. left.
  - intros H. right. auto.
Qed.

Lemma find_output_None (o : output_id) (os : list output_t) :
  find_output o os = None <-> o ∉ map o_id os.
Proof.
  induction os as [|r os IH]; cbn.
  - split; [intros _; apply not_elem_of_nil|reflexivity].
  - rewrite not_elem_of_cons. destruct (Nat.eqb_spec (o_id r) o); split.
    + discriminate.
    + intros [Hne _]. congruence.
    + intros H. split; [congruence|apply IH; exact H].
    + intros [_ H]. apply IH; exact H.
Qed.

Lemma update_output_ids (o : output_id) (f : output_t -> output_t) (os : list output_t) :
  (forall r, o_id (f r) = o_id r) ->
  map o_id (update_output o f os) = map o_id os.
Proof.
  intros Hf. unfold update_output. induction os as [|r os IH]; cbn; [reflexivity|].
  rewrite IH. destruct (Nat.eqb (o_id r) o); rewrite ?Hf; reflexivity.
Qed.

Lemma find_output_update (o o' : output_id) (f : output_t -> output_t) (os : list output_t) :
  (forall r, o_id (f r) = o_id r) ->
  find_output o (update_output o' f os) =
  (fun r => if Nat.eqb (o_id r) o' then f r else r) <$> find_output o os.
Proof.
  intros Hf. unfold update_output. induction os as [|r os IH]; cbn; [reflexivity|].
  destruct (Nat.eqb (o_id r) o') eqn:E'; rewrite ?Hf;
    destruct (Nat.eqb (o_id r) o) eqn:E; cbn; rewrite ?E'; auto.
Qed.

Lemma update_output_notin (o : output_id) (f : output_t -> output_t) (os : list output_t) :
  o ∉ map o_id os -> update_output o f os = os.
Proof.
  unfold update_output. induction os as [|r os IH]; cbn; [reflexivity|].
  rewrite not_elem_of_cons. intros [Hne Hnot].
  destruct (Nat.eqb_spec (o_id r) o); [congruence|]. rewrite IH; auto.
Qed.

Lemma update_output_cons (o : output_id) (f : output_t -> output_t)
    (r : output_t) (os : list output_t) :
  update_output o f (r :: os) =
  (if Nat.eqb (o_id r) o then f r else r) :: update_output o f os.
Proof. reflexivity. Qed.

(** Setting a scale and setting the old one back leaves the layout as it
    was. *)
Lemma update_output_restore (o : output_id) (s : spec_float) (os : list output_t) (r : output_t) :
  NoDup (map o_id os) -> find_output o os = Some r ->
  update_output o (with_scale (o_scale r)) (update_output o (with_scale s) os) = os.
Proof.
  induction os as [|r' os IH]; [discriminate|].
  rewrite fmap_cons, update_output_cons. cbn [find_output].
  intros Hnd Hfind. apply NoDup_cons in Hnd as [Hnot Hnd].
  destruct (Nat.eqb_spec (o_id r') o) as [Heq|Hne].
  - injection Hfind as ->. rewrite update_output_cons. cbn [with_scale o_id].
    rewrite (proj2 (Nat.eqb_eq _ _) Heq).
    rewrite (update_output_notin o (with_scale s) os) by (rewrite <- Heq; exact Hnot).
    rewrite update_output_notin by (rewrite <- Heq; exact Hnot).
    destruct r; reflexivity.
  - rewrite update_output_cons, (proj2 (Nat.eqb_neq _ _) Hne). rewrite IH; auto.
Qed.

Lemma find_output_remove_ne (o o' : output_id) (os : list output_t) :
  o <> o' -> find_output o (remove_output o' os) = find_output o os.
Proof.
  intros Hne. unfold remove_output. induction os as [|r os IH]; [reflexivity|].
  rewrite filter_cons. destruct (decide (o_id r <> o')) as [Hd|Hd]; cbn.
  - rewrite IH. reflexivity.
  - destruct (Nat.eqb_spec (o_id r) o); [|exact IH].
    exfalso. apply Hd. congruence.
Qed.

Lemma find_output_app (o : output_id) (os os' : list output_t) :
  find_output o (os ++ os') =
  match find_output o os with Some r => Some r | None => find_output o os' end.
Proof.
  induction os as [|r os IH]; cbn; [reflexivity|].
  destruct (Nat.eqb (o_id r) o); auto.
Qed.

Lemma find_output_by_name_alive (name : string) (os : list output_t) (o : output_id) :
  find_output_by_name name os = Some o -> is_Some (find_output o os).
Proof.
  induction os as [|r os IH]; cbn; [discriminate|].
  destruct (String.eqb (o_name r) name).
  - intros [= <-]. rewrite Nat.eqb_refl. eauto.
  - intros H. destruct (Nat.eqb (o_id r) o); eauto.
Qed.

Lemma remove_hook_all (o : output_id) (l : list output_id) :
  (forall o', o' ∈ l -> o' = o) -> remove_hook o l = [].
Proof.
  unfold remove_hook. induction l as [|a l IH]; intros H; [reflexivity|].
  rewrite filter_cons. destruct (decide (a <> o)) as [Hd|Hd].
  - exfalso. apply Hd, H. left.
  - apply IH. intros o' Ho'. apply H. right. exact Ho'.
Qed.

End Layout.

Arguments update_output : simpl never.
Arguments remove_output : simpl never.
Arguments remove_hook : simpl never.

(** ** Closed forms of the building blocks *)

Section Blocks.

Lemma destroy_render_instance_manager_run (p : plugin_t) (h : host_t) :
  destroy_render_instance_manager (p, h) =
  Some (tt, (set_instance_manager None p, h),
        match instance_manager p with Some _ => [instance_manager_reset] | None => [] end).
Proof. destruct p as [? ? ? ? ? ? ? [im|] ? ? ?]; reflexivity. Qed.

Lemma create_render_instance_manager_run (p : plugin_t) (h : host_t)
    (id : view_id) (view : view_t) (vo : output_id) :
  instance_manager p = None -> previewable h id view vo ->
  create_render_instance_manager id (p, h) =
  Some (tt, (set_instance_manager (Some (id, vo)) p, h), [instance_manager_make id vo]).
Proof.
  intros Him (Hv & _ & Hvo & [r Hr]). pose proof (find_output_id _ _ _ Hr) as Hid.
  destruct p. cbn in Him. subst.
  unfold create_render_instance_manager, deref_view, deref, deref_output. cbn.
  rewrite Hv. cbn. rewrite Hvo. cbn. rewrite Hr. cbn. reflexivity.
Qed.

Lemma hooks_set_at_run (k : option output_id) (p : plugin_t) (h : host_t) :
  hooks_set_at k (p, h) =
  Some (default false (hooks_set p !! k),
        (set_hooks_set (<[k := default false (hooks_set p !! k)]> (hooks_set p)) p, h), []).
Proof.
  destruct p. unfold hooks_set_at. cbn.
  destruct (hooks_set0 !! k) as [b|] eqn:E; cbn; [|reflexivity].
  rewrite (insert_id _ _ _ E). reflexivity.
Qed.

Lemma render_rem_post_run (o : output_id) (p : plugin_t) (h : host_t) :
  is_Some (find_output o (outputs h)) ->
  render_rem_post (Some o) (p, h) =
  Some (tt, (p, set_post_hooks (remove_hook o (post_hooks h)) h), [rem_post o]).
Proof.
  intros [r Hr]. pose proof (find_output_id _ _ _ Hr) as Hid.
  unfold render_rem_post, deref, deref_output. cbn. rewrite Hr. cbn. rewrite Hid. reflexivity.
Qed.

Lemma render_rem_effect_run (o : output_id) (p : plugin_t) (h : host_t) :
  is_Some (find_output o (outputs h)) ->
  render_rem_effect (Some o) (p, h) =
  Some (tt, (p, set_effect_hooks (remove_hook o (effect_hooks h)) h), [rem_effect o]).
Proof.
  intros [r Hr]. pose proof (find_output_id _ _ _ Hr) as Hid.
  unfold render_rem_effect, deref, deref_output. cbn. rewrite Hr. cbn. rewrite Hid. reflexivity.
Qed.

Lemma render_add_post_run (o : output_id) (p : plugin_t) (h : host_t) :
  is_Some (find_output o (outputs h)) ->
  render_add_post (Some o) (p, h) =
  Some (tt, (p, set_post_hooks (o :: post_hooks h) h), [add_post o]).
Proof.
  intros [r Hr]. pose proof (find_output_id _ _ _ Hr) as Hid.
  unfold render_add_post, deref, deref_output. cbn. rewrite Hr. cbn. rewrite Hid. reflexivity.
Qed.

Lemma render_add_effect_run (o : output_id) (p : plugin_t) (h : host_t) :
  is_Some (find_output o (outputs h)) ->
  render_add_effect (Some o) (p, h) =
  Some (tt, (p, set_effect_hooks (o :: effect_hooks h) h), [add_effect o]).
Proof.
  intros [r Hr]. pose proof (find_output_id _ _ _ Hr) as Hid.
  unfold render_add_effect, deref, deref_output. cbn. rewrite Hr. cbn. rewrite Hid. reflexivity.
Qed.

End Blocks.

Arguments destroy_render_instance_manager : simpl never.
Arguments create_render_instance_manager : simpl never.
Arguments hooks_set_at : simpl never.
Arguments render_rem_post : simpl never.
Arguments render_rem_effect : simpl never.
Arguments render_add_post : simpl never.
Arguments render_add_effect : simpl never.

(** ** Teardown: [release_output] and [view_unmapped] *)

Section Teardown.

Lemma wf_wo_alive (p : plugin_t) (h : host_t) (o : output_id) :
  wf (p, h) -> wo p = Some o -> is_Some (find_output o (outputs h)).
Proof.
  intros (_ & Hname & _) Hwo. cbn in Hname.
  apply (find_output_by_name_alive live_preview_name). congruence.
Qed.

Lemma release_output_run (p : plugin_t) (h : host_t) :
  wf (p, h) ->
  exists t, release_output (p, h) = Some (json_ok, (released_plugin p, released_host p h), t).
Proof.
  intros Hwf. assert (Halive := fun o => wf_wo_alive p h o Hwf).
  destruct Hwf as (Hnone & _). unfold release_output, released_plugin, released_host.
  cbn. rewrite destroy_render_instance_manager_run. cbn. rewrite hooks_set_at_run.
  destruct p, h. cbn in *. destruct wo0 as [o|].
  - destruct (hooks_set0 !! Some o) as [[]|] eqn:E; cbn; eauto.
    rewrite render_rem_post_run by (apply Halive; reflexivity). cbn.
    rewrite render_rem_effect_run by (apply Halive; reflexivity). cbn.
    rewrite insert_insert_eq. eauto.
  - destruct (hooks_set0 !! None) as [[]|] eqn:E; cbn; [congruence|eauto|eauto].
Qed.

Lemma released_host_outputs (p : plugin_t) (h : host_t) :
  outputs (released_host p h) = outputs h /\ views (released_host p h) = views h /\
  next_handle (released_host p h) = next_handle h /\
  active_output (released_host p h) = active_output h.
Proof.
  unfold released_host. destruct h, (wo p) as [o|]; cbn; auto.
  destruct (hooks_set p !! Some o) as [[]|]; cbn; auto.
Qed.

(** After a release no per-frame hook of the plugin is registered. *)
Lemma released_host_hooks (p : plugin_t) (h : host_t) :
  hooks_inv (p, h) ->
  post_hooks (released_host p h) = [] /\ effect_hooks (released_host p h) = [].
Proof.
  unfold hooks_inv, released_host. cbn. intros Hinv.
  rewrite Forall_forall in Hinv.
  assert (Hinv' : forall o, o ∈ post_hooks h \/ o ∈ effect_hooks h ->
            wo p = Some o /\ hooks_set p !! Some o = Some true).
  { intros o Ho. apply Hinv, elem_of_app. exact Ho. }
  clear Hinv. rename Hinv' into Hinv.
  destruct (wo p) as [o|] eqn:Hwo.
  - destruct (hooks_set p !! Some o) as [[]|] eqn:Hhs.
    + destruct h; cbn in *.
      split; apply remove_hook_all; intros o' Ho'.
      * destruct (Hinv o' (or_introl Ho')) as [[= ->] _]. reflexivity.
      * destruct (Hinv o' (or_intror Ho')) as [[= ->] _]. reflexivity.
    + split; apply elem_of_nil_inv; intros a Ha.
      * destruct (Hinv a (or_introl Ha)) as [[= ->] ?]. congruence.
      * destruct (Hinv a (or_intror Ha)) as [[= ->] ?]. congruence.
    + split; apply elem_of_nil_inv; intros a Ha.
      * destruct (Hinv a (or_introl Ha)) as [[= ->] ?]. congruence.
      * destruct (Hinv a (or_intror Ha)) as [[= ->] ?]. congruence.
  - split; apply elem_of_nil_inv; intros a Ha.
    + destruct (Hinv a (or_introl Ha)) as [? _]. congruence.
    + destruct (Hinv a (or_intror Ha)) as [? _]. congruence.
Qed.

Lemma released_plugin_fields (p : plugin_t) :
  max_dimension (released_plugin p) = max_dimension p /\
  frame_skip (released_plugin p) = frame_skip p /\
  current_preview (released_plugin p) = current_preview p /\
  wo (released_plugin p) = wo p /\
  current_size (released_plugin p) = current_size p /\
  hooks_set (released_plugin p) = <[wo p := false]> (hooks_set p) /\
  drop_frame (released_plugin p) = drop_frame p /\
  instance_manager (released_plugin p) = None /\
  headless_backend (released_plugin p) = headless_backend p /\
  view_unmapped_conn (released_plugin p) = [] /\
  on_output_pre_remove_conn (released_plugin p) = on_output_pre_remove_conn p.
Proof. destruct p. cbn. repeat split. Qed.

(** [release_output] keeps the state well formed. *)
Lemma wf_released (p : plugin_t) (h : host_t) :
  wf (p, h) -> wf (released_plugin p, released_host p h).
Proof.
  intros (Hnone & Hname & Huniq & Hnd & Hfresh & Hinv).
  destruct (released_host_outputs p h) as (Eo & _ & En & _).
  destruct (released_host_hooks p h Hinv) as [Ep Ee].
  destruct (released_plugin_fields p) as (_ & _ & _ & Ewo & _ & Ehs & _).
  unfold wf, hooks_inv. cbn in *. rewrite Eo, En, Ewo, Ehs, Ep, Ee.
  repeat split; auto.
  - destruct (wo p) as [o|]; [rewrite lookup_insert_ne by discriminate; exact Hnone|].
    rewrite lookup_insert_eq. discriminate.
Qed.

Lemma view_unmapped_run (p : plugin_t) (h : host_t) (v : view_id) :
  wf (p, h) -> current_preview p = Some v ->
  exists t, view_unmapped v (p, h) =
            Some (tt, (set_current_preview None (released_plugin p), released_host p h), t).
Proof.
  intros Hwf Hcp. assert (Halive := fun o => wf_wo_alive p h o Hwf).
  destruct Hwf as (Hnone & _). unfold view_unmapped, released_plugin, released_host.
  cbn. rewrite Hcp, bool_decide_eq_true_2 by reflexivity.
  cbn. rewrite destroy_render_instance_manager_run. cbn. rewrite hooks_set_at_run.
  destruct p, h. cbn in *. destruct wo0 as [o|].
  - destruct (hooks_set0 !! Some o) as [[]|] eqn:E; cbn; eauto.
    rewrite render_rem_post_run by (apply Halive; reflexivity). cbn.
    rewrite render_rem_effect_run by (apply Halive; reflexivity). cbn.
    rewrite insert_insert_eq. eauto.
  - destruct (hooks_set0 !! None) as [[]|] eqn:E; cbn; [congruence|eauto|eauto].
Qed.

End Teardown.

(** ** Frames: [post_hook] and the capture *)

Lemma capture_run (p : plugin_t) (h : host_t) (v : view_id) (view : view_t)
    (vo : output_id) (r : output_t) :
  previewable h v view vo -> find_output vo (outputs h) = Some r ->
  NoDup (map o_id (outputs h)) ->
  capture v (p, h) =
  Some (tt, (p, h), capture_trace p v (v_geometry view) vo (o_scale r)).
Proof.
  intros (Hv & Htop & Hvo & _) Hr Hnd. pose proof (find_output_id _ _ _ Hr) as Hid.
  unfold capture, capture_trace, deref_view, deref, deref_output. cbn.
  rewrite Hv. cbn. rewrite Htop. cbn. rewrite Hvo. cbn. rewrite Hr. cbn.
  destruct h. cbn in *. rewrite Hid.
  rewrite find_output_update by reflexivity. rewrite Hr. cbn.
  rewrite Hid, Nat.eqb_refl. cbn. rewrite Hid.
  rewrite update_output_restore by assumption. reflexivity.
Qed.

Arguments capture : simpl never.

Lemma post_hook_run (p : plugin_t) (h : host_t) (v : view_id) (view : view_t)
    (vo : output_id) (r : output_t) :
  current_preview p = Some v ->
  previewable h v view vo -> find_output vo (outputs h) = Some r ->
  NoDup (map o_id (outputs h)) ->
  post_hook (p, h) =
  Some (tt, (set_drop_frame (next_drop_frame (frame_skip p) (drop_frame p)) p, h),
        if drop_frame p >=? frame_skip p
        then capture_trace p v (v_geometry view) vo (o_scale r) else []).
Proof.
  intros Hcp Hprev Hr Hnd. unfold post_hook, next_drop_frame. cbn. rewrite Hcp. cbn.
  destruct (drop_frame p >=? frame_skip p) eqn:E; cbn.
  - rewrite (capture_run _ _ _ _ _ _ Hprev Hr Hnd). cbn.
    destruct p; reflexivity.
  - destruct p; reflexivity.
Qed.

Arguments post_hook : simpl never.

Lemma captures_app (t1 t2 : list call) :
  captures (t1 ++ t2) = (captures t1 + captures t2)%nat.
Proof.
  induction t1 as [|c t1 IH]; [reflexivity|]. destruct c; cbn; rewrite ?IH; reflexivity.
Qed.

Lemma ticks_add (a b : nat) (w : world) :
  ticks (a + b) w = (ticks a ;; ticks b) w.
Proof.
  revert w. induction a as [|a IH]; intros w; cbn.
  - destruct (ticks b w) as [[[[] w'] t]|]; reflexivity.
  - destruct (post_hook w) as [[[[] w1] t1]|]; [|reflexivity].
    rewrite IH. cbn.
    destruct (ticks a w1) as [[[[] w2] t2]|]; [|reflexivity].
    destruct (ticks b w2) as [[[[] w3] t3]|]; [|reflexivity].
    rewrite app_assoc. reflexivity.
Qed.

Section Throttle.
Variables (p : plugin_t) (h : host_t) (v : view_id) (view : view_t)
          (vo : output_id) (r : output_t).
Hypothesis Hcp : current_preview p = Some v.
Hypothesis Hprev : previewable h v view vo.
Hypothesis Hr : find_output vo (outputs h) = Some r.
Hypothesis Hnd : NoDup (map o_id (outputs h)).
Hypothesis Hskip : 0 <= frame_skip p <= F32.INT_MAX.

Lemma wrap_small (d : Z) : F32.INT_MIN <= d <= F32.INT_MAX -> F32.wrap d = d.
Proof.
  unfold F32.wrap, F32.INT_MIN, F32.INT_MAX. intros Hd.
  rewrite Z.mod_small by lia. lia.
Qed.

(** One tick at counter [d]. *)
Lemma tick_at (d : Z) :
  post_hook (set_drop_frame d p, h) =
  Some (tt, (set_drop_frame (next_drop_frame (frame_skip p) d) p, h),
        if d >=? frame_skip p
        then capture_trace p v (v_geometry view) vo (o_scale r) else []).
Proof.
  rewrite (post_hook_run _ _ v view vo r); try assumption.
  - destruct p; reflexivity.
  - destruct p; exact Hcp.
Qed.

(** Ticks below the threshold only count. *)
Lemma ticks_skip (m : nat) (d : Z) :
  0 <= d -> d + Z.of_nat m <= frame_skip p ->
  ticks m (set_drop_frame d p, h) =
  Some (tt, (set_drop_frame (d + Z.of_nat m) p, h), []).
Proof.
  revert d. induction m as [|m IH]; intros d Hd Hm.
  - cbn. rewrite Z.add_0_r. reflexivity.
  - cbn [ticks]. cbn [bind]. rewrite tick_at.
    unfold next_drop_frame.
    replace (d >=? frame_skip p) with false by (rewrite Z.geb_leb; symmetry; apply Z.leb_gt; lia).
    rewrite wrap_small by (unfold F32.INT_MIN, F32.INT_MAX in *; lia).
    rewrite IH by lia. cbn.
    replace (d + 1 + Z.of_nat m) with (d + Z.of_nat (S m)) by lia. reflexivity.
Qed.

(** Any [frame_skip + 1] consecutive ticks capture exactly once, and
    leave the counter between 0 and [frame_skip]. *)
Lemma ticks_window (d : Z) :
  0 <= d ->
  exists d' t,
    ticks (S (Z.to_nat (frame_skip p))) (set_drop_frame d p, h) =
    Some (tt, (set_drop_frame d' p, h), t) /\
    captures t = 1%nat /\ 0 <= d' <= frame_skip p.
Proof.
  intros Hd. set (k := frame_skip p) in *.
  destruct (Z_lt_le_dec d k) as [Hlt|Hge].
  - (* count up to the threshold, capture, count again *)
    replace (S (Z.to_nat k)) with (Z.to_nat (k - d) + (1 + Z.to_nat d))%nat by lia.
    rewrite ticks_add. cbn [bind].
    rewrite ticks_skip by (fold k; lia).
    rewrite Z2Nat.id by lia. replace (d + (k - d)) with k by lia.
    rewrite ticks_add. cbn [bind]. cbn [ticks bind]. rewrite tick_at. fold k.
    unfold next_drop_frame. fold k.
    replace (k >=? k) with true by (rewrite Z.geb_leb; symmetry; apply Z.leb_le; lia).
    cbn [ret]. rewrite ticks_skip by (fold k; lia).
    exists (0 + Z.of_nat (Z.to_nat d)), (capture_trace p v (v_geometry view) vo (o_scale r)).
    split; [rewrite !app_nil_r; reflexivity|]. split; [reflexivity|lia].
  - (* capture at once, then count *)
    replace (S (Z.to_nat k)) with (1 + Z.to_nat k)%nat by lia.
    rewrite ticks_add. cbn [bind]. cbn [ticks bind]. rewrite tick_at. fold k.
    unfold next_drop_frame. fold k.
    replace (d >=? k) with true by (rewrite Z.geb_leb; symmetry; apply Z.leb_le; lia).
    cbn [ret]. rewrite ticks_skip by (fold k; lia).
    exists (0 + Z.of_nat (Z.to_nat k)), (capture_trace p v (v_geometry view) vo (o_scale r)).
    split; [rewrite !app_nil_r; reflexivity|]. split; [reflexivity|lia].
Qed.

(** Ticks keep the counter non-negative, whatever their number. *)
Lemma ticks_any (m : nat) (d : Z) :
  0 <= d ->
  exists d' t,
    ticks m (set_drop_frame d p, h) = Some (tt, (set_drop_frame d' p, h), t) /\ 0 <= d'.
Proof.
  revert d. induction m as [|m IH]; intros d Hd.
  - exists d, []. split; [reflexivity|exact Hd].
  - cbn [ticks]. cbn [bind]. rewrite tick_at.
    assert (Hn : 0 <= next_drop_frame (frame_skip p) d).
    { unfold next_drop_frame. destruct (d >=? frame_skip p) eqn:E; [lia|].
      rewrite Z.geb_leb in E. apply Z.leb_gt in E.
      rewrite wrap_small by (unfold F32.INT_MIN, F32.INT_MAX in *; lia). lia. }
    destruct (IH _ Hn) as (d' & t & E & Hd'). rewrite E. eauto.
Qed.

(** [n] windows capture [n] times. *)
Lemma ticks_windows (n : nat) (d : Z) :
  0 <= d ->
  exists d' t,
    ticks (n * S (Z.to_nat (frame_skip p))) (set_drop_frame d p, h) =
    Some (tt, (set_drop_frame d' p, h), t) /\
    captures t = n /\ 0 <= d'.
Proof.
  revert d. induction n as [|n IH]; intros d Hd.
  - exists d, []. cbn. auto.
  - cbn [Nat.mul]. rewrite ticks_add. cbn [bind].
    destruct (ticks_window d Hd) as (d1 & t1 & E1 & C1 & Hd1). rewrite E1.
    destruct (IH d1 ltac:(lia)) as (d2 & t2 & E2 & C2 & Hd2). rewrite E2.
    exists d2, (t1 ++ t2). split; [reflexivity|]. rewrite captures_app. split; lia.
Qed.

End Throttle.


(** ** [destroy_output] and the branches of [request_stream] *)

Lemma remove_hook_idemp (o : output_id) (l : list output_id) :
  remove_hook o (remove_hook o l) = remove_hook o l.
Proof.
  unfold remove_hook. induction l as [|a l IH]; [reflexivity|].
  rewrite filter_cons. destruct (decide (a <> o)) as [Hd|Hd]; [|exact IH].
  rewrite filter_cons. destruct (decide (a <> o)); [|contradiction].
  rewrite IH. reflexivity.
Qed.

Lemma destroy_output_run (ans : host_answers) (p : plugin_t) (h : host_t) (o : output_id) :
  find_output_by_name live_preview_name (outputs h) = Some o ->
  destroy_output ans (p, h) =
  Some (tt, (destroyed_plugin o p, destroyed_host ans o h), destroy_trace ans o p h).
Proof.
  intros Hname. pose proof (find_output_by_name_alive _ _ _ Hname) as Halive.
  unfold destroy_output, destroyed_plugin, destroyed_host, destroy_trace.
  cbn. rewrite Hname. cbn. rewrite destroy_render_instance_manager_run. cbn.
  rewrite hooks_set_at_run. destruct p, h. cbn in *.
  destruct (bool_decide (active_output0 = Some o)) eqn:Ea,
    (bool_decide (wo0 = Some o)) eqn:Ew, instance_manager0;
    destruct (hooks_set0 !! Some o) as [[]|] eqn:E; cbn;
    rewrite ?render_rem_post_run by exact Halive; cbn;
    rewrite ?render_rem_effect_run by exact Halive; cbn;
    rewrite ?Ea; cbn; rewrite ?Ew; cbn;
    rewrite ?insert_insert_eq, ?remove_hook_idemp, ?(insert_id _ _ _ E); reflexivity.
Qed.

Arguments destroy_output : simpl never.

Lemma request_attach_run (p : plugin_t) (h : host_t) (id : view_id) (view : view_t)
    (vo o : output_id) :
  wo p = Some o -> is_Some (find_output o (outputs h)) -> previewable h id view vo ->
  request_attach id (p, h) =
  Some (json_ok, (attached_plugin id vo o p, attached_host o p h), attach_trace id vo o p).
Proof.
  intros Hwo Halive Hprev.
  unfold request_attach, attached_plugin, attached_host, attach_trace.
  cbn. rewrite hooks_set_at_run. destruct p, h. unfold previewable in Hprev. cbn in *.
  subst wo0. destruct (hooks_set0 !! Some o) as [[]|] eqn:E; cbn.
  - rewrite (insert_id _ _ _ E). rewrite destroy_render_instance_manager_run. cbn.
    erewrite create_render_instance_manager_run by (try reflexivity; exact Hprev).
    destruct instance_manager0; reflexivity.
  - rewrite render_add_post_run by exact Halive. cbn.
    rewrite render_add_effect_run by exact Halive. cbn.
    rewrite destroy_render_instance_manager_run. cbn.
    erewrite create_render_instance_manager_run by (try reflexivity; exact Hprev).
    rewrite insert_insert_eq. destruct instance_manager0; reflexivity.
  - rewrite render_add_post_run by exact Halive. cbn.
    rewrite render_add_effect_run by exact Halive. cbn.
    rewrite destroy_render_instance_manager_run. cbn.
    erewrite create_render_instance_manager_run by (try reflexivity; exact Hprev).
    rewrite insert_insert_eq. destruct instance_manager0; reflexivity.
Qed.

Lemma find_output_fresh (n : output_id) (os : list output_t) :
  (forall r, r ∈ os -> (o_id r < n)%nat) -> find_output n os = None.
Proof.
  intros Hfresh. apply find_output_None. intros Hin.
  apply list_elem_of_fmap in Hin as (r & -> & Hr). specialize (Hfresh r Hr). lia.
Qed.

Lemma update_output_app (o : output_id) (f : output_t -> output_t) (os os' : list output_t) :
  update_output o f (os ++ os') = update_output o f os ++ update_output o f os'.
Proof. unfold update_output. apply fmap_app. Qed.

Arguments request_attach : simpl never.

Lemma previewable_app (h : host_t) (id : view_id) (view : view_t) (vo : output_id)
    (os' : list output_t) :
  previewable h id view vo ->
  previewable (set_outputs (outputs h ++ os') h) id view vo.
Proof.
  intros (Hv & Ht & Hvo & [r Hr]). destruct h. unfold previewable. cbn in *.
  rewrite find_output_app, Hr. eauto.
Qed.

Lemma request_create_run (p : plugin_t) (h : host_t) (id : view_id) (view : view_t)
    (vo : output_id) (vg : geometry_t) (ans : host_answers) :
  (forall r, r ∈ outputs h -> (o_id r < next_handle h)%nat) ->
  previewable h id view vo ->
  request_create id vg ans (p, h) =
  Some (json_ok,
        (created_plugin id vo (next_handle h) p, created_host (next_handle h) vg p h),
        create_trace id vo (next_handle h) vg ans p).
Proof.
  intros Hfresh Hprev. pose proof (find_output_fresh _ _ Hfresh) as Hnone.
  pose proof (proj1 (find_output_None _ _) Hnone) as Hnotin.
  pose proof (previewable_app h id view vo [created_output (next_handle h) vg] Hprev) as Hprev'.
  unfold request_create, created_plugin, created_host, create_trace,
    attached_plugin, attached_host, headless_add_output.
  destruct p, h. unfold previewable in Hprev'. cbn in *.
  set (n := next_handle0) in *.
  assert (Hupd : update_output n (with_name live_preview_name)
                   (outputs0 ++ [{| o_id := n; o_name := "HEADLESS";
                                    o_mode := {| dim_width := width vg; dim_height := height vg |};
                                    o_scale := F32.of_int 1 |}]) =
                 outputs0 ++ [created_output n vg]).
  { rewrite update_output_app, update_output_notin by exact Hnotin.
    unfold update_output. cbn. rewrite Nat.eqb_refl. reflexivity. }
  assert (Hfind : find_output n (outputs0 ++ [created_output n vg]) = Some (created_output n vg)).
  { rewrite find_output_app, Hnone. cbn. rewrite Nat.eqb_refl. reflexivity. }
  destruct headless_backend0, (format_ok ans); cbn; rewrite Hupd, Hfind; cbn;
    rewrite hooks_set_at_run; cbn;
    destruct (hooks_set0 !! Some n) as [[]|] eqn:E; cbn;
    rewrite ?render_add_post_run by (cbn; rewrite Hfind; eauto); cbn;
    rewrite ?render_add_effect_run by (cbn; rewrite Hfind; eauto); cbn;
    unfold deref_output; cbn; rewrite Hfind; cbn;
    rewrite destroy_render_instance_manager_run; cbn;
    (erewrite create_render_instance_manager_run by (try reflexivity; exact Hprev'));
    rewrite ?insert_insert_eq, ?(insert_id _ _ _ E);
    destruct instance_manager0; reflexivity.
Qed.

Arguments request_create : simpl never.

(** The resize block, case by case. *)
Lemma same_size_mode (vg : geometry_t) (p : plugin_t) :
  same_size vg (current_size p) = true -> set_current_size (mode_of vg) p = p.
Proof.
  unfold same_size, mode_of. intros H. apply andb_true_iff in H as [Hw Hh].
  apply Z.eqb_eq in Hw, Hh. destruct p as [? ? ? ? [cw ch] ? ? ? ? ? ?]. cbn in *.
  subst. reflexivity.
Qed.

Lemma request_resize_same (vg : geometry_t) (ans : host_answers) (p : plugin_t) (h : host_t) :
  same_size vg (current_size p) = true ->
  request_resize vg ans (p, h) = Some (tt, (set_current_size (mode_of vg) p, h), []).
Proof.
  intros Hs. rewrite (same_size_mode _ _ Hs). unfold request_resize, same_size in *. cbn.
  apply andb_true_iff in Hs as [-> ->]. reflexivity.
Qed.

Lemma request_resize_no_output (vg : geometry_t) (ans : host_answers)
    (p : plugin_t) (h : host_t) :
  wo p = None ->
  request_resize vg ans (p, h) = Some (tt, (set_current_size (mode_of vg) p, h), []).
Proof.
  intros Hwo. destruct (same_size vg (current_size p)) eqn:Hs;
    [apply request_resize_same; exact Hs|].
  unfold request_resize, same_size in *. cbn.
  rewrite <- negb_andb, Hs. cbn. rewrite Hwo. reflexivity.
Qed.

Lemma request_resize_commit (vg : geometry_t) (ans : host_answers)
    (p : plugin_t) (h : host_t) (o : output_id) :
  same_size vg (current_size p) = false -> wo p = Some o ->
  is_Some (find_output o (outputs h)) -> mode_ok ans = true ->
  request_resize vg ans (p, h) =
  Some (tt, (set_current_size (mode_of vg) p,
             set_outputs (update_output o (with_mode (mode_of vg)) (outputs h)) h),
        [wlr_output_test_state o (Some (mode_of vg)) true;
         wlr_output_commit_state o (Some (mode_of vg))]).
Proof.
  intros Hs Hwo [r Hr] Hok. unfold request_resize, same_size, deref_output in *. cbn.
  rewrite <- negb_andb, Hs. cbn. rewrite Hwo. cbn. destruct p. cbn in *.
  rewrite Hr. cbn. rewrite Hok. reflexivity.
Qed.

Lemma request_resize_destroy (vg : geometry_t) (ans : host_answers)
    (p : plugin_t) (h : host_t) (o : output_id) :
  same_size vg (current_size p) = false -> wo p = Some o ->
  find_output_by_name live_preview_name (outputs h) = Some o -> mode_ok ans = false ->
  request_resize vg ans (p, h) =
  Some (tt, (destroyed_plugin o (set_current_size (mode_of vg) p), destroyed_host ans o h),
        wlr_output_test_state o (Some (mode_of vg)) false ::
        destroy_trace ans o (set_current_size (mode_of vg) p) h).
Proof.
  intros Hs Hwo Hname Hok. destruct (find_output_by_name_alive _ _ _ Hname) as [r Hr].
  unfold request_resize, same_size, deref_output in *. cbn.
  rewrite <- negb_andb, Hs. cbn. rewrite Hwo. cbn. destruct p. cbn in *.
  rewrite Hr. cbn. rewrite Hok. rewrite (destroy_output_run _ _ _ o) by exact Hname.
  reflexivity.
Qed.

Arguments request_resize : simpl never.

(** ** [request_stream], path by path *)

Section RequestPaths.
Variables (p : plugin_t) (h : host_t) (id : view_id) (view : view_t)
          (vo : output_id) (vg : geometry_t) (ans : host_answers).
Hypothesis Hprev : previewable h id view vo.
Hypothesis Hvg : scaled_geometry (max_dimension p) (v_geometry view) = Some vg.

Lemma request_stream_unfold :
  request_stream id ans (p, h) =
  match request_resize vg ans (set_drop_frame (frame_skip p) p, h) with
  | Some (_, w1, t1) =>
      match
        match wo w1.1 with
        | Some _ => request_attach id
        | None => request_create id vg ans
        end w1
      with
      | Some (b, w2, t2) => Some (b, w2, t1 ++ t2)
      | None => None
      end
  | None => None
  end.
Proof.
  destruct Hprev as (Hv & Ht & _). unfold request_stream. cbn.
  rewrite Hv. cbn. rewrite Ht. cbn. rewrite Hvg. cbn.
  destruct (request_resize vg ans (set_drop_frame (frame_skip p) p, h)) as [[[[] w1] t1]|];
    [|reflexivity].
  destruct (wo w1.1).
  - destruct (request_attach id w1) as [[[? ?] ?]|]; reflexivity.
  - destruct (request_create id vg ans w1) as [[[? ?] ?]|]; reflexivity.
Qed.

(** The output exists and the size is the recorded one: nothing but the
    binding changes. *)
Lemma request_stream_warm (o : output_id) :
  wo p = Some o -> is_Some (find_output o (outputs h)) ->
  same_size vg (current_size p) = true ->
  request_stream id ans (p, h) =
  Some (json_ok, (attached_plugin id vo o (sized vg p), attached_host o p h),
        attach_trace id vo o p).
Proof.
  intros Hwo Halive Hs. rewrite request_stream_unfold.
  rewrite request_resize_same by (destruct p; exact Hs). cbn.
  assert (Hwo' : wo (set_current_size (mode_of vg) (set_drop_frame (frame_skip p) p)) = Some o)
    by (destruct p; exact Hwo).
  rewrite Hwo'. rewrite (request_attach_run _ _ _ view vo o Hwo' Halive Hprev).
  destruct p; reflexivity.
Qed.

(** The output exists and accepts the new mode. *)
Lemma request_stream_resized (o : output_id) :
  wo p = Some o -> is_Some (find_output o (outputs h)) ->
  same_size vg (current_size p) = false -> mode_ok ans = true ->
  request_stream id ans (p, h) =
  Some (json_ok,
        (attached_plugin id vo o (sized vg p),
         attached_host o p
           (set_outputs (update_output o (with_mode (mode_of vg)) (outputs h)) h)),
        [wlr_output_test_state o (Some (mode_of vg)) true;
         wlr_output_commit_state o (Some (mode_of vg))] ++ attach_trace id vo o p).
Proof.
  intros Hwo Halive Hs Hok. rewrite request_stream_unfold.
  rewrite (request_resize_commit _ _ _ _ o)
    by (try assumption; destruct p; assumption). cbn.
  assert (Hwo' : wo (set_current_size (mode_of vg) (set_drop_frame (frame_skip p) p)) = Some o)
    by (destruct p; exact Hwo).
  rewrite Hwo'.
  rewrite (request_attach_run _ _ _ view vo o Hwo').
  - destruct p; reflexivity.
  - destruct h, Halive as [r Hr]. cbn in *.
    rewrite find_output_update by reflexivity. rewrite Hr. eauto.
  - destruct Hprev as (Hv & Ht & Hvo & [r Hr]). destruct h. unfold previewable. cbn in *.
    rewrite find_output_update by reflexivity. rewrite Hr. eauto.
Qed.

(** The output exists and refuses the new mode: it is destroyed and a new
    one is created. *)
Lemma request_stream_recreated (o : output_id) :
  wo p = Some o -> find_output_by_name live_preview_name (outputs h) = Some o ->
  (forall r, r ∈ outputs h -> (o_id r < next_handle h)%nat) -> vo <> o ->
  same_size vg (current_size p) = false -> mode_ok ans = false ->
  request_stream id ans (p, h) =
  Some (json_ok,
        (created_plugin id vo (next_handle h) (destroyed_plugin o (sized vg p)),
         created_host (next_handle h) vg (destroyed_plugin o (sized vg p))
           (destroyed_host ans o h)),
        wlr_output_test_state o (Some (mode_of vg)) false ::
        destroy_trace ans o (sized vg p) h ++
        create_trace id vo (next_handle h) vg ans (destroyed_plugin o (sized vg p))).
Proof.
  intros Hwo Hname Hfresh Hne Hs Hok. rewrite request_stream_unfold.
  rewrite (request_resize_destroy _ _ _ _ o)
    by (try assumption; destruct p; assumption). cbn.
  fold (sized vg p).
  assert (Hwo' : wo (destroyed_plugin o (sized vg p)) = None).
  { destruct p. cbn in *. rewrite Hwo, bool_decide_eq_true_2 by reflexivity. reflexivity. }
  rewrite Hwo'.
  assert (Hn : next_handle (destroyed_host ans o h) = next_handle h) by (destruct h; reflexivity).
  rewrite (request_create_run _ _ _ view vo).
  - rewrite Hn. reflexivity.
  - rewrite Hn. destruct h. cbn in *. intros r Hr. apply Hfresh.
    unfold remove_output in Hr. apply list_elem_of_filter in Hr as [_ Hr]. exact Hr.
  - destruct Hprev as (Hv & Ht & Hvo & Hr). destruct h. unfold previewable. cbn in *.
    rewrite find_output_remove_ne by exact Hne. auto.
Qed.

(** There is no output yet: one is created. *)
Lemma request_stream_created :
  wo p = None ->
  (forall r, r ∈ outputs h -> (o_id r < next_handle h)%nat) ->
  request_stream id ans (p, h) =
  Some (json_ok,
        (created_plugin id vo (next_handle h) (sized vg p),
         created_host (next_handle h) vg (sized vg p) h),
        create_trace id vo (next_handle h) vg ans (sized vg p)).
Proof.
  intros Hwo Hfresh. rewrite request_stream_unfold.
  rewrite request_resize_no_output by (destruct p; exact Hwo). cbn.
  fold (sized vg p).
  assert (Hwo' : wo (sized vg p) = None) by (destruct p; exact Hwo).
  rewrite Hwo'. rewrite (request_create_run _ _ _ view vo) by assumption.
  reflexivity.
Qed.

End RequestPaths.

(** ** Facts that hold of every run *)

Lemma bind_inv {A B} (m : M A) (k : A -> M B) (w w' : world) (b : B) (t : list call) :
  bind m k w = Some (b, w', t) ->
  exists a w1 t1 t2, m w = Some (a, w1, t1) /\ k a w1 = Some (b, w', t2) /\ t = t1 ++ t2.
Proof.
  unfold bind. destruct (m w) as [[[a w1] t1]|] eqn:E1; [|discriminate].
  destruct (k a w1) as [[[b' w2] t2]|] eqn:E2; [|discriminate].
  intros [= <- <- <-]. exists a, w1, t1, t2. repeat split; [exact E2].
Qed.

Section Keeps.

Lemma keeps_ret {A} (a : A) : keeps_throttle (ret a).
Proof. intros w a' w' t [= _ <- _]. auto. Qed.

Lemma keeps_bind {A B} (m : M A) (k : A -> M B) :
  keeps_throttle m -> (forall a, keeps_throttle (k a)) -> keeps_throttle (bind m k).
Proof.
  intros Hm Hk w b w' t H. apply bind_inv in H as (a & w1 & t1 & t2 & H1 & H2 & _).
  destruct (Hm _ _ _ _ H1) as [E1 E2]. destruct (Hk a _ _ _ _ H2) as [E3 E4].
  split; congruence.
Qed.

Lemma keeps_undefined {A} : keeps_throttle (@undefined A).
Proof. intros w a w' t [=]. Qed.

Lemma keeps_emit (c : call) : keeps_throttle (emit c).
Proof. intros w a w' t [= _ <- _]. auto. Qed.

Lemma keeps_get_plugin : keeps_throttle get_plugin.
Proof. intros w a w' t [= _ <- _]. auto. Qed.

Lemma keeps_get_host : keeps_throttle get_host.
Proof. intros w a w' t [= _ <- _]. auto. Qed.

Lemma keeps_modify_host (f : host_t -> host_t) : keeps_throttle (modify_host f).
Proof. intros w a w' t [= _ <- _]. auto. Qed.

Lemma keeps_modify_plugin (f : plugin_t -> plugin_t) :
  (forall p, frame_skip (f p) = frame_skip p /\ drop_frame (f p) = drop_frame p) ->
  keeps_throttle (modify_plugin f).
Proof. intros Hf w a w' t [= _ <- _]. apply Hf. Qed.

Lemma keeps_when (b : bool) (m : M unit) : keeps_throttle m -> keeps_throttle (when b m).
Proof. destruct b; [auto|intros _; apply keeps_ret]. Qed.

End Keeps.

Create HintDb keeps.

Ltac keeps_step :=
  first
    [ solve [auto 2 with keeps nocore]
    | apply keeps_ret | apply keeps_undefined | apply keeps_emit
    | apply keeps_get_plugin | apply keeps_get_host | apply keeps_modify_host
    | apply keeps_modify_plugin; intros []; split; reflexivity
    | apply keeps_when
    | apply keeps_bind; [|intros ?]
    | match goal with
      | |- keeps_throttle (match ?x with _ => _ end) => destruct x
      | |- keeps_throttle (let _ := _ in _) => cbv zeta
      end ].

Ltac keeps := repeat keeps_step.

Section KeepsOperations.

Lemma keeps_deref_output (o : output_id) : keeps_throttle (deref_output o).
Proof. unfold deref_output. keeps. Qed.

Lemma keeps_deref (o : option output_id) : keeps_throttle (deref o).
Proof. unfold deref. destruct o; [apply keeps_deref_output|keeps]. Qed.

Lemma keeps_deref_view (v : view_id) : keeps_throttle (deref_view v).
Proof. unfold deref_view. keeps. Qed.

Lemma keeps_destroy_render_instance_manager : keeps_throttle destroy_render_instance_manager.
Proof. unfold destroy_render_instance_manager. keeps. Qed.

Lemma keeps_hooks_set_at (k : option output_id) : keeps_throttle (hooks_set_at k).
Proof. unfold hooks_set_at. keeps. Qed.

Lemma keeps_hooks_set_assign (k : option output_id) (b : bool) :
  keeps_throttle (hooks_set_assign k b).
Proof. unfold hooks_set_assign. keeps. Qed.

End KeepsOperations.

#[global] Hint Resolve keeps_deref_output keeps_deref keeps_deref_view
  keeps_destroy_render_instance_manager keeps_hooks_set_at
  keeps_hooks_set_assign : keeps.

Section KeepsComposite.

Lemma keeps_create_render_instance_manager (v : view_id) :
  keeps_throttle (create_render_instance_manager v).
Proof. unfold create_render_instance_manager. keeps. Qed.

Lemma keeps_render_add_post (o : option output_id) : keeps_throttle (render_add_post o).
Proof. unfold render_add_post. keeps. Qed.

Lemma keeps_render_add_effect (o : option output_id) : keeps_throttle (render_add_effect o).
Proof. unfold render_add_effect. keeps. Qed.

Lemma keeps_render_rem_post (o : option output_id) : keeps_throttle (render_rem_post o).
Proof. unfold render_rem_post. keeps. Qed.

Lemma keeps_render_rem_effect (o : option output_id) : keeps_throttle (render_rem_effect o).
Proof. unfold render_rem_effect. keeps. Qed.

End KeepsComposite.

#[global] Hint Resolve keeps_create_render_instance_manager keeps_render_add_post
  keeps_render_add_effect keeps_render_rem_post keeps_render_rem_effect : keeps.

Section KeepsRequest.

Lemma keeps_destroy_output (ans : host_answers) : keeps_throttle (destroy_output ans).
Proof.
  unfold destroy_output, view_unmapped_disconnect_all, on_output_pre_remove_disconnect_all.
  keeps.
Qed.

Lemma keeps_request_resize (vg : geometry_t) (ans : host_answers) :
  keeps_throttle (request_resize vg ans).
Proof.
  pose proof (keeps_destroy_output ans). unfold request_resize. keeps; assumption.
Qed.

Lemma keeps_request_attach (id : view_id) : keeps_throttle (request_attach id).
Proof. unfold request_attach. keeps. Qed.

Lemma keeps_request_create (id : view_id) (vg : geometry_t) (ans : host_answers) :
  keeps_throttle (request_create id vg ans).
Proof. unfold request_create, headless_add_output. keeps. Qed.

End KeepsRequest.

Section Answers.

Lemma answers_ok_ret : answers_ok (ret json_ok).
Proof. intros w j w' t [= <- _ _]. reflexivity. Qed.

Lemma answers_ok_bind {A} (m : M A) (k : A -> M json_t) :
  (forall a, answers_ok (k a)) -> answers_ok (bind m k).
Proof.
  intros Hk w j w' t H. apply bind_inv in H as (a & w1 & t1 & t2 & _ & H2 & _).
  exact (Hk a _ _ _ _ H2).
Qed.

Lemma answers_ok_request_attach (id : view_id) : answers_ok (request_attach id).
Proof.
  unfold request_attach.
  repeat (apply answers_ok_bind; intros ?). apply answers_ok_ret.
Qed.

Lemma answers_ok_request_create (id : view_id) (vg : geometry_t) (ans : host_answers) :
  answers_ok (request_create id vg ans).
Proof.
  unfold request_create.
  repeat (apply answers_ok_bind; intros ?). apply answers_ok_ret.
Qed.

Lemma answers_ok_release_output : answers_ok release_output.
Proof.
  unfold release_output.
  repeat (apply answers_ok_bind; intros ?). apply answers_ok_ret.
Qed.

(** The only errors of [request_stream] are its two own. *)
Lemma request_stream_errors (id : view_id) (ans : host_answers)
    (w w' : world) (msg : string) (t : list call) :
  request_stream id ans w = Some (json_error msg, w', t) ->
  msg = "no such view"%string \/ msg = "view is not a toplevel"%string.
Proof.
  unfold request_stream. intros H.
  apply bind_inv in H as (h & w1 & t1 & t2 & _ & H & _).
  destruct (views h !! id) as [view|]; [|injection H as <-; auto].
  destruct (negb (v_toplevel view)); [injection H as <-; auto|].
  apply bind_inv in H as (p & w2 & t3 & t4 & _ & H & _).
  destruct (scaled_geometry (max_dimension p) (v_geometry view)) as [vg|]; [|discriminate].
  exfalso. revert H.
  assert (Hok : answers_ok
    (modify_plugin (set_drop_frame (frame_skip p));;
     request_resize vg ans;;
     p0 <- get_plugin;;
     match wo p0 with
     | Some _ => request_attach id
     | None => request_create id vg ans
     end)).
  { repeat (apply answers_ok_bind; intros ?).
    destruct (wo _); [apply answers_ok_request_attach|apply answers_ok_request_create]. }
  intros H. apply Hok in H. discriminate.
Qed.

(** Whatever [request_stream] does after recording the throttle counter
    leaves the counter alone. *)
Lemma request_stream_drop_frame (id : view_id) (ans : host_answers)
    (w w' : world) (t : list call) :
  request_stream id ans w = Some (json_ok, w', t) ->
  drop_frame (fst w') = frame_skip (fst w) /\ frame_skip (fst w') = frame_skip (fst w).
Proof.
  unfold request_stream. intros H.
  apply bind_inv in H as (h & w1 & t1 & t2 & [= <- <- <-] & H & _).
  destruct (views w.2 !! id) as [view|]; [|discriminate].
  destruct (negb (v_toplevel view)); [discriminate|].
  apply bind_inv in H as (p & w2 & t3 & t4 & [= <- <- <-] & H & _).
  destruct (scaled_geometry (max_dimension w.1) (v_geometry view)) as [vg|]; [|discriminate].
  apply bind_inv in H as ([] & w3 & t5 & t6 & [= <- <-] & H & _).
  assert (Hk : keeps_throttle
    (request_resize vg ans;;
     p0 <- get_plugin;;
     match wo p0 with
     | Some _ => request_attach id
     | None => request_create id vg ans
     end)).
  { apply keeps_bind; [apply keeps_request_resize|intros ?].
    apply keeps_bind; [apply keeps_get_plugin|intros p0].
    destruct (wo p0); [apply keeps_request_attach|apply keeps_request_create]. }
  apply Hk in H as [E1 E2]. destruct w as [[] hh]. cbn in *. auto.
Qed.

End Answers.

(** ** Well-formedness is kept by every step of the plugin *)

Lemma wf_fresh (p : plugin_t) (h : host_t) :
  wf (p, h) -> forall r, r ∈ outputs h -> (o_id r < next_handle h)%nat.
Proof. intros (_ & _ & _ & _ & Hfresh & _). apply Forall_forall. exact Hfresh. Qed.

Lemma wf_name (p : plugin_t) (h : host_t) :
  wf (p, h) -> find_output_by_name live_preview_name (outputs h) = wo p.
Proof. intros (_ & Hname & _). exact Hname. Qed.

Lemma wf_nodup (p : plugin_t) (h : host_t) :
  wf (p, h) -> NoDup (map o_id (outputs h)).
Proof. intros (_ & _ & _ & Hnd & _). exact Hnd. Qed.

(** Members that [wf] does not speak about. *)
Lemma wf_set_current_preview (v : option view_id) (p : plugin_t) (h : host_t) :
  wf (p, h) -> wf (set_current_preview v p, h).
Proof. destruct p. intros H. exact H. Qed.

Lemma wf_set_drop_frame (d : Z) (p : plugin_t) (h : host_t) :
  wf (p, h) -> wf (set_drop_frame d p, h).
Proof. destruct p. intros H. exact H. Qed.

Lemma wf_set_current_size (m : dimensions_t) (p : plugin_t) (h : host_t) :
  wf (p, h) -> wf (set_current_size m p, h).
Proof. destruct p. intros H. exact H. Qed.

Lemma wf_set_views (vs : gmap view_id view_t) (p : plugin_t) (h : host_t) :
  wf (p, h) -> wf (p, set_views vs h).
Proof. destruct h. intros H. exact H. Qed.

Section LayoutNames.

Lemma find_output_by_name_None (name : string) (os : list output_t) :
  find_output_by_name name os = None <-> Forall (fun r => o_name r <> name) os.
Proof.
  induction os as [|r os IH]; cbn.
  - split; [constructor|reflexivity].
  - rewrite Forall_cons. destruct (String.eqb_spec (o_name r) name) as [E|E]; split.
    + discriminate.
    + intros [H _]. contradiction.
    + intros H. split; [exact E|apply IH; exact H].
    + intros [_ H]. apply IH; exact H.
Qed.

Lemma find_output_by_name_update (name : string) (o : output_id)
    (f : output_t -> output_t) (os : list output_t) :
  (forall r, o_id (f r) = o_id r) -> (forall r, o_name (f r) = o_name r) ->
  find_output_by_name name (update_output o f os) = find_output_by_name name os.
Proof.
  intros Hi Hn. unfold update_output. induction os as [|r os IH]; cbn; [reflexivity|].
  rewrite IH. destruct (Nat.eqb (o_id r) o); rewrite ?Hi, ?Hn; reflexivity.
Qed.

Lemma find_output_by_name_app (name : string) (os os' : list output_t) :
  find_output_by_name name (os ++ os') =
  match find_output_by_name name os with
  | Some o => Some o
  | None => find_output_by_name name os'
  end.
Proof.
  induction os as [|r os IH]; cbn; [reflexivity|].
  destruct (String.eqb (o_name r) name); auto.
Qed.

Lemma remove_output_elem (o : output_id) (os : list output_t) (r : output_t) :
  r ∈ remove_output o os <-> o_id r <> o /\ r ∈ os.
Proof. unfold remove_output. rewrite list_elem_of_filter. reflexivity. Qed.

Lemma remove_output_nodup (o : output_id) (os : list output_t) :
  NoDup (map o_id os) -> NoDup (map o_id (remove_output o os)).
Proof.
  unfold remove_output. induction os as [|r os IH]; [intros H; exact H|].
  rewrite fmap_cons. intros Hnd. apply NoDup_cons in Hnd as [Hnot Hnd].
  rewrite filter_cons. destruct (decide (o_id r <> o)); [|auto].
  rewrite fmap_cons. apply NoDup_cons. split; [|auto].
  intros Hin. apply Hnot. apply list_elem_of_fmap in Hin as (r' & E & Hr').
  apply list_elem_of_filter in Hr' as [_ Hr']. apply list_elem_of_fmap. eauto.
Qed.

End LayoutNames.

(** The hooks of a state without output are none. *)
Lemma hooks_inv_no_output (p : plugin_t) (h : host_t) :
  hooks_inv (p, h) -> wo p = None -> post_hooks h = [] /\ effect_hooks h = [].
Proof.
  unfold hooks_inv. cbn. intros Hinv Hwo. rewrite Forall_forall in Hinv.
  split; apply elem_of_nil_inv; intros a Ha;
    destruct (Hinv a) as [E _]; try congruence; apply elem_of_app; auto.
Qed.

(** The hooks of a state with output [o] are on [o]. *)
Lemma hooks_inv_output (p : plugin_t) (h : host_t) (o : output_id) :
  hooks_inv (p, h) -> wo p = Some o ->
  (forall o', o' ∈ post_hooks h -> o' = o) /\ (forall o', o' ∈ effect_hooks h -> o' = o).
Proof.
  unfold hooks_inv. cbn. intros Hinv Hwo. rewrite Forall_forall in Hinv.
  split; intros a Ha; destruct (Hinv a) as [E _]; try congruence; apply elem_of_app; auto.
Qed.

Section ClosedForms.
Variables (p : plugin_t) (h : host_t).
Hypothesis Hwf : wf (p, h).

Lemma wf_update_output (o : output_id) (f : output_t -> output_t) :
  (forall r, o_id (f r) = o_id r) -> (forall r, o_name (f r) = o_name r) ->
  wf (p, set_outputs (update_output o f (outputs h)) h).
Proof.
  intros Hi Hn. destruct Hwf as (Hnone & Hname & Huniq & Hnd & Hfresh & Hinv).
  destruct h. unfold wf, hooks_inv in *. cbn in *.
  rewrite find_output_by_name_update, update_output_ids by assumption.
  split; [exact Hnone|]. split; [exact Hname|]. split; [|split; [exact Hnd|split; [|exact Hinv]]].
  - unfold update_output. apply Forall_fmap. eapply Forall_impl; [exact Huniq|].
    intros r Hr. cbn. destruct (Nat.eqb (o_id r) o); rewrite ?Hi, ?Hn; exact Hr.
  - unfold update_output. apply Forall_fmap. eapply Forall_impl; [exact Hfresh|].
    intros r Hr. cbn. destruct (Nat.eqb (o_id r) o); rewrite ?Hi; exact Hr.
Qed.

Lemma wf_attached (id : view_id) (vo o : output_id) :
  wo p = Some o -> wf (attached_plugin id vo o p, attached_host o p h).
Proof.
  intros Hwo. destruct Hwf as (Hnone & Hname & Huniq & Hnd & Hfresh & Hinv).
  assert (Hins : forall o' : output_id,
            wo p = Some o' /\ hooks_set p !! Some o' = Some true ->
            wo p = Some o' /\ <[Some o := true]> (hooks_set p) !! Some o' = Some true).
  { intros o' [E _]. split; [exact E|].
    assert (o' = o) as -> by congruence. apply lookup_insert_eq. }
  unfold attached_host. destruct (default false (hooks_set p !! Some o));
    destruct p, h; unfold wf, hooks_inv in *; cbn in *.
  - split; [rewrite lookup_insert_ne by discriminate; exact Hnone|].
    split; [exact Hname|]. split; [exact Huniq|]. split; [exact Hnd|]. split; [exact Hfresh|].
    eapply Forall_impl; [exact Hinv|exact Hins].
  - split; [rewrite lookup_insert_ne by discriminate; exact Hnone|].
    split; [exact Hname|]. split; [exact Huniq|]. split; [exact Hnd|]. split; [exact Hfresh|].
    apply Forall_app in Hinv as [Hp He].
    assert (Ho : Some o = Some o /\ <[Some o := true]> hooks_set0 !! Some o = Some true)
      by (split; [reflexivity|apply lookup_insert_eq]).
    subst wo0. apply Forall_cons. split; [exact Ho|].
    apply Forall_app. split; [|apply Forall_cons; split; [exact Ho|]];
      (eapply Forall_impl; [eassumption|exact Hins]).
Qed.

Lemma wf_destroyed (ans : host_answers) (o : output_id) :
  wo p = Some o -> wf (destroyed_plugin o p, destroyed_host ans o h).
Proof.
  intros Hwo. destruct Hwf as (Hnone & Hname & Huniq & Hnd & Hfresh & Hinv).
  destruct (hooks_inv_output _ _ _ Hinv Hwo) as [Hp He].
  pose proof (remove_hook_all o _ Hp) as Ep. pose proof (remove_hook_all o _ He) as Ee.
  pose proof (remove_output_nodup o _ Hnd) as Hnd'.
  assert (Hgone : Forall (fun r => o_name r <> live_preview_name)
                    (remove_output o (outputs h))).
  { apply Forall_forall. intros r Hr. apply remove_output_elem in Hr as [Hne Hr].
    cbn in Huniq. rewrite Forall_forall in Huniq. intros En.
    specialize (Huniq r Hr En). congruence. }
  destruct p, h. unfold wf, hooks_inv in *. cbn in *. subst wo0.
  rewrite bool_decide_eq_true_2 by reflexivity. rewrite Ep, Ee. cbn.
  split; [rewrite lookup_insert_ne by discriminate; exact Hnone|].
  split; [apply find_output_by_name_None; exact Hgone|].
  split; [eapply Forall_impl; [exact Hgone|]; intros r Hr En; contradiction|].
  split; [exact Hnd'|]. split; [|constructor].
  apply Forall_forall. intros r Hr. apply remove_output_elem in Hr as [_ Hr].
  rewrite Forall_forall in Hfresh. auto.
Qed.

Lemma wf_created (id : view_id) (vo : output_id) (vg : geometry_t) :
  wo p = None ->
  wf (created_plugin id vo (next_handle h) p, created_host (next_handle h) vg p h).
Proof.
  intros Hwo. destruct Hwf as (Hnone & Hname & Huniq & Hnd & Hfresh & Hinv).
  destruct (hooks_inv_no_output _ _ Hinv Hwo) as [Ep Ee].
  unfold created_host, created_plugin, attached_host, attached_plugin.
  destruct p, h. unfold wf, hooks_inv in *. cbn in *. subst.
  set (n := next_handle0) in *.
  assert (Hall : hooks_set0 !! None <> Some true /\
    find_output_by_name live_preview_name (outputs0 ++ [created_output n vg]) = Some n /\
    Forall (fun r => o_name r = live_preview_name -> Some n = Some (o_id r))
      (outputs0 ++ [created_output n vg]) /\
    NoDup (map o_id (outputs0 ++ [created_output n vg])) /\
    Forall (fun r => (o_id r < S n)%nat) (outputs0 ++ [created_output n vg])).
  { split; [exact Hnone|]. split; [|split; [|split]].
    - rewrite find_output_by_name_app, Hname. reflexivity.
    - apply Forall_app. split.
      + eapply Forall_impl; [exact Huniq|]. intros r Hr En. specialize (Hr En). discriminate.
      + apply Forall_cons. split; [reflexivity|constructor].
    - rewrite fmap_app. apply NoDup_app. split; [exact Hnd|]. split.
      + intros a Ha Hin. apply list_elem_of_fmap in Ha as (r & -> & Hr).
        rewrite Forall_forall in Hfresh. specialize (Hfresh r Hr).
        cbn in Hin. apply list_elem_of_singleton in Hin. lia.
      + cbn. apply NoDup_singleton.
    - apply Forall_app. split.
      + eapply Forall_impl; [exact Hfresh|]. intros r Hr. cbn in Hr. lia.
      + apply Forall_cons. split; [cbn; lia|constructor]. }
  destruct Hall as (H1 & H2 & H3 & H4 & H5).
  destruct (default false (hooks_set0 !! Some n)); cbn.
  - split; [rewrite lookup_insert_ne by discriminate; exact H1|].
    repeat (split; [assumption|]). constructor.
  - split; [rewrite lookup_insert_ne by discriminate; exact H1|].
    repeat (split; [assumption|]).
    repeat (apply Forall_cons; split; [split; [reflexivity|apply lookup_insert_eq]|]).
    constructor.
Qed.

End ClosedForms.

(** ** The steps, whatever they return *)

Lemma create_render_instance_manager_total (p : plugin_t) (h : host_t) (id : view_id) :
  instance_manager p = None ->
  create_render_instance_manager id (p, h) =
  match shown_on h id with
  | Some vo =>
      Some (tt, (set_instance_manager (Some (id, vo)) p, h), [instance_manager_make id vo])
  | None => None
  end.
Proof.
  intros Him. destruct p. cbn in Him. subst.
  unfold create_render_instance_manager, shown_on, deref_view, deref, deref_output. cbn.
  destruct (views h !! id) as [view|]; cbn; [|reflexivity].
  destruct (v_output view) as [vo|]; cbn; [|reflexivity].
  destruct (find_output vo (outputs h)) as [r|] eqn:Hr; cbn; [|reflexivity].
  rewrite (find_output_id _ _ _ Hr). reflexivity.
Qed.

Lemma request_attach_inv (p : plugin_t) (h : host_t) (id : view_id) (o : output_id)
    (j : json_t) (w' : world) (t : list call) :
  wo p = Some o -> is_Some (find_output o (outputs h)) ->
  request_attach id (p, h) = Some (j, w', t) ->
  exists vo, w' = (attached_plugin id vo o p, attached_host o p h).
Proof.
  intros Hwo Halive.
  unfold request_attach, attached_plugin, attached_host.
  cbn. rewrite hooks_set_at_run. destruct p, h. cbn in *. subst wo0.
  destruct (hooks_set0 !! Some o) as [[]|] eqn:E; cbn;
    rewrite ?render_add_post_run by exact Halive; cbn;
    rewrite ?render_add_effect_run by exact Halive; cbn;
    rewrite destroy_render_instance_manager_run; cbn;
    rewrite create_render_instance_manager_total by reflexivity;
    unfold shown_on; cbn;
    (destruct (views0 !! id) as [view|]; cbn; [|discriminate]);
    (destruct (v_output view) as [vo|]; cbn; [|discriminate]);
    (destruct (find_output vo outputs0); cbn; [|discriminate]);
    intros [= <- <- <-]; exists vo;
    rewrite ?insert_insert_eq, ?(insert_id _ _ _ E); reflexivity.
Qed.

Lemma request_create_inv (p : plugin_t) (h : host_t) (id : view_id)
    (vg : geometry_t) (ans : host_answers) (j : json_t) (w' : world) (t : list call) :
  (forall r, r ∈ outputs h -> (o_id r < next_handle h)%nat) ->
  request_create id vg ans (p, h) = Some (j, w', t) ->
  exists vo, w' = (created_plugin id vo (next_handle h) p,
                   created_host (next_handle h) vg p h).
Proof.
  intros Hfresh. pose proof (find_output_fresh _ _ Hfresh) as Hnone.
  pose proof (proj1 (find_output_None _ _) Hnone) as Hnotin.
  unfold request_create, created_plugin, created_host,
    attached_plugin, attached_host, headless_add_output.
  destruct p, h. cbn in *.
  set (n := next_handle0) in *.
  assert (Hupd : update_output n (with_name live_preview_name)
                   (outputs0 ++ [{| o_id := n; o_name := "HEADLESS";
                                    o_mode := {| dim_width := width vg; dim_height := height vg |};
                                    o_scale := F32.of_int 1 |}]) =
                 outputs0 ++ [created_output n vg]).
  { rewrite update_output_app, update_output_notin by exact Hnotin.
    unfold update_output. cbn. rewrite Nat.eqb_refl. reflexivity. }
  assert (Hfind : find_output n (outputs0 ++ [created_output n vg]) = Some (created_output n vg)).
  { rewrite find_output_app, Hnone. cbn. rewrite Nat.eqb_refl. reflexivity. }
  destruct headless_backend0, (format_ok ans); cbn; rewrite Hupd, Hfind; cbn;
    rewrite hooks_set_at_run; cbn;
    destruct (hooks_set0 !! Some n) as [[]|] eqn:E; cbn;
    rewrite ?render_add_post_run by (cbn; rewrite Hfind; eauto); cbn;
    rewrite ?render_add_effect_run by (cbn; rewrite Hfind; eauto); cbn;
    unfold deref_output; cbn; rewrite Hfind; cbn;
    rewrite destroy_render_instance_manager_run; cbn;
    rewrite create_render_instance_manager_total by reflexivity;
    unfold shown_on; cbn;
    (destruct (views0 !! id) as [view|]; cbn; [|discriminate]);
    (destruct (v_output view) as [vo|]; cbn; [|discriminate]);
    (destruct (find_output vo (outputs0 ++ [created_output n vg])); cbn; [|discriminate]);
    intros [= <- <- <-]; exists vo;
    rewrite ?insert_insert_eq, ?(insert_id _ _ _ E); reflexivity.
Qed.

Section Invariant.

Lemma wf_request_resize (vg : geometry_t) (ans : host_answers)
    (w w' : world) (t : list call) :
  wf w -> request_resize vg ans w = Some (tt, w', t) -> wf w'.
Proof.
  destruct w as [p h]. intros Hwf.
  destruct (same_size vg (current_size p)) eqn:Hs.
  { rewrite request_resize_same by exact Hs. intros [= <- <-].
    apply wf_set_current_size. exact Hwf. }
  destruct (wo p) as [o|] eqn:Hwo.
  2:{ rewrite request_resize_no_output by exact Hwo. intros [= <- <-].
      apply wf_set_current_size. exact Hwf. }
  pose proof (wf_wo_alive _ _ _ Hwf Hwo) as Halive.
  pose proof (wf_name _ _ Hwf) as Hname. rewrite Hwo in Hname.
  pose proof (wf_set_current_size (mode_of vg) _ _ Hwf) as Hwf'.
  destruct (mode_ok ans) eqn:Hok.
  - rewrite (request_resize_commit _ _ _ _ o) by assumption. intros [= <- <-].
    apply wf_update_output; [exact Hwf'|reflexivity|reflexivity].
  - rewrite (request_resize_destroy _ _ _ _ o) by assumption. intros [= <- <-].
    apply wf_destroyed; [exact Hwf'|destruct p; exact Hwo].
Qed.

Lemma wf_request_stream (id : view_id) (ans : host_answers)
    (w w' : world) (j : json_t) (t : list call) :
  wf w -> request_stream id ans w = Some (j, w', t) -> wf w'.
Proof.
  destruct w as [p0 h0]. intros Hwf. unfold request_stream. intros H.
  apply bind_inv in H as (h & w1 & t1 & t2 & [= <- <- <-] & H & _). cbn in H.
  destruct (views h0 !! id) as [view|]; [|injection H as <- <- <-; exact Hwf].
  destruct (negb (v_toplevel view)); [injection H as <- <- <-; exact Hwf|].
  apply bind_inv in H as (p & w2 & t3 & t4 & [= <- <- <-] & H & _).
  cbn in H.
  destruct (scaled_geometry (max_dimension p0) (v_geometry view)) as [vg|]; [|discriminate].
  apply bind_inv in H as ([] & w3 & t5 & t6 & [= <- <-] & H & _).
  apply bind_inv in H as ([] & w4 & t7 & t8 & Hres & H & _).
  apply bind_inv in H as (p4 & w5 & t9 & t10 & [= <- <- <-] & H & _).
  assert (Hwf4 : wf w4).
  { apply (wf_request_resize _ _ _ _ _ (wf_set_drop_frame (frame_skip p0) _ _ Hwf) Hres). }
  destruct w4 as [p4 h4]. cbn in H.
  destruct (wo p4) as [o|] eqn:Hwo.
  - apply (request_attach_inv _ _ _ o) in H as [vo ->];
      [|exact Hwo|exact (wf_wo_alive _ _ _ Hwf4 Hwo)].
    apply wf_attached; assumption.
  - apply request_create_inv in H as [vo ->]; [|exact (wf_fresh _ _ Hwf4)].
    apply wf_created; assumption.
Qed.

Lemma wf_release_output (w w' : world) (j : json_t) (t : list call) :
  wf w -> release_output w = Some (j, w', t) -> wf w'.
Proof.
  destruct w as [p h]. intros Hwf H.
  destruct (release_output_run _ _ Hwf) as [t' E]. rewrite E in H.
  injection H as <- <- <-. apply wf_released. exact Hwf.
Qed.

Lemma wf_view_unmapped (v : view_id) (w w' : world) (t : list call) :
  wf w -> view_unmapped v w = Some (tt, w', t) -> wf w'.
Proof.
  destruct w as [p h]. intros Hwf H.
  destruct (decide (current_preview p = Some v)) as [Hcp|Hcp].
  - destruct (view_unmapped_run _ _ _ Hwf Hcp) as [t' E]. rewrite E in H.
    injection H as <- <-. apply wf_set_current_preview, wf_released. exact Hwf.
  - unfold view_unmapped in H. cbn in H.
    rewrite bool_decide_eq_false_2 in H by exact Hcp. injection H as <- <-. exact Hwf.
Qed.

(** The two hooks leave the compositor's state as it was. *)
Lemma damage_hook_state (w w' : world) (t : list call) :
  damage_hook w = Some (tt, w', t) -> w' = w.
Proof.
  destruct w as [p h]. unfold damage_hook, deref_output. cbn.
  destruct (wo p) as [o|]; cbn; [|intros [= <-]; reflexivity].
  destruct (find_output o (outputs h)); cbn; [|discriminate].
  intros [= <-]. reflexivity.
Qed.

Lemma capture_state (v : view_id) (p : plugin_t) (h : host_t) (w' : world) (t : list call) :
  NoDup (map o_id (outputs h)) -> capture v (p, h) = Some (tt, w', t) -> w' = (p, h).
Proof.
  intros Hnd.
  destruct (views h !! v) as [view|] eqn:Hv.
  2:{ unfold capture, deref_view. cbn. rewrite Hv. discriminate. }
  destruct (v_toplevel view) eqn:Ht.
  2:{ unfold capture, deref_view. cbn. rewrite Hv. cbn. rewrite Ht. discriminate. }
  destruct (v_output view) as [vo|] eqn:Hvo.
  2:{ unfold capture, deref_view, deref. cbn. rewrite Hv. cbn. rewrite Ht. cbn.
      rewrite Hvo. discriminate. }
  destruct (find_output vo (outputs h)) as [r|] eqn:Hr.
  2:{ unfold capture, deref_view, deref, deref_output. cbn. rewrite Hv. cbn. rewrite Ht. cbn.
      rewrite Hvo. cbn. rewrite Hr. discriminate. }
  rewrite (capture_run p h v view vo r) by (unfold previewable; eauto).
  intros [= <-]. reflexivity.
Qed.

Lemma post_hook_state (p : plugin_t) (h : host_t) (w' : world) (t : list call) :
  NoDup (map o_id (outputs h)) -> post_hook (p, h) = Some (tt, w', t) ->
  w' = (match current_preview p with
        | Some _ => set_drop_frame (next_drop_frame (frame_skip p) (drop_frame p)) p
        | None => p
        end, h).
Proof.
  intros Hnd. unfold post_hook, next_drop_frame. cbn.
  destruct (current_preview p) as [v|] eqn:Hcp; cbn.
  2:{ intros [= <-]. reflexivity. }
  destruct (drop_frame p >=? frame_skip p); cbn.
  - destruct (capture v _) as [[[[] w1] t1]|] eqn:E; [|discriminate].
    apply capture_state in E; [|exact Hnd]. subst w1.
    intros [= <-]. destruct p; reflexivity.
  - intros [= <-]. destruct p; reflexivity.
Qed.

Lemma wf_render_frame (o : output_id) (w w' : world) (t : list call) :
  wf w -> render_frame o w = Some (tt, w', t) -> wf w'.
Proof.
  intros Hwf. unfold render_frame. intros H.
  apply bind_inv in H as (h & w1 & t1 & t2 & [= <- <- <-] & H & _).
  apply bind_inv in H as ([] & w2 & t3 & t4 & Hd & H & _).
  assert (w2 = w) as ->.
  { destruct (bool_decide (o ∈ effect_hooks w.2)); cbn in Hd.
    - apply damage_hook_state in Hd. exact Hd.
    - injection Hd as <-. reflexivity. }
  destruct (bool_decide (o ∈ post_hooks w.2)); cbn in H.
  - destruct w as [p h]. apply post_hook_state in H as ->; [|exact (wf_nodup _ _ Hwf)].
    destruct (current_preview p); [apply wf_set_drop_frame|]; exact Hwf.
  - injection H as <-. exact Hwf.
Qed.

Lemma wf_run_event (e : event) (w w' : world) (t : list call) :
  wf w -> run_event e w = Some (tt, w', t) -> wf w'.
Proof.
  intros Hwf. destruct e as [id ans| |v|o|id view]; cbn [run_event]; intros H.
  - apply bind_inv in H as (j & w1 & t1 & t2 & H & [= <-] & _).
    exact (wf_request_stream _ _ _ _ _ _ Hwf H).
  - apply bind_inv in H as (j & w1 & t1 & t2 & H & [= <-] & _).
    exact (wf_release_output _ _ _ _ Hwf H).
  - apply bind_inv in H as (p & w1 & t1 & t2 & [= <- <- <-] & H & _).
    destruct (bool_decide (v ∈ view_unmapped_conn w.1)); cbn in H.
    + exact (wf_view_unmapped _ _ _ _ Hwf H).
    + injection H as <-. exact Hwf.
  - exact (wf_render_frame _ _ _ _ Hwf H).
  - injection H as <-. destruct w as [p h]. apply wf_set_views. exact Hwf.
Qed.

(** A layout the plugin has not touched yet: no output carries the name
    [live-preview], output objects are distinct and older than the next
    handle, and no hook of the plugin is registered. *)
Lemma wf_init (max_dim skip df : Z) (size : dimensions_t) (h : host_t) :
  Forall (fun r => o_name r <> live_preview_name) (outputs h) ->
  NoDup (map o_id (outputs h)) ->
  Forall (fun r => (o_id r < next_handle h)%nat) (outputs h) ->
  post_hooks h = [] -> effect_hooks h = [] ->
  wf (init_plugin max_dim skip size df, h).
Proof.
  intros Hn Hnd Hfresh Ep Ee. unfold wf, hooks_inv. cbn. rewrite Ep, Ee.
  split; [rewrite lookup_empty; discriminate|].
  split; [apply find_output_by_name_None; exact Hn|].
  split; [eapply Forall_impl; [exact Hn|]; intros r Hr En; contradiction|].
  split; [exact Hnd|]. split; [exact Hfresh|constructor].
Qed.

(** Every state of a run that started well formed is well formed. *)
Theorem wf_run_events (es : list event) (w w' : world) (t : list call) :
  wf w -> run_events es w = Some (tt, w', t) -> wf w'.
Proof.
  revert w t. induction es as [|e es IH]; intros w t Hwf H.
  - injection H as <-. exact Hwf.
  - cbn [run_events] in H.
    apply bind_inv in H as ([] & w1 & t1 & t2 & He & H & _).
    exact (IH _ _ (wf_run_event _ _ _ _ Hwf He) H).
Qed.

End Invariant.

(** ** The throttle counter along a run *)

Section ThrottleInvariant.

(** A request that answers an error has changed nothing. *)
Lemma request_stream_error_state (id : view_id) (ans : host_answers)
    (w w' : world) (msg : string) (t : list call) :
  request_stream id ans w = Some (json_error msg, w', t) -> w' = w.
Proof.
  unfold request_stream. intros H.
  apply bind_inv in H as (h & w1 & t1 & t2 & [= <- <- <-] & H & _).
  destruct (views w.2 !! id) as [view|]; [|injection H as <- <-; reflexivity].
  destruct (negb (v_toplevel view)); [injection H as <- <-; reflexivity|].
  apply bind_inv in H as (p & w2 & t3 & t4 & _ & H & _).
  destruct (scaled_geometry (max_dimension p) (v_geometry view)) as [vg|]; [|discriminate].
  exfalso. revert H.
  assert (Hok : answers_ok
    (modify_plugin (set_drop_frame (frame_skip p));;
     request_resize vg ans;;
     p0 <- get_plugin;;
     match wo p0 with
     | Some _ => request_attach id
     | None => request_create id vg ans
     end)).
  { repeat (apply answers_ok_bind; intros ?).
    destruct (wo _); [apply answers_ok_request_attach|apply answers_ok_request_create]. }
  intros H. apply Hok in H. discriminate.
Qed.

Lemma throttle_run_event (e : event) (w w' : world) (t : list call) :
  wf w -> 0 <= frame_skip w.1 <= F32.INT_MAX -> throttle_inv w ->
  run_event e w = Some (tt, w', t) ->
  frame_skip w'.1 = frame_skip w.1 /\ throttle_inv w'.
Proof.
  intros Hwf Hk Hinv. destruct w as [p h]. cbn [fst] in Hk.
  destruct e as [id ans| |v|o|id view]; cbn [run_event]; intros H.
  - apply bind_inv in H as (j & w1 & t1 & t2 & H & [= <-] & _).
    destruct j as [|msg].
    + apply request_stream_drop_frame in H as [Ed Ek]. cbn in Ed, Ek.
      split; [exact Ek|]. intros _. rewrite Ed, Ek. lia.
    + apply request_stream_error_state in H as ->. auto.
  - apply bind_inv in H as (j & w1 & t1 & t2 & H & [= <-] & _).
    destruct (release_output_run _ _ Hwf) as [t' E]. rewrite E in H.
    injection H as _ <- _.
    destruct (released_plugin_fields p) as (_ & Ek & Ecp & _ & _ & _ & Ed & _).
    split; [exact Ek|]. unfold throttle_inv. cbn. rewrite Ek, Ecp, Ed. exact Hinv.
  - apply bind_inv in H as (p0 & w1 & t1 & t2 & [= <- <- <-] & H & _).
    change ((p, h).1) with p in H.
    destruct (bool_decide (v ∈ view_unmapped_conn p)); unfold when in H;
      [|cbn in H; injection H as <-; auto].
    destruct (decide (current_preview p = Some v)) as [Hcp|Hcp].
    + destruct (view_unmapped_run _ _ _ Hwf Hcp) as [t' E]. rewrite E in H.
      injection H as <-.
      destruct (released_plugin_fields p) as (_ & Ek & _).
      split; [destruct (released_plugin p); exact Ek|].
      unfold throttle_inv. destruct (released_plugin p). cbn. intros [? [=]].
    + unfold view_unmapped in H. cbn in H.
      rewrite bool_decide_eq_false_2 in H by exact Hcp. injection H as <-. auto.
  - unfold render_frame in H.
    apply bind_inv in H as (h0 & w1 & t1 & t2 & [= <- <- <-] & H & _).
    apply bind_inv in H as ([] & w2 & t3 & t4 & Hd & H & _).
    assert (w2 = (p, h)) as ->.
    { change ((p, h).2) with h in Hd.
      destruct (bool_decide (o ∈ effect_hooks h)); unfold when in Hd.
      - apply damage_hook_state in Hd. exact Hd.
      - injection Hd as <-. reflexivity. }
    change ((p, h).2) with h in H.
    destruct (bool_decide (o ∈ post_hooks h)); unfold when in H;
      [|injection H as <-; auto].
    apply post_hook_state in H as ->; [|exact (wf_nodup _ _ Hwf)].
    destruct (current_preview p) as [cv|] eqn:Hcp; [|auto].
    assert (Hb : 0 <= drop_frame p <= frame_skip p) by (apply Hinv; cbn; rewrite Hcp; eauto).
    assert (Hn : 0 <= next_drop_frame (frame_skip p) (drop_frame p) <= frame_skip p).
    { unfold next_drop_frame. destruct (drop_frame p >=? frame_skip p) eqn:E; [lia|].
      rewrite Z.geb_leb in E. apply Z.leb_gt in E.
      rewrite wrap_small by (unfold F32.INT_MIN, F32.INT_MAX in *; lia). lia. }
    split; [destruct p; reflexivity|]. intros _. destruct p; exact Hn.
  - injection H as <-. auto.
Qed.

(** From a state without bound window, as the initial one, every state of
    a run in which a window is bound has its counter between 0 and
    [frame_skip]: the premise of the throttle's count. *)
Theorem throttle_run_events (es : list event) (w w' : world) (t : list call) :
  wf w -> 0 <= frame_skip w.1 <= F32.INT_MAX -> throttle_inv w ->
  run_events es w = Some (tt, w', t) ->
  frame_skip w'.1 = frame_skip w.1 /\ throttle_inv w'.
Proof.
  revert w t. induction es as [|e es IH]; intros w t Hwf Hk Hinv H.
  - injection H as <-. auto.
  - cbn [run_events] in H.
    apply bind_inv in H as ([] & w1 & t1 & t2 & He & H & _).
    destruct (throttle_run_event _ _ _ _ Hwf Hk Hinv He) as [Ek Hinv1].
    pose proof (wf_run_event _ _ _ _ Hwf He) as Hwf1.
    destruct (IH _ _ Hwf1 ltac:(rewrite Ek; exact Hk) Hinv1 H) as [Ek' Hinv'].
    split; [congruence|exact Hinv'].
Qed.

End ThrottleInvariant.

(** ** [request_stream] on a well-formed state *)

Lemma set_current_preview_fields (v : option view_id) (p : plugin_t) :
  max_dimension (set_current_preview v p) = max_dimension p /\
  wo (set_current_preview v p) = wo p /\
  current_size (set_current_preview v p) = current_size p /\
  view_unmapped_conn (set_current_preview v p) = view_unmapped_conn p /\
  instance_manager (set_current_preview v p) = instance_manager p /\
  current_preview (set_current_preview v p) = v.
Proof. destruct p. cbn. repeat split. Qed.

(** A request for a previewable view succeeds, whichever path it takes. *)
Lemma request_stream_ok (p : plugin_t) (h : host_t) (id : view_id) (view : view_t)
    (vo : output_id) (vg : geometry_t) (ans : host_answers) :
  wf (p, h) -> previewable h id view vo ->
  scaled_geometry (max_dimension p) (v_geometry view) = Some vg ->
  wo p <> Some vo ->
  exists p' h' t,
    request_stream id ans (p, h) = Some (json_ok, (p', h'), t) /\
    current_preview p' = Some id /\ instance_manager p' = Some (id, vo) /\
    current_size p' = mode_of vg /\ is_Some (wo p') /\
    (view_unmapped_conn p = [] -> view_unmapped_conn p' = [id]).
Proof.
  intros Hwf Hprev Hvg Hne.
  pose proof (wf_fresh _ _ Hwf) as Hfresh. pose proof (wf_name _ _ Hwf) as Hname.
  destruct (wo p) as [o|] eqn:Hwo.
  - pose proof (wf_wo_alive _ _ _ Hwf Hwo) as Halive.
    destruct (same_size vg (current_size p)) eqn:Hs; [|destruct (mode_ok ans) eqn:Hok].
    + do 3 eexists. split; [apply (request_stream_warm _ _ _ _ _ _ _ Hprev Hvg o); assumption|].
      destruct p; cbn in *. repeat split; eauto. intros ->. reflexivity.
    + do 3 eexists.
      split; [apply (request_stream_resized _ _ _ _ _ _ _ Hprev Hvg o); assumption|].
      destruct p; cbn in *. repeat split; eauto. intros ->. reflexivity.
    + do 3 eexists.
      split; [apply (request_stream_recreated _ _ _ _ _ _ _ Hprev Hvg o); try assumption;
              congruence|].
      destruct p; cbn in *. repeat split; eauto.
  - do 3 eexists. split; [apply (request_stream_created _ _ _ _ _ _ _ Hprev Hvg); assumption|].
    destruct p; cbn in *. repeat split; eauto. intros ->. reflexivity.
Qed.

(** ** C1: the scaling policy *)

(** The states of the examples are well formed. *)
Lemma wf_example_initial (skip : Z) : wf (example_initial skip).
Proof. apply (bool_decide_unpack _). vm_compute. exact I. Qed.

Lemma wf_example_bound (skip : Z) : wf (example_bound skip).
Proof. apply (bool_decide_unpack _). vm_compute. exact I. Qed.

(** C1. For every source geometry [(w, h)] with [w, h > 0], and a positive
    [max_dimension] of at most [2^21], the size computed at the head of
    [request_stream] has [max (preview_w, preview_h) = max_dimension]; the
    shorter side is within one pixel of the exact proportion
    [short * max_dimension / long], and whenever
    [7 * short * max_dimension < 2^24] it lies between that proportion
    minus one and the proportion itself.  The rounding rule is the one of
    the code: binary32 division, binary32 multiplication, truncation.
    Geometry 800x600 with [max_dimension = 256] gives 256x192. *)
Theorem C1_scaled_geometry_keeps_aspect (max_dim : Z) (vg : geometry_t) :
  0 < width vg <= F32.INT_MAX -> 0 < height vg <= F32.INT_MAX ->
  0 < max_dim <= 2 ^ 21 ->
  exists pg : geometry_t,
    scaled_geometry max_dim vg = Some pg /\
    Z.max (width pg) (height pg) = max_dim /\
    (width vg < height vg ->
       height pg = max_dim /\
       Z.abs (width pg - width vg * max_dim / height vg) <= 1 /\
       (7 * (width vg * max_dim) < 2 ^ 24 ->
          width vg * max_dim - height vg <= width pg * height vg <= width vg * max_dim)) /\
    (height vg <= width vg ->
       width pg = max_dim /\
       Z.abs (height pg - height vg * max_dim / width vg) <= 1 /\
       (7 * (height vg * max_dim) < 2 ^ 24 ->
          height vg * max_dim - width vg <= height pg * width vg <= height vg * max_dim)) /\
    scaled_geometry 256 (geometry_of 800 600) = Some (geometry_of 256 192).
Proof.
  intros Hw Hh Hm. unfold F32.INT_MAX in *. unfold scaled_geometry at 1.
  destruct (Z.ltb_spec (width vg) (height vg)) as [Hlt|Hge].
  - destruct (scale_side_correct (width vg) (height vg) max_dim)
      as (q & Eq & Hq & Habs & Hfine); try lia.
    rewrite Eq. eexists. split; [reflexivity|]. cbn.
    split; [lia|]. split; [intros _; auto|]. split; [lia|].
    vm_compute. reflexivity.
  - destruct (scale_side_correct (height vg) (width vg) max_dim)
      as (q & Eq & Hq & Habs & Hfine); try lia.
    rewrite Eq. eexists. split; [reflexivity|]. cbn.
    split; [lia|]. split; [lia|]. split; [intros _; auto|].
    vm_compute. reflexivity.
Qed.

Lemma C1_witness :
  exists pg : geometry_t,
    scaled_geometry 256 (geometry_of 1024 768) = Some pg /\
    Z.max (width pg) (height pg) = 256 /\
    (width (geometry_of 1024 768) < height (geometry_of 1024 768) ->
       height pg = 256 /\
       Z.abs (width pg - width (geometry_of 1024 768) * 256 / height (geometry_of 1024 768)) <= 1 /\
       (7 * (width (geometry_of 1024 768) * 256) < 2 ^ 24 ->
          width (geometry_of 1024 768) * 256 - height (geometry_of 1024 768)
          <= width pg * height (geometry_of 1024 768)
          <= width (geometry_of 1024 768) * 256)) /\
    (height (geometry_of 1024 768) <= width (geometry_of 1024 768) ->
       width pg = 256 /\
       Z.abs (height pg - height (geometry_of 1024 768) * 256 / width (geometry_of 1024 768)) <= 1 /\
       (7 * (height (geometry_of 1024 768) * 256) < 2 ^ 24 ->
          height (geometry_of 1024 768) * 256 - width (geometry_of 1024 768)
          <= height pg * width (geometry_of 1024 768)
          <= height (geometry_of 1024 768) * 256)) /\
    scaled_geometry 256 (geometry_of 800 600) = Some (geometry_of 256 192).
Proof.
  apply (C1_scaled_geometry_keeps_aspect 256 (geometry_of 1024 768));
    unfold F32.INT_MAX; cbn; lia.
Defined.

(** The size [request_stream] records in [current_size] is the computed
    one. *)
Lemma request_stream_current_size (p : plugin_t) (h : host_t) (id : view_id)
    (view : view_t) (vo : output_id) (vg : geometry_t) (ans : host_answers) :
  wf (p, h) -> previewable h id view vo ->
  scaled_geometry (max_dimension p) (v_geometry view) = Some vg ->
  wo p <> Some vo ->
  exists w' t, request_stream id ans (p, h) = Some (json_ok, w', t) /\
               current_size (fst w') = mode_of vg.
Proof.
  intros Hwf Hprev Hvg Hne.
  destruct (request_stream_ok p h id view vo vg ans Hwf Hprev Hvg Hne)
    as (p' & h' & t & E & _ & _ & Hcs & _).
  exists (p', h'), t. auto.
Qed.

(** ** C2: the bound window is unmapped *)

Lemma attach_trace_surface (id : view_id) (vo o : output_id) (p : plugin_t) :
  Forall (fun c => surface_call c = false) (attach_trace id vo o p).
Proof.
  unfold attach_trace.
  destruct (default false (hooks_set p !! Some o)), (instance_manager p);
    repeat constructor.
Qed.

Lemma surface_creates (t : list call) :
  Forall (fun c => surface_call c = false) t ->
  Forall (fun c => creates_output c = false) t.
Proof.
  intros H. eapply Forall_impl; [exact H|]. intros c. destruct c; cbn; congruence.
Qed.

Lemma attached_host_outputs (o : output_id) (p : plugin_t) (h : host_t) :
  outputs (attached_host o p h) = outputs h /\
  next_handle (attached_host o p h) = next_handle h.
Proof.
  unfold attached_host. destruct (default false (hooks_set p !! Some o)), h; auto.
Qed.

(** An existing output is used again whenever the size is unchanged or
    the compositor accepts the new mode. *)
Lemma request_stream_reuse (p : plugin_t) (h : host_t) (id : view_id) (view : view_t)
    (vo o : output_id) (vg : geometry_t) (ans : host_answers) :
  wf (p, h) -> previewable h id view vo ->
  scaled_geometry (max_dimension p) (v_geometry view) = Some vg ->
  wo p = Some o ->
  same_size vg (current_size p) = true \/ mode_ok ans = true ->
  exists p' h' t,
    request_stream id ans (p, h) = Some (json_ok, (p', h'), t) /\
    wo p' = Some o /\ current_preview p' = Some id /\
    Forall (fun c => creates_output c = false) t /\
    is_Some (find_output o (outputs h')) /\
    (same_size vg (current_size p) = true ->
       outputs h' = outputs h /\ Forall (fun c => surface_call c = false) t).
Proof.
  intros Hwf Hprev Hvg Hwo Hcase.
  pose proof (wf_wo_alive _ _ _ Hwf Hwo) as Halive.
  destruct (same_size vg (current_size p)) eqn:Hs.
  - do 3 eexists.
    split; [apply (request_stream_warm _ _ _ _ _ _ _ Hprev Hvg o); assumption|].
    pose proof (attach_trace_surface id vo o p) as Ht.
    destruct (attached_host_outputs o p h) as [Eo _]. rewrite Eo.
    destruct p; cbn in *. repeat split; auto using surface_creates.
  - destruct Hcase as [?|Hok]; [discriminate|].
    do 3 eexists.
    split; [apply (request_stream_resized _ _ _ _ _ _ _ Hprev Hvg o); assumption|].
    pose proof (attach_trace_surface id vo o p) as Ht.
    destruct (attached_host_outputs o p
                (set_outputs (update_output o (with_mode (mode_of vg)) (outputs h)) h))
      as [Eo _]. rewrite Eo.
    destruct p, h; cbn in *. repeat split; auto.
    + repeat constructor. auto using surface_creates.
    + rewrite find_output_update by reflexivity. destruct Halive as [r ->]. eauto.
    + discriminate.
Qed.

Lemma previewable_released (p : plugin_t) (h : host_t) (id : view_id) (view : view_t)
    (vo : output_id) :
  previewable h id view vo -> previewable (released_host p h) id view vo.
Proof.
  destruct (released_host_outputs p h) as (Eo & Ev & _).
  unfold previewable. rewrite Eo, Ev. auto.
Qed.

(** C2, as the code has it.  When [view_unmapped] fires for the bound
    window the state becomes the one [release_output] leaves, with
    [current_preview] cleared in addition: the render instance manager is
    gone, the unmap connection and the per-frame hooks are removed.  The
    synthetic output is kept, not destroyed.  A later request for a
    previewable window succeeds and binds that window and nothing else; it
    uses the kept output again, creating none, when the size is unchanged or
    the compositor accepts the new mode. *)
Theorem C2_view_unmapped_keeps_output (p : plugin_t) (h : host_t) (v id : view_id)
    (view : view_t) (vo : output_id) (vg : geometry_t) (ans : host_answers) :
  wf (p, h) -> current_preview p = Some v ->
  let p1 := set_current_preview None (released_plugin p) in
  let h1 := released_host p h in
  (exists t1 t0,
     view_unmapped v (p, h) = Some (tt, (p1, h1), t1) /\
     release_output (p, h) = Some (json_ok, (released_plugin p, h1), t0)) /\
  current_preview p1 = None /\ instance_manager p1 = None /\
  view_unmapped_conn p1 = [] /\ post_hooks h1 = [] /\ effect_hooks h1 = [] /\
  wo p1 = wo p /\ outputs h1 = outputs h /\
  (previewable h id view vo ->
   scaled_geometry (max_dimension p) (v_geometry view) = Some vg ->
   wo p <> Some vo ->
   exists p2 h2 t2,
     request_stream id ans (p1, h1) = Some (json_ok, (p2, h2), t2) /\
     current_preview p2 = Some id /\ instance_manager p2 = Some (id, vo) /\
     view_unmapped_conn p2 = [id] /\ is_Some (wo p2) /\
     (forall o, wo p = Some o ->
        same_size vg (current_size p) = true \/ mode_ok ans = true ->
        wo p2 = Some o /\ is_Some (find_output o (outputs h2)) /\
        Forall (fun c => creates_output c = false) t2)).
Proof.
  intros Hwf Hcp p1 h1.
  destruct (view_unmapped_run p h v Hwf Hcp) as [t1 E1].
  destruct (release_output_run p h Hwf) as [t0 E0].
  destruct Hwf as (Hnone & Hname & Huniq & Hnd & Hfresh & Hinv).
  assert (Hwf : wf (p, h)) by (repeat split; assumption).
  destruct (released_host_outputs p h) as (Eo & Ev & En & Ea).
  destruct (released_host_hooks p h Hinv) as [Ep Ee].
  destruct (released_plugin_fields p) as (Emd & Efs & _ & Ewo & Ecs & _ & _ & Eim & _ & Evu & _).
  assert (Hwf1 : wf (p1, h1)) by (apply wf_set_current_preview, wf_released; exact Hwf).
  assert (F : max_dimension p1 = max_dimension p /\ wo p1 = wo p /\
              current_size p1 = current_size p /\ view_unmapped_conn p1 = [] /\
              instance_manager p1 = None /\ current_preview p1 = None).
  { unfold p1.
    destruct (set_current_preview_fields None (released_plugin p))
      as (G1 & G2 & G3 & G4 & G5 & G6).
    rewrite G1, G2, G3, G4, G5, G6. repeat split; assumption. }
  destruct F as (Fmd & Fwo & Fcs & Fvu & Fim & Fcp).
  split; [eauto|]. repeat split; auto.
  intros Hprev Hvg Hne.
  pose proof (previewable_released p h id view vo Hprev) as Hprev1. fold h1 in Hprev1.
  rewrite <- Fmd in Hvg. rewrite <- Fwo in Hne.
  destruct (request_stream_ok p1 h1 id view vo vg ans Hwf1 Hprev1 Hvg Hne)
    as (p2 & h2 & t2 & E2 & Hcp2 & Him2 & _ & Hwo2 & Hvu2).
  exists p2, h2, t2.
  split; [exact E2|]. split; [exact Hcp2|]. split; [exact Him2|].
  split; [apply Hvu2; exact Fvu|]. split; [exact Hwo2|].
  intros o Ho Hcase. rewrite <- Fwo in Ho. rewrite <- Fcs in Hcase.
  destruct (request_stream_reuse p1 h1 id view vo o vg ans Hwf1 Hprev1 Hvg Ho Hcase)
    as (p2' & h2' & t2' & E2' & Hwo' & _ & Hnc & Hal & _).
  rewrite E2 in E2'. injection E2' as <- <- <-. repeat split; assumption.
Qed.

(** C2 as stated fails on the code.  View 1 is bound and unmapped: the
    output named [live-preview] is still in the layout and still [wo], and
    the request that follows, for the different view 4, creates no output. *)
Lemma C2_counterexample :
  answer_of (view_unmapped 1%N) (example_bound 2) = Some tt /\
  wo (fst (state_after (view_unmapped 1%N) (example_bound 2))) = Some 1%nat /\
  find_output_by_name live_preview_name
    (outputs (snd (state_after (view_unmapped 1%N) (example_bound 2)))) = Some 1%nat /\
  answer_of (request_stream 4%N (example_answers true))
    (state_after (view_unmapped 1%N) (example_bound 2)) = Some json_ok /\
  forallb (fun c => negb (creates_output c))
    (trace_of (request_stream 4%N (example_answers true))
       (state_after (view_unmapped 1%N) (example_bound 2))) = true.
Proof. vm_compute. repeat split. Qed.

Lemma C2_witness :
  wf (example_bound 2) /\
  current_preview (fst (example_bound 2)) = Some 1%N /\
  outputs (released_host (fst (example_bound 2)) (snd (example_bound 2))) =
  outputs (snd (example_bound 2)).
Proof.
  split; [apply wf_example_bound|]. split; [vm_compute; reflexivity|].
  destruct (C2_view_unmapped_keeps_output (fst (example_bound 2)) (snd (example_bound 2))
              1%N 4%N (toplevel_of 1024 768) 0%nat (geometry_of 256 192)
              (example_answers true))
    as (_ & _ & _ & _ & _ & _ & _ & Ho & _).
  - apply (bool_decide_unpack _). vm_compute. exact I.
  - vm_compute. reflexivity.
  - exact Ho.
Defined.

(** ** C3: the scale of the capture *)

(** C3, at a window taller than wide.  With view 2 (600x800) bound and
    [max_dimension] 256, the frame's capture sets the scale of the view's
    output to [256 / float(600)], takes the snapshot at that scale and sets
    the old scale back; the scale is not [256 / float(max(600, 800))]. *)
Theorem C3_capture_scale_portrait :
  answer_of post_hook example_portrait = Some tt /\
  trace_of post_hook example_portrait =
    capture_trace (fst example_portrait) 2%N (geometry_of 600 800) 0%nat (F32.of_int 1) /\
  trace_of post_hook example_portrait !! 2%nat =
    Some (take_snapshot 2%N 0%nat (F32.fdiv (F32.of_int 256) (F32.of_int 600))) /\
  F32.fdiv (F32.of_int 256) (F32.of_int 600) <>
    F32.fdiv (F32.of_int 256) (F32.of_int (Z.max 600 800)) /\
  snd (state_after post_hook example_portrait) = snd example_portrait.
Proof. vm_compute. repeat split. discriminate. Qed.

(** Whatever the window, the snapshot is taken at
    [max_dimension / float(width)] and the old scale is set back. *)
Lemma capture_scale (p : plugin_t) (h : host_t) (v : view_id) (view : view_t)
    (vo : output_id) (r : output_t) :
  previewable h v view vo -> find_output vo (outputs h) = Some r ->
  NoDup (map o_id (outputs h)) ->
  exists t,
    capture v (p, h) = Some (tt, (p, h), t) /\
    t !! 2%nat =
      Some (take_snapshot v vo
              (F32.fdiv (F32.of_int (max_dimension p)) (F32.of_int (width (v_geometry view))))) /\
    t !! 3%nat = Some (set_scale vo (o_scale r)).
Proof.
  intros Hprev Hr Hnd. eexists. split; [apply (capture_run _ _ _ _ _ _ Hprev Hr Hnd)|].
  split; reflexivity.
Qed.

(** ** C4: a mode the compositor may refuse *)

Lemma find_output_remove_eq (o : output_id) (os : list output_t) :
  find_output o (remove_output o os) = None.
Proof.
  apply find_output_None. unfold remove_output. intros Hin.
  apply list_elem_of_fmap in Hin as (r & -> & Hr).
  apply list_elem_of_filter in Hr as [Hne _]. apply Hne. reflexivity.
Qed.

Lemma destroy_trace_calls (ans : host_answers) (o : output_id) (p : plugin_t) (h : host_t) :
  wlr_output_destroy o ∈ destroy_trace ans o p h /\
  (forall o' m, wlr_output_commit_state o' m ∉ destroy_trace ans o p h).
Proof.
  unfold destroy_trace.
  destruct (instance_manager p), (default false (hooks_set p !! Some o)),
    (bool_decide (active_output h = Some o)); cbn; split;
    try (intros o' m Hin; repeat (apply elem_of_cons in Hin as [Hin|Hin]; [discriminate|]);
         apply elem_of_nil in Hin; exact Hin);
    repeat first [apply list_elem_of_here | apply list_elem_of_further].
Qed.

Lemma create_trace_calls (id : view_id) (vo n : output_id) (vg : geometry_t)
    (ans : host_answers) (p : plugin_t) :
  wlr_headless_add_output n (width vg) (height vg) ∈ create_trace id vo n vg ans p /\
  (forall o' m, o' <> n -> wlr_output_commit_state o' m ∉ create_trace id vo n vg ans p).
Proof.
  unfold create_trace.
  destruct (instance_manager p), (default false (hooks_set p !! Some n)),
    (headless_backend p), (format_ok ans); cbn; split;
    try (intros o' m Hne Hin;
         repeat (apply elem_of_cons in Hin as [Hin|Hin]; [congruence|]);
         apply elem_of_nil in Hin; exact Hin);
    repeat first [apply list_elem_of_here | apply list_elem_of_further].
Qed.

(** C4.  When the computed size differs from [current_size] and an output
    exists, the new mode is tested first.  If the compositor accepts it,
    the mode is committed at once and the output is kept.  If it refuses,
    no mode of the old output is committed, the output is destroyed, and the
    same request goes on to create a new output of the new size.  Either
    way the request answers [json_ok]. *)
Theorem C4_resize_tests_before_commit (p : plugin_t) (h : host_t) (id : view_id)
    (view : view_t) (vo o : output_id) (vg : geometry_t) (ans : host_answers) :
  wf (p, h) -> wo p = Some o -> previewable h id view vo -> vo <> o ->
  scaled_geometry (max_dimension p) (v_geometry view) = Some vg ->
  same_size vg (current_size p) = false ->
  exists p' h' t,
    request_stream id ans (p, h) = Some (json_ok, (p', h'), t) /\
    current_size p' = mode_of vg /\ current_preview p' = Some id /\
    (mode_ok ans = true ->
       exists t',
         t = wlr_output_test_state o (Some (mode_of vg)) true ::
             wlr_output_commit_state o (Some (mode_of vg)) :: t' /\
         Forall (fun c => surface_call c = false) t' /\
         wo p' = Some o /\
         o_mode <$> find_output o (outputs h') = Some (mode_of vg)) /\
    (mode_ok ans = false ->
       exists t',
         t = wlr_output_test_state o (Some (mode_of vg)) false :: t' /\
         (forall m, wlr_output_commit_state o m ∉ t') /\
         wlr_output_destroy o ∈ t' /\
         wlr_headless_add_output (next_handle h) (width vg) (height vg) ∈ t' /\
         find_output o (outputs h') = None /\
         next_handle h <> o /\
         wo p' = Some (next_handle h) /\
         find_output (next_handle h) (outputs h') =
           Some (created_output (next_handle h) vg)).
Proof.
  intros Hwf Hwo Hprev Hne Hvg Hs.
  pose proof (wf_fresh _ _ Hwf) as Hfresh. pose proof (wf_name _ _ Hwf) as Hname.
  pose proof (wf_wo_alive _ _ _ Hwf Hwo) as Halive. rewrite Hwo in Hname.
  assert (Hno : next_handle h <> o).
  { destruct Halive as [r Hr]. pose proof (find_output_id _ _ _ Hr) as Hid.
    apply find_output_elem, Hfresh in Hr. lia. }
  destruct (mode_ok ans) eqn:Hok.
  - do 3 eexists.
    split; [apply (request_stream_resized _ _ _ _ _ _ _ Hprev Hvg o); assumption|].
    destruct (attached_host_outputs o p
                (set_outputs (update_output o (with_mode (mode_of vg)) (outputs h)) h))
      as [Eo _]. rewrite Eo.
    split; [destruct p; reflexivity|]. split; [destruct p; reflexivity|].
    split; [|discriminate]. intros _. eexists. split; [reflexivity|].
    split; [apply attach_trace_surface|]. split; [destruct p; exact Hwo|].
    destruct h, Halive as [r Hr]. cbn in *.
    rewrite find_output_update by reflexivity. rewrite Hr. cbn.
    rewrite (find_output_id _ _ _ Hr), Nat.eqb_refl. reflexivity.
  - do 3 eexists.
    split; [apply (request_stream_recreated _ _ _ _ _ _ _ Hprev Hvg o); assumption|].
    set (p2 := destroyed_plugin o (sized vg p)).
    destruct (attached_host_outputs (next_handle h) p2
                (set_next_handle (S (next_handle h))
                   (set_outputs (outputs (destroyed_host ans o h) ++
                                 [created_output (next_handle h) vg])
                      (destroyed_host ans o h)))) as [Eo _].
    unfold created_host. rewrite Eo.
    split; [destruct p; reflexivity|]. split; [destruct p; reflexivity|].
    split; [discriminate|]. intros _. eexists. split; [reflexivity|].
    destruct (destroy_trace_calls ans o (sized vg p) h) as [Hd Hnc].
    destruct (create_trace_calls id vo (next_handle h) vg ans p2) as [Ha Hnc'].
    split; [|split; [|split; [|split; [|split; [|split]]]]].
    + intros m Hin. apply elem_of_app in Hin as [Hin|Hin].
      * exact (Hnc _ _ Hin).
      * apply (Hnc' o m); [congruence|exact Hin].
    + apply elem_of_app. left. exact Hd.
    + apply elem_of_app. right. exact Ha.
    + destruct h. cbn in *. rewrite find_output_app, find_output_remove_eq. cbn.
      destruct (Nat.eqb_spec next_handle0 o); [congruence|reflexivity].
    + exact Hno.
    + subst p2. destruct p. reflexivity.
    + destruct h. cbn in *. rewrite find_output_app.
      rewrite find_output_fresh.
      * cbn. rewrite Nat.eqb_refl. reflexivity.
      * intros r Hr. apply Hfresh. unfold remove_output in Hr.
        apply list_elem_of_filter in Hr as [_ Hr]. exact Hr.
Qed.

Lemma C4_witness :
  wf (example_bound 2) /\
  same_size (geometry_of 192 256) (current_size (fst (example_bound 2))) = false /\
  answer_of (request_stream 2%N (example_answers false)) (example_bound 2) = Some json_ok.
Proof.
  split; [apply wf_example_bound|]. split; [vm_compute; reflexivity|].
  destruct (C4_resize_tests_before_commit (fst (example_bound 2)) (snd (example_bound 2))
              2%N (toplevel_of 600 800) 0%nat 1%nat (geometry_of 192 256)
              (example_answers false))
    as (p' & h' & t & E & _).
  - apply (bool_decide_unpack _). vm_compute. exact I.
  - vm_compute. reflexivity.
  - apply (bool_decide_unpack _). vm_compute. exact I.
  - lia.
  - vm_compute. reflexivity.
  - vm_compute. reflexivity.
  - unfold answer_of.
    replace (example_bound 2) with (fst (example_bound 2), snd (example_bound 2))
      by (vm_compute; reflexivity).
    rewrite E. reflexivity.
Defined.

(** ** C5: the frame throttle *)

(** A run from the initial state with [frame_skip] 2: the request, then six
    frames of the synthetic output (handle 1), of which the first and the
    fourth capture; frames of the real output (handle 0) run no hook. *)
Example run_of_frames :
  captures (trace_of (run_events
    [ev_request_stream 1%N (example_answers true);
     ev_frame 1%nat; ev_frame 1%nat; ev_frame 1%nat;
     ev_frame 0%nat;
     ev_frame 1%nat; ev_frame 1%nat; ev_frame 1%nat]) (example_initial 2)) = 2%nat /\
  map captures
    (map (fun es => trace_of (run_events es)
                      (state_after (run_events [ev_request_stream 1%N (example_answers true)])
                         (example_initial 2)))
         [[ev_frame 1%nat]; [ev_frame 1%nat; ev_frame 1%nat];
          [ev_frame 1%nat; ev_frame 1%nat; ev_frame 1%nat];
          [ev_frame 1%nat; ev_frame 1%nat; ev_frame 1%nat; ev_frame 1%nat];
          [ev_frame 0%nat]]) = [1; 1; 1; 2; 0]%nat.
Proof. vm_compute. split; reflexivity. Qed.

(** C5.  While a window is bound (so that the counter is not negative, as
    in every state of a run, [throttle_run_events]: a request sets it to
    [frame_skip], see C6, and a tick keeps it so), with
    [frame_skip = k >= 0]: one tick captures and resets [drop_frame] to 0
    when [drop_frame >= k], and otherwise only increments [drop_frame];
    any [k + 1] consecutive ticks of a run, wherever they start, capture
    exactly once, so [n] such windows capture [n] times; with [k = 2],
    any three consecutive ticks capture once. *)
Theorem C5_frame_throttle (p : plugin_t) (h : host_t) (v : view_id) (view : view_t)
    (vo : output_id) :
  current_preview p = Some v -> previewable h v view vo ->
  NoDup (map o_id (outputs h)) ->
  0 <= frame_skip p <= F32.INT_MAX -> 0 <= drop_frame p ->
  (exists t,
     post_hook (p, h) =
       Some (tt, (set_drop_frame (if drop_frame p >=? frame_skip p
                                  then 0 else drop_frame p + 1) p, h), t) /\
     captures t = if drop_frame p >=? frame_skip p then 1%nat else 0%nat) /\
  (forall m : nat,
     exists pm tm p' t,
       ticks m (p, h) = Some (tt, (pm, h), tm) /\
       ticks (S (Z.to_nat (frame_skip p))) (pm, h) = Some (tt, (p', h), t) /\
       captures t = 1%nat /\ 0 <= drop_frame p' <= frame_skip p) /\
  (forall n : nat,
     exists p' t,
       ticks (n * S (Z.to_nat (frame_skip p))) (p, h) = Some (tt, (p', h), t) /\
       captures t = n) /\
  (frame_skip p = 2 ->
     forall m : nat,
       exists pm tm p' t,
         ticks m (p, h) = Some (tt, (pm, h), tm) /\
         ticks 3 (pm, h) = Some (tt, (p', h), t) /\ captures t = 1%nat).
Proof.
  intros Hcp Hprev Hnd Hskip Hd.
  destruct Hprev as (Hv & Ht & Hvo & [r Hr]).
  assert (Hprev : previewable h v view vo) by (repeat split; eauto).
  assert (Ep : p = set_drop_frame (drop_frame p) p) by (destruct p; reflexivity).
  assert (Hwin : forall m : nat,
     exists pm tm p' t,
       ticks m (p, h) = Some (tt, (pm, h), tm) /\
       ticks (S (Z.to_nat (frame_skip p))) (pm, h) = Some (tt, (p', h), t) /\
       captures t = 1%nat /\ 0 <= drop_frame p' <= frame_skip p).
  { intros m.
    destruct (ticks_any p h v view vo r Hcp Hprev Hr Hnd Hskip m (drop_frame p) Hd)
      as (dm & tm & Em & Hdm).
    destruct (ticks_window p h v view vo r Hcp Hprev Hr Hnd Hskip dm Hdm)
      as (d' & t & E & Hc & Hd').
    rewrite <- Ep in Em.
    exists (set_drop_frame dm p), tm, (set_drop_frame d' p), t.
    split; [exact Em|]. split; [exact E|]. split; [exact Hc|].
    destruct p; exact Hd'. }
  split; [|split; [exact Hwin|split]].
  - rewrite (post_hook_run _ _ v view vo r Hcp Hprev Hr Hnd). unfold next_drop_frame.
    destruct (drop_frame p >=? frame_skip p) eqn:E.
    + eexists. split; reflexivity.
    + rewrite Z.geb_leb in E. apply Z.leb_gt in E.
      rewrite wrap_small by (unfold F32.INT_MIN, F32.INT_MAX in *; lia).
      eexists. split; reflexivity.
  - intros n.
    destruct (ticks_windows p h v view vo r Hcp Hprev Hr Hnd Hskip n (drop_frame p) Hd)
      as (d' & t & E & Hc & _).
    rewrite <- Ep in E. eauto.
  - intros H2 m. destruct (Hwin m) as (pm & tm & p' & t & Em & E & Hc & _).
    rewrite H2 in E. exists pm, tm, p', t. auto.
Qed.

Lemma C5_witness :
  current_preview (fst (example_bound 2)) = Some 1%N /\
  0 <= drop_frame (fst (example_bound 2)) /\
  exists pm tm p' t,
    ticks 5 (fst (example_bound 2), snd (example_bound 2)) =
      Some (tt, (pm, snd (example_bound 2)), tm) /\
    ticks 3 (pm, snd (example_bound 2)) = Some (tt, (p', snd (example_bound 2)), t) /\
    captures t = 1%nat.
Proof.
  split; [vm_compute; reflexivity|]. split; [vm_compute; discriminate|].
  refine (proj2 (proj2 (proj2 (C5_frame_throttle (fst (example_bound 2))
            (snd (example_bound 2)) 1%N (toplevel_of 800 600) 0%nat _ _ _ _ _))) _ 5%nat).
  - vm_compute. reflexivity.
  - apply (bool_decide_unpack _). vm_compute. exact I.
  - apply (bool_decide_unpack _). vm_compute. exact I.
  - vm_compute. split; discriminate.
  - vm_compute. discriminate.
  - vm_compute. reflexivity.
Defined.

(** ** C6: the counter at a request *)

(** C6 as stated fails on the code: with [frame_skip = 2] a successful
    request leaves [drop_frame] at 2, not at 0. *)
Lemma C6_counterexample :
  answer_of (request_stream 1%N (example_answers true)) (example_initial 2) = Some json_ok /\
  drop_frame (fst (state_after (request_stream 1%N (example_answers true))
                     (example_initial 2))) = 2 /\
  drop_frame (fst (state_after (request_stream 1%N (example_answers true))
                     (example_initial 2))) <> 0.
Proof. vm_compute. repeat split. discriminate. Qed.

(** C6, as the code has it.  Every successful [request_stream] sets
    [drop_frame] to [frame_skip], so that the first tick after it
    captures; [drop_frame] is 0 afterwards exactly when [frame_skip] is. *)
Theorem C6_request_sets_drop_frame_to_frame_skip (id : view_id) (ans : host_answers)
    (w w' : world) (t : list call) :
  request_stream id ans w = Some (json_ok, w', t) ->
  drop_frame (fst w') = frame_skip (fst w) /\
  frame_skip (fst w') = frame_skip (fst w) /\
  (drop_frame (fst w') = 0 <-> frame_skip (fst w) = 0).
Proof.
  intros H. destruct (request_stream_drop_frame id ans w w' t H) as [E1 E2].
  rewrite E1. repeat split; auto.
Qed.

Lemma C6_witness :
  drop_frame (fst (state_after (request_stream 1%N (example_answers true))
                     (example_initial 2))) = frame_skip (fst (example_initial 2)).
Proof.
  destruct (request_stream 1%N (example_answers true) (example_initial 2))
    as [[[j w'] t]|] eqn:E.
  - assert (Hj : j = json_ok) by (vm_compute in E; congruence). subst j.
    unfold state_after. rewrite E.
    exact (proj1 (C6_request_sets_drop_frame_to_frame_skip _ _ _ _ _ E)).
  - vm_compute in E. discriminate.
Defined.

(** ** C7, C8, C10: [release_output] *)

Lemma released_plugin_idemp (p : plugin_t) :
  released_plugin (released_plugin p) = released_plugin p.
Proof. destruct p. unfold released_plugin. cbn. rewrite insert_insert_eq. reflexivity. Qed.

Lemma released_host_idemp (p : plugin_t) (h : host_t) :
  released_host (released_plugin p) (released_host p h) = released_host p h.
Proof.
  destruct (released_plugin_fields p) as (_ & _ & _ & Ewo & _ & Ehs & _).
  unfold released_host at 1. rewrite Ewo, Ehs.
  destruct (wo p); [rewrite lookup_insert_eq|]; reflexivity.
Qed.

(** C7.  [release_output] never answers an error, and a second call in a
    row leaves the state exactly as the first one left it. *)
Theorem C7_release_output_idempotent (p : plugin_t) (h : host_t) :
  wf (p, h) ->
  (forall w j w' t, release_output w = Some (j, w', t) -> j = json_ok) /\
  exists w1 t1 t2,
    release_output (p, h) = Some (json_ok, w1, t1) /\
    release_output w1 = Some (json_ok, w1, t2).
Proof.
  intros Hwf. split; [exact answers_ok_release_output|].
  destruct (release_output_run p h Hwf) as [t1 E1].
  destruct (release_output_run _ _ (wf_released p h Hwf)) as [t2 E2].
  rewrite released_plugin_idemp, released_host_idemp in E2. eauto.
Qed.

Lemma C7_witness :
  wf (example_bound 2) /\
  exists w1 t1 t2,
    release_output (fst (example_bound 2), snd (example_bound 2)) = Some (json_ok, w1, t1) /\
    release_output w1 = Some (json_ok, w1, t2).
Proof.
  split; [apply wf_example_bound|].
  apply (C7_release_output_idempotent (fst (example_bound 2)) (snd (example_bound 2))).
  apply (bool_decide_unpack _). vm_compute. exact I.
Defined.

(** C8 as stated fails on the code: after [release_output] in the state
    where view 1 is bound, [current_preview] is still view 1. *)
Lemma C8_counterexample :
  answer_of release_output (example_bound 2) = Some json_ok /\
  current_preview (fst (state_after release_output (example_bound 2))) = Some 1%N /\
  current_preview (fst (state_after release_output (example_bound 2))) <> None.
Proof. vm_compute. repeat split. discriminate. Qed.

(** C8, as the code has it.  After [release_output], in any state, the
    render instance manager (the damage bridge) is gone, the unmap
    connection is dropped and no per-frame hook is registered, so that no
    frame of any output captures; [current_preview] keeps its value. *)
Theorem C8_release_output_unbinds (p : plugin_t) (h : host_t) :
  wf (p, h) ->
  exists p' h' t,
    release_output (p, h) = Some (json_ok, (p', h'), t) /\
    instance_manager p' = None /\ view_unmapped_conn p' = [] /\
    post_hooks h' = [] /\ effect_hooks h' = [] /\
    current_preview p' = current_preview p /\
    (forall o, render_frame o (p', h') = Some (tt, (p', h'), [])).
Proof.
  intros Hwf. destruct (release_output_run p h Hwf) as [t E].
  destruct Hwf as (_ & _ & _ & _ & _ & Hinv).
  destruct (released_host_hooks p h Hinv) as [Ep Ee].
  destruct (released_plugin_fields p) as (_ & _ & Ecp & _ & _ & _ & _ & Eim & _ & Evu & _).
  exists (released_plugin p), (released_host p h), t.
  repeat split; auto.
  intros o. unfold render_frame. cbn. rewrite Ep, Ee. reflexivity.
Qed.

Lemma C8_witness :
  wf (example_bound 2) /\
  exists p' h' t,
    release_output (fst (example_bound 2), snd (example_bound 2)) =
      Some (json_ok, (p', h'), t) /\
    instance_manager p' = None /\ post_hooks h' = [].
Proof.
  split; [apply wf_example_bound|].
  destruct (C8_release_output_unbinds (fst (example_bound 2)) (snd (example_bound 2)))
    as (p' & h' & t & E & Him & _ & Hph & _).
  - apply (bool_decide_unpack _). vm_compute. exact I.
  - exists p', h', t. auto.
Defined.

(** C10.  [release_output] leaves the synthetic output, [current_size],
    [current_preview] and the headless backend as they were; it removes
    the render instance manager, the unmap connection and the per-frame
    hooks.  A request that follows and computes the size already in
    [current_size] binds its window to the same output and makes no call
    that creates, tests, resizes or destroys an output. *)
Theorem C10_release_keeps_output_warm (p : plugin_t) (h : host_t) (o : output_id)
    (id : view_id) (view : view_t) (vo : output_id) (vg : geometry_t)
    (ans : host_answers) :
  wf (p, h) -> wo p = Some o ->
  exists p1 h1 t1,
    release_output (p, h) = Some (json_ok, (p1, h1), t1) /\
    wo p1 = Some o /\ current_size p1 = current_size p /\
    current_preview p1 = current_preview p /\
    headless_backend p1 = headless_backend p /\ outputs h1 = outputs h /\
    instance_manager p1 = None /\ view_unmapped_conn p1 = [] /\
    post_hooks h1 = [] /\ effect_hooks h1 = [] /\
    (previewable h id view vo ->
     scaled_geometry (max_dimension p) (v_geometry view) = Some vg ->
     same_size vg (current_size p) = true ->
     exists p2 h2 t2,
       request_stream id ans (p1, h1) = Some (json_ok, (p2, h2), t2) /\
       wo p2 = Some o /\ outputs h2 = outputs h /\ current_preview p2 = Some id /\
       Forall (fun c => surface_call c = false) t2).
Proof.
  intros Hwf Hwo. destruct (release_output_run p h Hwf) as [t1 E1].
  pose proof (wf_released p h Hwf) as Hwf1.
  destruct Hwf as (_ & _ & _ & _ & _ & Hinv).
  destruct (released_host_hooks p h Hinv) as [Ep Ee].
  destruct (released_host_outputs p h) as (Eo & _).
  destruct (released_plugin_fields p)
    as (Emd & _ & Ecp & Ewo & Ecs & _ & _ & Eim & Ehb & Evu & _).
  exists (released_plugin p), (released_host p h), t1.
  split; [exact E1|]. rewrite Ewo, Ecs, Ecp, Ehb, Eo, Eim, Evu, Ep, Ee.
  repeat split; auto.
  intros Hprev Hvg Hs.
  pose proof (previewable_released p h id view vo Hprev) as Hprev1.
  rewrite <- Emd in Hvg. rewrite <- Ecs in Hs. rewrite <- Ewo in Hwo.
  destruct (request_stream_reuse _ _ id view vo o vg ans Hwf1 Hprev1 Hvg Hwo (or_introl Hs))
    as (p2 & h2 & t2 & E2 & Hwo2 & Hcp2 & _ & _ & Hsame).
  destruct (Hsame Hs) as [Eo2 Ht2].
  exists p2, h2, t2. rewrite Eo2, Eo. auto.
Qed.

Lemma C10_witness :
  wf (example_bound 2) /\ wo (fst (example_bound 2)) = Some 1%nat /\
  exists p1 h1 t1,
    release_output (fst (example_bound 2), snd (example_bound 2)) =
      Some (json_ok, (p1, h1), t1) /\
    wo p1 = Some 1%nat /\ outputs h1 = outputs (snd (example_bound 2)).
Proof.
  split; [apply wf_example_bound|]. split; [vm_compute; reflexivity|].
  destruct (C10_release_keeps_output_warm (fst (example_bound 2)) (snd (example_bound 2))
              1%nat 4%N (toplevel_of 1024 768) 0%nat (geometry_of 256 192)
              (example_answers true))
    as (p1 & h1 & t1 & E & Hwo & _ & _ & _ & Ho & _).
  - apply (bool_decide_unpack _). vm_compute. exact I.
  - vm_compute. reflexivity.
  - exists p1, h1, t1. auto.
Defined.

(** ** C9: a window with an empty side *)

Lemma scale_side_zero (L M : Z) :
  0 < L < 2 ^ 31 -> 0 < M < 2 ^ 31 -> scale_side 0 L M = Some 0.
Proof.
  intros HL HM.
  destruct (F32Facts.of_int_correct L HL) as (mb & eb & Eb & Hmb & Heb & _).
  destruct (F32Facts.of_int_correct M HM) as (mc & ec & Ec & Hmc & Hec & _).
  destruct (F32Facts.fdiv_correct mc mb ec eb Hmc Hmb ltac:(lia)) as (mq & eq & Eq & _).
  unfold scale_side, scale_float. rewrite Eb, Ec, Eq. reflexivity.
Qed.

(** C9 as stated fails on the code: the request for view 3, whose geometry
    is 0x600, is answered [json_ok] and records the size 0x256. *)
Lemma C9_counterexample :
  answer_of (request_stream 3%N (example_answers true)) (example_initial 2) = Some json_ok /\
  current_size (fst (state_after (request_stream 3%N (example_answers true))
                       (example_initial 2))) =
    {| dim_width := 0; dim_height := 256 |}.
Proof. vm_compute. repeat split. Qed.

(** C9, as the code has it.  [request_stream] does not look at the
    geometry before scaling it: for a previewable window with one empty
    side the request is not rejected; it answers [json_ok] and records a
    size whose empty side is 0 and whose other side is [max_dimension]. *)
Theorem C9_degenerate_geometry_is_not_rejected (p : plugin_t) (h : host_t)
    (id : view_id) (view : view_t) (vo : output_id) (ans : host_answers) :
  wf (p, h) -> previewable h id view vo -> wo p <> Some vo ->
  0 < max_dimension p <= F32.INT_MAX ->
  (width (v_geometry view) = 0 /\ 0 < height (v_geometry view) <= F32.INT_MAX) \/
  (height (v_geometry view) = 0 /\ 0 < width (v_geometry view) <= F32.INT_MAX) ->
  exists w' t,
    request_stream id ans (p, h) = Some (json_ok, w', t) /\
    current_size (fst w') =
      if width (v_geometry view) =? 0
      then {| dim_width := 0; dim_height := max_dimension p |}
      else {| dim_width := max_dimension p; dim_height := 0 |}.
Proof.
  intros Hwf Hprev Hne Hm Hdeg. unfold F32.INT_MAX in *.
  assert (Hvg : exists vg,
            scaled_geometry (max_dimension p) (v_geometry view) = Some vg /\
            mode_of vg = if width (v_geometry view) =? 0
                         then {| dim_width := 0; dim_height := max_dimension p |}
                         else {| dim_width := max_dimension p; dim_height := 0 |}).
  { unfold scaled_geometry. destruct Hdeg as [[Hw Hh]|[Hh Hw]].
    - rewrite Hw. replace (0 <? height (v_geometry view)) with true
        by (symmetry; apply Z.ltb_lt; lia).
      rewrite scale_side_zero by lia. eexists. split; reflexivity.
    - rewrite Hh. replace (width (v_geometry view) <? 0) with false
        by (symmetry; apply Z.ltb_ge; lia).
      rewrite scale_side_zero by lia. eexists. split; [reflexivity|].
      replace (width (v_geometry view) =? 0) with false
        by (symmetry; apply Z.eqb_neq; lia).
      reflexivity. }
  destruct Hvg as (vg & Hvg & Hmode).
  destruct (request_stream_current_size p h id view vo vg ans Hwf Hprev Hvg Hne)
    as (w' & t & E & Hcs).
  exists w', t. split; [exact E|]. rewrite Hcs. exact Hmode.
Qed.

Lemma C9_witness :
  wf (example_initial 2) /\
  exists w' t,
    request_stream 3%N (example_answers true)
      (fst (example_initial 2), snd (example_initial 2)) = Some (json_ok, w', t).
Proof.
  split; [apply wf_example_initial|].
  destruct (C9_degenerate_geometry_is_not_rejected (fst (example_initial 2))
              (snd (example_initial 2)) 3%N (toplevel_of 0 600) 0%nat (example_answers true))
    as (w' & t & E & _).
  - apply (bool_decide_unpack _). vm_compute. exact I.
  - apply (bool_decide_unpack _). vm_compute. exact I.
  - vm_compute. discriminate.
  - vm_compute. split; [reflexivity|discriminate].
  - left. vm_compute. repeat split; discriminate.
  - exists w', t. exact E.
Defined.

(** * Further properties of the plugin *)

(** ** A successful request, in closed form *)

Lemma request_attach_cases (p : plugin_t) (h : host_t) (id : view_id) (o : output_id)
    (j : json_t) (w' : world) (t : list call) :
  wo p = Some o -> is_Some (find_output o (outputs h)) ->
  request_attach id (p, h) = Some (j, w', t) ->
  exists vo, shown_on h id = Some vo /\ j = json_ok /\
    w' = (attached_plugin id vo o p, attached_host o p h) /\
    t = attach_trace id vo o p.
Proof.
  intros Hwo Halive.
  unfold request_attach, attached_plugin, attached_host, attach_trace.
  cbn. rewrite hooks_set_at_run. destruct p, h. cbn in *. subst wo0.
  destruct (hooks_set0 !! Some o) as [[]|] eqn:E; cbn;
    rewrite ?render_add_post_run by exact Halive; cbn;
    rewrite ?render_add_effect_run by exact Halive; cbn;
    rewrite destroy_render_instance_manager_run; cbn;
    rewrite create_render_instance_manager_total by reflexivity;
    unfold shown_on; cbn;
    (destruct (views0 !! id) as [view|]; cbn; [|discriminate]);
    (destruct (v_output view) as [vo|]; cbn; [|discriminate]);
    (destruct (find_output vo outputs0); cbn; [|discriminate]);
    intros [= <- <- <-]; exists vo;
    rewrite ?insert_insert_eq, ?(insert_id _ _ _ E);
    destruct instance_manager0; repeat split; reflexivity.
Qed.

Lemma request_create_cases (p : plugin_t) (h : host_t) (id : view_id)
    (vg : geometry_t) (ans : host_answers) (j : json_t) (w' : world) (t : list call) :
  (forall r, r ∈ outputs h -> (o_id r < next_handle h)%nat) ->
  request_create id vg ans (p, h) = Some (j, w', t) ->
  exists vo,
    shown_on (set_outputs (outputs h ++ [created_output (next_handle h) vg]) h) id = Some vo /\
    j = json_ok /\
    w' = (created_plugin id vo (next_handle h) p, created_host (next_handle h) vg p h) /\
    t = create_trace id vo (next_handle h) vg ans p.
Proof.
  intros Hfresh. pose proof (find_output_fresh _ _ Hfresh) as Hnone.
  pose proof (proj1 (find_output_None _ _) Hnone) as Hnotin.
  unfold request_create, created_plugin, created_host, create_trace,
    attached_plugin, attached_host, headless_add_output.
  destruct p, h. cbn in *.
  set (n := next_handle0) in *.
  assert (Hupd : update_output n (with_name live_preview_name)
                   (outputs0 ++ [{| o_id := n; o_name := "HEADLESS";
                                    o_mode := {| dim_width := width vg; dim_height := height vg |};
                                    o_scale := F32.of_int 1 |}]) =
                 outputs0 ++ [created_output n vg]).
  { rewrite update_output_app, update_output_notin by exact Hnotin.
    unfold update_output. cbn. rewrite Nat.eqb_refl. reflexivity. }
  assert (Hfind : find_output n (outputs0 ++ [created_output n vg]) = Some (created_output n vg)).
  { rewrite find_output_app, Hnone. cbn. rewrite Nat.eqb_refl. reflexivity. }
  destruct headless_backend0, (format_ok ans); cbn; rewrite Hupd, Hfind; cbn;
    rewrite hooks_set_at_run; cbn;
    destruct (hooks_set0 !! Some n) as [[]|] eqn:E; cbn;
    rewrite ?render_add_post_run by (cbn; rewrite Hfind; eauto); cbn;
    rewrite ?render_add_effect_run by (cbn; rewrite Hfind; eauto); cbn;
    unfold deref_output; cbn; rewrite Hfind; cbn;
    rewrite destroy_render_instance_manager_run; cbn;
    rewrite create_render_instance_manager_total by reflexivity;
    unfold shown_on; cbn;
    (destruct (views0 !! id) as [view|]; cbn; [|discriminate]);
    (destruct (v_output view) as [vo|]; cbn; [|discriminate]);
    (destruct (find_output vo (outputs0 ++ [created_output n vg])); cbn; [|discriminate]);
    intros [= <- <- <-]; exists vo;
    rewrite ?insert_insert_eq, ?(insert_id _ _ _ E);
    destruct instance_manager0; repeat split; reflexivity.
Qed.

(** A request that answers [json_ok] has taken one of the four ways. *)
Lemma request_stream_cases (id : view_id) (ans : host_answers) (p : plugin_t) (h : host_t)
    (w' : world) (t : list call) :
  wf (p, h) -> request_stream id ans (p, h) = Some (json_ok, w', t) ->
  exists view vg vo,
    views h !! id = Some view /\ v_toplevel view = true /\
    scaled_geometry (max_dimension p) (v_geometry view) = Some vg /\
    (w', t) = request_result id ans vg vo p h.
Proof.
  intros Hwf. unfold request_stream. intros H.
  apply bind_inv in H as (h0 & w1 & t1 & t2 & [= <- <- <-] & H & ->). cbn in H.
  destruct (views h !! id) as [view|] eqn:Hv; [|discriminate].
  destruct (negb (v_toplevel view)) eqn:Ht; [discriminate|].
  apply negb_false_iff in Ht.
  apply bind_inv in H as (p0 & w2 & t3 & t4 & [= <- <- <-] & H & ->). cbn in H.
  destruct (scaled_geometry (max_dimension p) (v_geometry view)) as [vg|] eqn:Hvg;
    [|discriminate].
  apply bind_inv in H as ([] & w3 & t5 & t6 & [= <- <-] & H & ->).
  apply bind_inv in H as ([] & w4 & t7 & t8 & Hres & H & ->).
  apply bind_inv in H as (p4 & w5 & t9 & t10 & [= <- <- <-] & H & ->).
  exists view, vg. cbn [fst snd] in Hres. fold (sized vg p) in *.
  pose proof (wf_set_drop_frame (frame_skip p) _ _ Hwf) as Hwf0.
  pose proof (wf_request_resize _ _ _ _ _ Hwf0 Hres) as Hwf4.
  unfold request_result.
  destruct (wo p) as [o|] eqn:Hwo.
  - pose proof (wf_wo_alive _ _ _ Hwf Hwo) as Halive.
    pose proof (wf_name _ _ Hwf) as Hname. rewrite Hwo in Hname.
    assert (Hwo0 : wo (set_drop_frame (frame_skip p) p) = Some o) by (destruct p; exact Hwo).
    destruct (same_size vg (current_size p)) eqn:Hs; [|destruct (mode_ok ans) eqn:Hok].
    + rewrite request_resize_same in Hres by (destruct p; exact Hs).
      injection Hres as <- <-. cbn in H.
      assert (Hwo' : wo (sized vg p) = Some o) by (destruct p; exact Hwo).
      fold (sized vg p) in H. rewrite Hwo' in H.
      apply (request_attach_cases _ _ _ o) in H as (vo & _ & _ & -> & ->);
        [|exact Hwo'|exact Halive].
      exists vo. repeat split; auto. destruct p; reflexivity.
    + rewrite (request_resize_commit _ _ _ _ o) in Hres
        by (try assumption; destruct p; assumption).
      injection Hres as <- <-. cbn in H.
      assert (Hwo' : wo (sized vg p) = Some o) by (destruct p; exact Hwo).
      fold (sized vg p) in H. rewrite Hwo' in H.
      apply (request_attach_cases _ _ _ o) in H as (vo & _ & _ & -> & ->);
        [|exact Hwo'|].
      * exists vo. repeat split; auto. destruct p; reflexivity.
      * destruct h, Halive as [r Hr]. cbn in *.
        rewrite find_output_update by reflexivity. rewrite Hr. eauto.
    + rewrite (request_resize_destroy _ _ _ _ o) in Hres
        by (try assumption; destruct p; assumption).
      injection Hres as <- <-. cbn in H. fold (sized vg p) in H.
      assert (Hwo' : wo (destroyed_plugin o (sized vg p)) = None).
      { destruct p. cbn in *. rewrite Hwo, bool_decide_eq_true_2 by reflexivity. reflexivity. }
      rewrite Hwo' in H.
      apply request_create_cases in H as (vo & _ & _ & -> & ->).
      * exists vo. repeat split; auto. destruct h; reflexivity.
      * exact (wf_fresh _ _ Hwf4).
  - rewrite request_resize_no_output in Hres by (destruct p; exact Hwo).
    injection Hres as <- <-. cbn in H. fold (sized vg p) in H.
    assert (Hwo' : wo (sized vg p) = None) by (destruct p; exact Hwo).
    rewrite Hwo' in H.
    apply request_create_cases in H as (vo & _ & _ & -> & ->);
      [|exact (wf_fresh _ _ Hwf)].
    exists vo. repeat split; auto.
Qed.

(** ** Steps that leave a part of the state alone *)

Section Preserves.
Context {B : Type} (P : call -> bool) (f : world -> B).

Lemma preserves_ret {A} (a : A) : preserves P f (ret a).
Proof. intros w a' w' t [= _ <- <-]. auto. Qed.

Lemma preserves_undefined {A} : preserves P f (@undefined A).
Proof. intros w a w' t [=]. Qed.

Lemma preserves_bind {A C} (m : M A) (k : A -> M C) :
  preserves P f m -> (forall a, preserves P f (k a)) -> preserves P f (bind m k).
Proof.
  intros Hm Hk w b w' t H. apply bind_inv in H as (a & w1 & t1 & t2 & H1 & H2 & ->).
  destruct (Hm _ _ _ _ H1) as [F1 E1]. destruct (Hk a _ _ _ _ H2) as [F2 E2].
  split; [apply Forall_app; auto|congruence].
Qed.

Lemma preserves_emit (c : call) : P c = true -> preserves P f (emit c).
Proof. intros Hc w a w' t [= _ <- <-]. split; [repeat constructor; exact Hc|reflexivity]. Qed.

Lemma preserves_get_plugin : preserves P f get_plugin.
Proof. intros w a w' t [= _ <- <-]. auto. Qed.

Lemma preserves_get_host : preserves P f get_host.
Proof. intros w a w' t [= _ <- <-]. auto. Qed.

Lemma preserves_modify_plugin (g : plugin_t -> plugin_t) :
  (forall w, f (g (fst w), snd w) = f w) -> preserves P f (modify_plugin g).
Proof. intros Hg w a w' t [= _ <- <-]. split; [constructor|apply Hg]. Qed.

Lemma preserves_modify_host (g : host_t -> host_t) :
  (forall w, f (fst w, g (snd w)) = f w) -> preserves P f (modify_host g).
Proof. intros Hg w a w' t [= _ <- <-]. split; [constructor|apply Hg]. Qed.

Lemma preserves_when (b : bool) (m : M unit) : preserves P f m -> preserves P f (when b m).
Proof. destruct b; [auto|intros _; apply preserves_ret]. Qed.

End Preserves.

Ltac preserves_step :=
  first
    [ apply preserves_ret | apply preserves_undefined
    | apply preserves_emit; reflexivity
    | apply preserves_get_plugin | apply preserves_get_host
    | apply preserves_modify_plugin; intros [[] []]; reflexivity
    | apply preserves_modify_host; intros [[] []]; reflexivity
    | apply preserves_when
    | apply preserves_bind; [|intros ?]
    | match goal with
      | |- preserves _ _ (match ?x with _ => _ end) => destruct x
      | |- preserves _ _ (let _ := _ in _) => cbv zeta
      end ].

Ltac preserves_all := repeat preserves_step.

Lemma count_calls_app (P : call -> bool) (t1 t2 : list call) :
  count_calls P (t1 ++ t2) = (count_calls P t1 + count_calls P t2)%nat.
Proof.
  induction t1 as [|c t1 IH]; [reflexivity|]. cbn. destruct (P c); rewrite IH; reflexivity.
Qed.

Lemma count_calls_none (P : call -> bool) (t : list call) :
  Forall (fun c => negb (P c) = true) t -> count_calls P t = O.
Proof.
  induction 1 as [|c t Hc _ IH]; [reflexivity|]. cbn.
  apply negb_true_iff in Hc. rewrite Hc. exact IH.
Qed.

(** ** The headless backend *)

Section Backend.

Lemma backend_destroy_output (ans : host_answers) :
  preserves not_backend_create has_backend (destroy_output ans).
Proof.
  unfold destroy_output, view_unmapped_disconnect_all, on_output_pre_remove_disconnect_all,
    destroy_render_instance_manager, hooks_set_at, hooks_set_assign,
    render_rem_post, render_rem_effect, deref, deref_output.
  preserves_all.
Qed.

Lemma backend_request_resize (vg : geometry_t) (ans : host_answers) :
  preserves not_backend_create has_backend (request_resize vg ans).
Proof.
  pose proof (backend_destroy_output ans). unfold request_resize, deref_output.
  preserves_all; assumption.
Qed.

Lemma backend_request_attach (id : view_id) :
  preserves not_backend_create has_backend (request_attach id).
Proof.
  unfold request_attach, destroy_render_instance_manager, create_render_instance_manager,
    hooks_set_at, hooks_set_assign, render_add_post, render_add_effect,
    deref_view, deref, deref_output.
  preserves_all.
Qed.

Lemma backend_release_output : preserves not_backend_create has_backend release_output.
Proof.
  unfold release_output, view_unmapped_disconnect_all,
    destroy_render_instance_manager, hooks_set_at, hooks_set_assign,
    render_rem_post, render_rem_effect, deref, deref_output.
  preserves_all.
Qed.

Lemma backend_view_unmapped (v : view_id) :
  preserves not_backend_create has_backend (view_unmapped v).
Proof.
  unfold view_unmapped, view_unmapped_disconnect_all,
    destroy_render_instance_manager, hooks_set_at, hooks_set_assign,
    render_rem_post, render_rem_effect, deref, deref_output.
  preserves_all.
Qed.

Lemma backend_render_frame (o : output_id) :
  preserves not_backend_create has_backend (render_frame o).
Proof.
  unfold render_frame, damage_hook, post_hook, capture, deref_view, deref, deref_output.
  preserves_all.
Qed.

(** The branch that creates the output starts the backend when there is
    none, and only then. *)
Lemma backend_request_create (id : view_id) (vg : geometry_t) (ans : host_answers)
    (w w' : world) (j : json_t) (t : list call) :
  request_create id vg ans w = Some (j, w', t) ->
  count_calls is_backend_create t = (if has_backend w then 0 else 1)%nat /\ has_backend w' = true.
Proof.
  unfold request_create. intros H.
  apply bind_inv in H as (p & w1 & t1 & t2 & [= <- <- <-] & H & ->).
  apply bind_inv in H as ([] & w2 & t3 & t4 & H1 & H2 & ->).
  match type of H2 with
  | ?m _ = _ => assert (Hq : preserves not_backend_create has_backend m)
  end.
  { unfold headless_add_output, destroy_render_instance_manager,
      create_render_instance_manager, hooks_set_at, hooks_set_assign,
      render_add_post, render_add_effect, deref_view, deref, deref_output.
    preserves_all. }
  destruct (Hq _ _ _ _ H2) as [Hn Hf].
  apply count_calls_none in Hn. cbn [app]. rewrite count_calls_app, Hn, Hf.
  unfold has_backend in *. destruct w as [[] hh]. cbn in *.
  destruct headless_backend0; cbn in H1; injection H1 as <- <-; split; reflexivity.
Qed.

Lemma backend_request_stream (id : view_id) (ans : host_answers)
    (w w' : world) (j : json_t) (t : list call) :
  request_stream id ans w = Some (j, w', t) ->
  (count_calls is_backend_create t + Nat.b2n (has_backend w) = Nat.b2n (has_backend w'))%nat.
Proof.
  unfold request_stream. intros H.
  apply bind_inv in H as (h & w1 & t1 & t2 & [= <- <- <-] & H & ->).
  destruct (views w.2 !! id) as [view|]; [|injection H as _ <- <-; reflexivity].
  destruct (negb (v_toplevel view)); [injection H as _ <- <-; reflexivity|].
  apply bind_inv in H as (p & w2 & t3 & t4 & [= <- <- <-] & H & ->).
  destruct (scaled_geometry (max_dimension w.1) (v_geometry view)) as [vg|]; [|discriminate].
  apply bind_inv in H as ([] & w3 & t5 & t6 & H0 & H & ->).
  apply bind_inv in H as ([] & w4 & t7 & t8 & Hres & H & ->).
  apply bind_inv in H as (p4 & w5 & t9 & t10 & [= <- <- <-] & H & ->).
  assert (E0 : has_backend w3 = has_backend w /\ t5 = []).
  { destruct w as [[] hh]. injection H0 as <- <-. auto. }
  destruct E0 as [E0 ->].
  destruct (backend_request_resize _ _ _ _ _ _ Hres) as [Hn Ef].
  apply count_calls_none in Hn. cbn [app]. rewrite count_calls_app, Hn. cbn.
  destruct (wo w4.1).
  - destruct (backend_request_attach _ _ _ _ _ H) as [Hn' Ef'].
    apply count_calls_none in Hn'. rewrite Hn'. cbn. congruence.
  - apply backend_request_create in H as [-> ->]. rewrite Ef, E0.
    destruct (has_backend w); reflexivity.
Qed.

Lemma backend_run_event (e : event) (w w' : world) (t : list call) :
  run_event e w = Some (tt, w', t) ->
  (count_calls is_backend_create t + Nat.b2n (has_backend w) = Nat.b2n (has_backend w'))%nat.
Proof.
  assert (Hq : forall (m : M unit) w w' t,
            preserves not_backend_create has_backend m -> m w = Some (tt, w', t) ->
            (count_calls is_backend_create t + Nat.b2n (has_backend w) = Nat.b2n (has_backend w'))%nat).
  { intros m w0 w0' t0 Hm H. destruct (Hm _ _ _ _ H) as [Hn ->].
    apply count_calls_none in Hn. rewrite Hn. reflexivity. }
  destruct e as [id ans| |v|o|id view]; cbn [run_event]; intros H.
  - apply bind_inv in H as (j & w1 & t1 & t2 & H & [= <- <-] & ->).
    rewrite app_nil_r. exact (backend_request_stream _ _ _ _ _ _ H).
  - apply bind_inv in H as (j & w1 & t1 & t2 & H & [= <- <-] & ->).
    rewrite app_nil_r. destruct (backend_release_output _ _ _ _ H) as [Hn ->].
    apply count_calls_none in Hn. rewrite Hn. reflexivity.
  - revert H. apply Hq.
    apply preserves_bind; [apply preserves_get_plugin|intros ?].
    apply preserves_when, backend_view_unmapped.
  - revert H. apply Hq, backend_render_frame.
  - revert H. apply Hq. preserves_all.
Qed.

Lemma backend_run_events (es : list event) (w w' : world) (t : list call) :
  run_events es w = Some (tt, w', t) ->
  (count_calls is_backend_create t + Nat.b2n (has_backend w) = Nat.b2n (has_backend w'))%nat.
Proof.
  revert w t. induction es as [|e es IH]; intros w t H.
  - injection H as <- <-. reflexivity.
  - cbn [run_events] in H.
    apply bind_inv in H as ([] & w1 & t1 & t2 & He & H & ->).
    apply backend_run_event in He. apply IH in H. rewrite count_calls_app. lia.
Qed.

End Backend.

(** ** Events, case by case *)

Lemma run_event_cases (e : event) (p : plugin_t) (h : host_t) (w' : world) (t : list call) :
  wf (p, h) -> run_event e (p, h) = Some (tt, w', t) ->
  w' = (p, h) \/
  (exists id ans vg vo, (w', t) = request_result id ans vg vo p h) \/
  w' = (released_plugin p, released_host p h) \/
  w' = (set_current_preview None (released_plugin p), released_host p h) \/
  (exists d, w' = (set_drop_frame d p, h)) \/
  (exists vs, w' = (p, set_views vs h)).
Proof.
  intros Hwf. destruct e as [id ans| |v|o|id view]; cbn [run_event]; intros H.
  - apply bind_inv in H as (j & w1 & t1 & t2 & H & [= <- <-] & ->).
    rewrite app_nil_r. destruct j as [|msg].
    + apply (request_stream_cases _ _ _ _ _ _ Hwf) in H as (view & vg & vo & _ & _ & _ & E).
      right. left. eauto.
    + apply request_stream_error_state in H. auto.
  - apply bind_inv in H as (j & w1 & t1 & t2 & H & [= <- <-] & ->).
    destruct (release_output_run _ _ Hwf) as [t' E]. rewrite E in H.
    injection H as _ <- _. auto.
  - apply bind_inv in H as (p0 & w1 & t1 & t2 & [= <- <- <-] & H & ->).
    change ((p, h).1) with p in H.
    destruct (bool_decide (v ∈ view_unmapped_conn p)); unfold when in H;
      [|cbn in H; injection H as <- _; auto].
    destruct (decide (current_preview p = Some v)) as [Hcp|Hcp].
    + destruct (view_unmapped_run _ _ _ Hwf Hcp) as [t' E]. rewrite E in H.
      injection H as <- _. auto.
    + unfold view_unmapped in H. cbn in H.
      rewrite bool_decide_eq_false_2 in H by exact Hcp. injection H as <- _. auto.
  - unfold render_frame in H.
    apply bind_inv in H as (h0 & w1 & t1 & t2 & [= <- <- <-] & H & ->).
    apply bind_inv in H as ([] & w2 & t3 & t4 & Hd & H & ->).
    assert (w2 = (p, h)) as ->.
    { change ((p, h).2) with h in Hd.
      destruct (bool_decide (o ∈ effect_hooks h)); unfold when in Hd.
      - apply damage_hook_state in Hd. exact Hd.
      - injection Hd as <- _. reflexivity. }
    change ((p, h).2) with h in H.
    destruct (bool_decide (o ∈ post_hooks h)); unfold when in H;
      [|injection H as <- _; auto].
    apply post_hook_state in H as ->; [|exact (wf_nodup _ _ Hwf)].
    destruct (current_preview p); [|auto]. do 4 right. left. eauto.
  - injection H as <- _. do 5 right. eauto.
Qed.

(** What holds at the start of a run and is kept by each of its closed
    forms holds at its end. *)
Lemma run_events_invariant (I : world -> Prop) :
  (forall p h, wf (p, h) -> I (p, h) ->
     (forall id ans vg vo, I (fst (request_result id ans vg vo p h))) /\
     I (released_plugin p, released_host p h) /\
     I (set_current_preview None (released_plugin p), released_host p h) /\
     (forall d, I (set_drop_frame d p, h)) /\
     (forall vs, I (p, set_views vs h))) ->
  forall es w w' t, wf w -> I w -> run_events es w = Some (tt, w', t) -> I w'.
Proof.
  intros Hstep es. induction es as [|e es IH]; intros w w' t Hwf HI H.
  - injection H as <- _. exact HI.
  - cbn [run_events] in H.
    apply bind_inv in H as ([] & w1 & t1 & t2 & He & H & _).
    pose proof (wf_run_event _ _ _ _ Hwf He) as Hwf1.
    refine (IH _ _ _ Hwf1 _ H).
    destruct w as [p h]. destruct (Hstep p h Hwf HI) as (Hreq & Hrel & Hunm & Hd & Hv).
    apply (run_event_cases _ _ _ _ _ Hwf) in He
      as [->|[(id & ans & vg & vo & E)|[->|[->|[[d ->]|[vs ->]]]]]]; auto.
    specialize (Hreq id ans vg vo). rewrite <- E in Hreq. exact Hreq.
Qed.

(** ** The session is streaming, or it is not *)

Lemma sized_fields (vg : geometry_t) (p : plugin_t) :
  wo (sized vg p) = wo p /\ hooks_set (sized vg p) = hooks_set p /\
  instance_manager (sized vg p) = instance_manager p /\
  current_preview (sized vg p) = current_preview p /\
  view_unmapped_conn (sized vg p) = view_unmapped_conn p /\
  headless_backend (sized vg p) = headless_backend p /\
  max_dimension (sized vg p) = max_dimension p.
Proof. destruct p. cbn. repeat split. Qed.

Lemma wf_sized (vg : geometry_t) (p : plugin_t) (h : host_t) :
  wf (p, h) -> wf (sized vg p, h).
Proof. destruct p. intros H. exact H. Qed.

Lemma attached_host_sized (o : output_id) (vg : geometry_t) (p : plugin_t) (h : host_t) :
  attached_host o (sized vg p) h = attached_host o p h.
Proof. destruct p. reflexivity. Qed.

Lemma streaming_sized (vg : geometry_t) (p : plugin_t) (h : host_t) :
  streaming_inv (p, h) -> streaming_inv (sized vg p, h).
Proof. destruct p. intros H. exact H. Qed.

Lemma streaming_set_outputs (os : list output_t) (p : plugin_t) (h : host_t) :
  streaming_inv (p, h) -> streaming_inv (p, set_outputs os h).
Proof. destruct h. intros H. exact H. Qed.

Section StreamingClosedForms.
Variables (p : plugin_t) (h : host_t).
Hypothesis Hwf : wf (p, h).
Hypothesis Hst : streaming_inv (p, h).

Lemma streaming_attached (id : view_id) (vo o : output_id) :
  wo p = Some o -> streaming_inv (attached_plugin id vo o p, attached_host o p h).
Proof.
  intros Hwo. destruct Hst as (S1 & S2 & S3 & S4 & S5).
  unfold streaming_inv, attached_host, armed in *. destruct p, h. cbn in *. subst wo0.
  rewrite lookup_insert_eq. cbn.
  split; [|split; [|split; [|split; [split; eauto|]]]].
  - intros k Hk. destruct (decide (k = Some o)) as [->|Hne]; [reflexivity|].
    rewrite lookup_insert_ne in Hk by congruence. auto.
  - destruct (default false (hooks_set0 !! Some o)); cbn; [exact S2|rewrite S2; reflexivity].
  - destruct (default false (hooks_set0 !! Some o)); cbn; [exact S3|rewrite S3; reflexivity].
  - intros v vo' [= <- <-]. split; [reflexivity|left].
Qed.

Lemma streaming_released :
  streaming_inv (released_plugin p, released_host p h) /\
  streaming_inv (set_current_preview None (released_plugin p), released_host p h).
Proof.
  destruct Hwf as (_ & _ & _ & _ & _ & Hinv).
  destruct (released_host_hooks p h Hinv) as [Ep Ee].
  destruct Hst as (S1 & S2 & S3 & S4 & S5).
  assert (Ha : forall q, wo q = wo p -> hooks_set q = <[wo p := false]> (hooks_set p) ->
            armed q = false).
  { intros q Ewo Ehs. unfold armed. rewrite Ewo, Ehs.
    destruct (wo p); [rewrite lookup_insert_eq|]; reflexivity. }
  assert (H1 : forall k, <[wo p := false]> (hooks_set p) !! k = Some true -> k = wo p).
  { intros k Hk. destruct (decide (k = wo p)) as [->|Hne]; [reflexivity|].
    rewrite lookup_insert_ne in Hk by congruence. cbn in S1. auto. }
  split; unfold streaming_inv; cbn [fst snd]; rewrite Ep, Ee.
  - rewrite (Ha (released_plugin p)) by (destruct p; reflexivity).
    destruct p; cbn in *. repeat split; auto; try discriminate.
    intros [? [=]].
  - rewrite (Ha (set_current_preview None (released_plugin p))) by (destruct p; reflexivity).
    destruct p; cbn in *. repeat split; auto; try discriminate.
    intros [? [=]].
Qed.

Lemma streaming_destroyed (ans : host_answers) (o : output_id) :
  wo p = Some o -> streaming_inv (destroyed_plugin o p, destroyed_host ans o h).
Proof.
  intros Hwo. destruct Hwf as (_ & _ & _ & _ & _ & Hinv).
  destruct (hooks_inv_output _ _ _ Hinv Hwo) as [Hp He].
  pose proof (remove_hook_all o _ Hp) as Ep. pose proof (remove_hook_all o _ He) as Ee.
  destruct Hst as (S1 & S2 & S3 & S4 & S5).
  unfold streaming_inv, armed in *. destruct p, h. cbn in *. subst wo0.
  rewrite bool_decide_eq_true_2 by reflexivity. cbn. rewrite Ep, Ee.
  repeat split; auto; try discriminate.
  - intros k Hk. destruct (decide (k = Some o)) as [->|Hne].
    + rewrite lookup_insert_eq in Hk. discriminate.
    + rewrite lookup_insert_ne in Hk by congruence. apply S1 in Hk. congruence.
  - intros [? [=]].
Qed.

Lemma streaming_created (id : view_id) (vo : output_id) (vg : geometry_t) :
  wo p = None ->
  streaming_inv (created_plugin id vo (next_handle h) p, created_host (next_handle h) vg p h).
Proof.
  intros Hwo. destruct Hwf as (Hnone & _ & _ & _ & _ & Hinv).
  destruct (hooks_inv_no_output _ _ Hinv Hwo) as [Ep Ee].
  destruct Hst as (S1 & S2 & S3 & S4 & S5).
  assert (Hn : default false (hooks_set p !! Some (next_handle h)) = false).
  { destruct (hooks_set p !! Some (next_handle h)) as [[]|] eqn:E; [|reflexivity..].
    cbn in S1. apply S1 in E. congruence. }
  unfold streaming_inv, created_host, created_plugin, attached_host, attached_plugin, armed in *.
  rewrite Hn. destruct p, h. cbn in *. subst.
  rewrite lookup_insert_eq. cbn.
  split; [|split; [|split; [|split; [split; eauto|]]]]; try reflexivity.
  - intros k Hk. destruct (decide (k = Some next_handle0)) as [->|Hne]; [reflexivity|].
    rewrite lookup_insert_ne in Hk by congruence.
    pose proof (S1 _ Hk) as Ek. subst k. contradiction.
  - intros v vo' [= <- <-]. split; [reflexivity|left].
Qed.

End StreamingClosedForms.

Lemma streaming_request_result (id : view_id) (ans : host_answers) (vg : geometry_t)
    (vo : output_id) (p : plugin_t) (h : host_t) :
  wf (p, h) -> streaming_inv (p, h) ->
  streaming_inv (fst (request_result id ans vg vo p h)).
Proof.
  intros Hwf Hst. destruct (sized_fields vg p) as (Ewo & _).
  pose proof (wf_sized vg _ _ Hwf) as Hwf'. pose proof (streaming_sized vg _ _ Hst) as Hst'.
  unfold request_result. destruct (wo p) as [o|] eqn:Hwo.
  - destruct (same_size vg (current_size p)); [|destruct (mode_ok ans)]; cbn [fst].
    + rewrite <- (attached_host_sized o vg).
      apply streaming_attached; [assumption..|congruence].
    + rewrite <- (attached_host_sized o vg).
      apply streaming_attached;
        [apply wf_update_output; [assumption|reflexivity|reflexivity]
        |apply streaming_set_outputs; assumption|congruence].
    + assert (Hwo' : wo (sized vg p) = Some o) by congruence.
      replace (next_handle h) with (next_handle (destroyed_host ans o h))
        by (destruct h; reflexivity).
      apply streaming_created.
      * apply wf_destroyed; assumption.
      * apply streaming_destroyed; assumption.
      * destruct p. cbn in *. rewrite Hwo, bool_decide_eq_true_2 by reflexivity. reflexivity.
  - cbn [fst]. apply streaming_created; [assumption..|congruence].
Qed.

Lemma streaming_run_events (es : list event) (w w' : world) (t : list call) :
  wf w -> streaming_inv w -> run_events es w = Some (tt, w', t) -> streaming_inv w'.
Proof.
  apply (run_events_invariant streaming_inv). intros p h Hwf Hst.
  destruct (streaming_released p h Hwf Hst) as [Hrel Hunm].
  split; [intros; apply streaming_request_result; assumption|].
  split; [exact Hrel|]. split; [exact Hunm|].
  split; [intros d; destruct p; exact Hst|intros vs; destruct h; exact Hst].
Qed.

(** ** The outputs the plugin did not create *)

Lemma update_output_elem_ne (o : output_id) (f : output_t -> output_t)
    (os : list output_t) (r : output_t) :
  r ∈ os -> o_id r <> o -> r ∈ update_output o f os.
Proof.
  intros Hr Hne. unfold update_output. apply list_elem_of_fmap. exists r.
  split; [|exact Hr]. destruct (Nat.eqb_spec (o_id r) o); [contradiction|reflexivity].
Qed.

Lemma created_fields (id : view_id) (vo n : output_id) (vg : geometry_t)
    (p : plugin_t) (h : host_t) :
  wo (created_plugin id vo n p) = Some n /\
  headless_backend (created_plugin id vo n p) = true /\
  outputs (created_host n vg p h) = outputs h ++ [created_output n vg] /\
  next_handle (created_host n vg p h) = S n /\
  views (created_host n vg p h) = views h /\
  active_output (created_host n vg p h) = active_output h.
Proof.
  unfold created_host, created_plugin, attached_host, attached_plugin.
  destruct (default false (hooks_set p !! Some n)), p, h; cbn; repeat split.
Qed.

Lemma attached_fields (id : view_id) (vo o : output_id) (p : plugin_t) :
  wo (attached_plugin id vo o p) = wo p /\
  headless_backend (attached_plugin id vo o p) = headless_backend p /\
  current_size (attached_plugin id vo o p) = current_size p /\
  current_preview (attached_plugin id vo o p) = Some id /\
  instance_manager (attached_plugin id vo o p) = Some (id, vo).
Proof. destruct p. cbn. repeat split. Qed.

Lemma destroyed_fields (ans : host_answers) (o : output_id) (p : plugin_t) (h : host_t) :
  wo p = Some o ->
  wo (destroyed_plugin o p) = None /\
  current_preview (destroyed_plugin o p) = None /\
  instance_manager (destroyed_plugin o p) = None /\
  view_unmapped_conn (destroyed_plugin o p) = [] /\
  on_output_pre_remove_conn (destroyed_plugin o p) = [] /\
  headless_backend (destroyed_plugin o p) = headless_backend p /\
  current_size (destroyed_plugin o p) = current_size p /\
  outputs (destroyed_host ans o h) = remove_output o (outputs h) /\
  next_handle (destroyed_host ans o h) = next_handle h /\
  views (destroyed_host ans o h) = views h.
Proof.
  intros Hwo. destruct p, h. cbn in *. subst.
  rewrite bool_decide_eq_true_2 by reflexivity. repeat split.
Qed.

Section KeepsOutputs.
Variables (outs0 : list output_t) (n0 : output_id).
Hypothesis Hold : forall r, r ∈ outs0 -> (o_id r < n0)%nat.

Lemma keeps_outputs_request_result (id : view_id) (ans : host_answers) (vg : geometry_t)
    (vo : output_id) (p : plugin_t) (h : host_t) :
  keeps_outputs outs0 n0 (p, h) ->
  keeps_outputs outs0 n0 (fst (request_result id ans vg vo p h)).
Proof.
  intros (Hn & Hwo0 & Hin). cbn [fst snd] in *.
  destruct (sized_fields vg p) as (Ewo & _).
  unfold request_result, keeps_outputs. destruct (wo p) as [o|] eqn:Hwo.
  - specialize (Hwo0 o eq_refl).
    destruct (same_size vg (current_size p)); [|destruct (mode_ok ans)]; cbn [fst snd].
    + destruct (attached_fields id vo o (sized vg p)) as (E1 & _).
      destruct (attached_host_outputs o p h) as [E2 E3].
      rewrite E1, E2, E3, Ewo. repeat split; auto. intros o' [= <-]. exact Hwo0.
    + destruct (attached_fields id vo o (sized vg p)) as (E1 & _).
      destruct (attached_host_outputs o p
                  (set_outputs (update_output o (with_mode (mode_of vg)) (outputs h)) h))
        as [E2 E3].
      rewrite E1, E2, E3, Ewo. destruct h. cbn in *. repeat split; auto.
      * intros o' [= <-]. exact Hwo0.
      * intros r Hr. apply update_output_elem_ne; [auto|].
        specialize (Hold r Hr). lia.
    + destruct (created_fields id vo (next_handle h) vg (destroyed_plugin o (sized vg p))
                  (destroyed_host ans o h)) as (E1 & _ & E2 & E3 & _).
      destruct (destroyed_fields ans o (sized vg p) h ltac:(congruence))
        as (_ & _ & _ & _ & _ & _ & _ & E4 & _).
      rewrite E1, E2, E3, E4. repeat split; [lia| |].
      * intros o' [= <-]. exact Hn.
      * intros r Hr. apply elem_of_app. left. apply remove_output_elem.
        split; [specialize (Hold r Hr); lia|auto].
  - cbn [fst snd].
    destruct (created_fields id vo (next_handle h) vg (sized vg p) h) as (E1 & _ & E2 & E3 & _).
    rewrite E1, E2, E3. repeat split; [lia| |].
    + intros o' [= <-]. exact Hn.
    + intros r Hr. apply elem_of_app. left. auto.
Qed.

Lemma keeps_outputs_run_events (es : list event) (w w' : world) (t : list call) :
  wf w -> keeps_outputs outs0 n0 w -> run_events es w = Some (tt, w', t) ->
  keeps_outputs outs0 n0 w'.
Proof.
  apply (run_events_invariant (keeps_outputs outs0 n0)). intros p h Hwf Hk.
  split; [intros; apply keeps_outputs_request_result; assumption|].
  destruct (released_host_outputs p h) as (Eo & _ & En & _).
  destruct (released_plugin_fields p) as (_ & _ & _ & Ewo & _).
  destruct Hk as (Hn & Hwo0 & Hin). cbn [fst snd] in *.
  unfold keeps_outputs. cbn [fst snd]. rewrite Eo, En.
  split; [rewrite Ewo; auto|]. split; [|split].
  - destruct (released_plugin p); cbn in *. rewrite Ewo. auto.
  - destruct p; auto.
  - destruct h; auto.
Qed.

End KeepsOutputs.

(** ** The two errors of a request *)

Lemma request_stream_toplevel_ok (id : view_id) (ans : host_answers) (w w' : world)
    (view : view_t) (j : json_t) (t : list call) :
  views (snd w) !! id = Some view -> v_toplevel view = true ->
  request_stream id ans w = Some (j, w', t) -> j = json_ok.
Proof.
  intros Hv Ht. unfold request_stream. intros H.
  apply bind_inv in H as (h & w1 & t1 & t2 & [= <- <- <-] & H & _).
  rewrite Hv, Ht in H. cbn [negb] in H.
  apply bind_inv in H as (p & w2 & t3 & t4 & _ & H & _).
  destruct (scaled_geometry (max_dimension p) (v_geometry view)) as [vg|]; [|discriminate].
  revert H.
  assert (Hok : answers_ok
    (modify_plugin (set_drop_frame (frame_skip p));;
     request_resize vg ans;;
     p0 <- get_plugin;;
     match wo p0 with
     | Some _ => request_attach id
     | None => request_create id vg ans
     end)).
  { repeat (apply answers_ok_bind; intros ?).
    destruct (wo _); [apply answers_ok_request_attach|apply answers_ok_request_create]. }
  intros H. apply Hok in H. exact H.
Qed.

(** X1.  A [request_stream] for an id that names no view answers the
    error "no such view", and one for a view that is not a toplevel answers
    "view is not a toplevel"; either way no member of the plugin and
    nothing of the compositor has changed and no call has been made, in
    whatever state the request arrives.  No other error exists. *)
Theorem X1_request_stream_errors (id : view_id) (ans : host_answers) (w : world) :
  (views (snd w) !! id = None ->
   request_stream id ans w = Some (json_error "no such view", w, [])) /\
  (forall view, views (snd w) !! id = Some view -> v_toplevel view = false ->
   request_stream id ans w = Some (json_error "view is not a toplevel", w, [])) /\
  (forall msg w' t, request_stream id ans w = Some (json_error msg, w', t) ->
   w' = w /\ t = [] /\
   (msg = "no such view"%string /\ views (snd w) !! id = None \/
    msg = "view is not a toplevel"%string /\
    exists view, views (snd w) !! id = Some view /\ v_toplevel view = false)).
Proof.
  assert (H1 : views (snd w) !! id = None ->
               request_stream id ans w = Some (json_error "no such view", w, [])).
  { intros Hv. unfold request_stream. cbn. rewrite Hv. destruct w; reflexivity. }
  assert (H2 : forall view, views (snd w) !! id = Some view -> v_toplevel view = false ->
               request_stream id ans w = Some (json_error "view is not a toplevel", w, [])).
  { intros view Hv Ht. unfold request_stream. cbn. rewrite Hv, Ht. destruct w; reflexivity. }
  split; [exact H1|]. split; [exact H2|].
  intros msg w' t H.
  destruct (views w.2 !! id) as [view|] eqn:Hv.
  - destruct (v_toplevel view) eqn:Ht.
    + apply (request_stream_toplevel_ok _ _ _ _ _ _ _ Hv Ht) in H. discriminate.
    + rewrite (H2 view eq_refl Ht) in H. injection H as <- <- <-. eauto 10.
  - rewrite (H1 eq_refl) in H. injection H as <- <- <-. auto.
Qed.

Lemma X1_witness :
  request_stream 9%N (example_answers true) (example_bound 2) =
    Some (json_error "no such view", example_bound 2, []).
Proof.
  apply (X1_request_stream_errors 9%N (example_answers true) (example_bound 2)).
  vm_compute. reflexivity.
Defined.

(** ** Runs from the state the plugin is loaded in *)

Lemma untouched_wf (max_dim skip df : Z) (size : dimensions_t) (h : host_t) :
  untouched h -> wf (init_plugin max_dim skip size df, h).
Proof. intros (Hn & Hnd & Hfresh & Ep & Ee). apply wf_init; assumption. Qed.

Lemma example_run_runs :
  run_events example_run (example_initial 2) =
    Some (tt, example_final, trace_of (run_events example_run) (example_initial 2)).
Proof. vm_compute. reflexivity. Qed.

Lemma untouched_example : untouched example_host.
Proof. apply (bool_decide_unpack _). vm_compute. exact I. Qed.

Lemma find_output_by_name_Some (name : string) (os : list output_t) (o : output_id) :
  find_output_by_name name os = Some o ->
  exists r, r ∈ os /\ o_id r = o /\ o_name r = name.
Proof.
  induction os as [|r os IH]; cbn; [discriminate|].
  destruct (String.eqb_spec (o_name r) name) as [E|E].
  - intros [= <-]. exists r. split; [left|auto].
  - intros H. destruct (IH H) as (r' & Hr' & E1 & E2). exists r'. split; [right|]; auto.
Qed.

Lemma nodup_ids_inj (os : list output_t) (r1 r2 : output_t) :
  NoDup (map o_id os) -> r1 ∈ os -> r2 ∈ os -> o_id r1 = o_id r2 -> r1 = r2.
Proof.
  induction os as [|r os IH]; intros Hnd H1 H2 E; [inversion H1|].
  rewrite fmap_cons in Hnd. apply NoDup_cons in Hnd as [Hnot Hnd].
  apply elem_of_cons in H1 as [->|H1]; apply elem_of_cons in H2 as [->|H2]; auto.
  - exfalso. apply Hnot. rewrite E. apply list_elem_of_fmap. eauto.
  - exfalso. apply Hnot. rewrite <- E. apply list_elem_of_fmap. eauto.
Qed.

(** X2.  From the state the plugin is loaded in, on a layout that has no
    output named [live-preview], after any run of requests, releases,
    unmapped views, frames and view changes: [wo] is set exactly when the
    layout has an output named [live-preview], and then it is that output
    (so [wo] never dangles); the layout never has two such outputs; output
    objects stay distinct. *)
Theorem X2_one_preview_output (max_dim skip df : Z) (size : dimensions_t) (h : host_t)
    (es : list event) (w' : world) (t : list call) :
  untouched h ->
  run_events es (init_plugin max_dim skip size df, h) = Some (tt, w', t) ->
  (forall o, wo (fst w') = Some o <->
     exists r, r ∈ outputs (snd w') /\ o_id r = o /\ o_name r = live_preview_name) /\
  (forall r1 r2, r1 ∈ outputs (snd w') -> r2 ∈ outputs (snd w') ->
     o_name r1 = live_preview_name -> o_name r2 = live_preview_name -> r1 = r2) /\
  NoDup (map o_id (outputs (snd w'))).
Proof.
  intros Hu Hrun.
  pose proof (wf_run_events _ _ _ _ (untouched_wf max_dim skip df size h Hu) Hrun) as Hwf.
  destruct Hwf as (_ & Hname & Huniq & Hnd & _). rewrite Forall_forall in Huniq.
  split; [|split; [|exact Hnd]].
  - intros o. split.
    + intros Hwo. rewrite <- Hname in Hwo. apply find_output_by_name_Some. exact Hwo.
    + intros (r & Hr & <- & En). exact (Huniq r Hr En).
  - intros r1 r2 H1 H2 E1 E2. apply (nodup_ids_inj _ _ _ Hnd H1 H2).
    pose proof (Huniq r1 H1 E1). pose proof (Huniq r2 H2 E2). congruence.
Qed.

Lemma X2_witness :
  untouched example_host /\ NoDup (map o_id (outputs (snd example_final))).
Proof.
  split; [exact untouched_example|].
  exact (proj2 (proj2 (X2_one_preview_output 256 2 0 {| dim_width := 0; dim_height := 0 |}
                         example_host example_run example_final _
                         untouched_example example_run_runs))).
Defined.

(** X3.  Along any such run the two options keep their configured values,
    and whenever a window is bound the throttle counter lies between 0 and
    [frame_skip]: [drop_frame], which has no initialiser, is assigned by
    the request before any frame reads it. *)
Theorem X3_throttle_counter_in_range (max_dim skip df : Z) (size : dimensions_t)
    (h : host_t) (es : list event) (w' : world) (t : list call) :
  untouched h -> 0 <= skip <= F32.INT_MAX ->
  run_events es (init_plugin max_dim skip size df, h) = Some (tt, w', t) ->
  frame_skip (fst w') = skip /\
  (is_Some (current_preview (fst w')) -> 0 <= drop_frame (fst w') <= skip).
Proof.
  intros Hu Hk Hrun.
  assert (H0 : throttle_inv (init_plugin max_dim skip size df, h)) by (intros [? [=]]).
  destruct (throttle_run_events es (init_plugin max_dim skip size df, h) w' t
              (untouched_wf max_dim skip df size h Hu) Hk H0 Hrun) as [Ek Hinv].
  cbn in Ek. split; [exact Ek|]. intros Hb. rewrite <- Ek. exact (Hinv Hb).
Qed.

Lemma X3_witness :
  untouched example_host /\ frame_skip (fst example_final) = 2 /\
  (is_Some (current_preview (fst example_final)) -> 0 <= drop_frame (fst example_final) <= 2).
Proof.
  split; [exact untouched_example|].
  apply (X3_throttle_counter_in_range 256 2 0 {| dim_width := 0; dim_height := 0 |}
           example_host example_run example_final
           (trace_of (run_events example_run) (example_initial 2)) untouched_example).
  - vm_compute. split; discriminate.
  - exact example_run_runs.
Defined.

(** X4.  Along any such run the session is either streaming or not:
    [hooks_set] is true at [wo] at most; when it is, [post_hook] and
    [damage_hook] are registered on [wo], each once, and when it is not
    they are registered nowhere; the render instance manager exists exactly
    when the hooks are registered, and then [current_preview] is the view
    it renders and the plugin listens to that view's unmapping. *)
Theorem X4_streaming_or_not (max_dim skip df : Z) (size : dimensions_t) (h : host_t)
    (es : list event) (w' : world) (t : list call) :
  untouched h ->
  run_events es (init_plugin max_dim skip size df, h) = Some (tt, w', t) ->
  streaming_inv w' /\
  (post_hooks (snd w') = [] /\ effect_hooks (snd w') = [] /\
   instance_manager (fst w') = None \/
   exists o v vo, wo (fst w') = Some o /\ post_hooks (snd w') = [o] /\
     effect_hooks (snd w') = [o] /\ instance_manager (fst w') = Some (v, vo) /\
     current_preview (fst w') = Some v /\ v ∈ view_unmapped_conn (fst w')).
Proof.
  intros Hu Hrun.
  assert (H0 : streaming_inv (init_plugin max_dim skip size df, h)).
  { destruct Hu as (_ & _ & _ & Ep & Ee). unfold streaming_inv, armed. cbn.
    rewrite Ep, Ee.
    split; [intros k Hk; rewrite lookup_empty in Hk; discriminate|].
    split; [reflexivity|]. split; [reflexivity|].
    split; [split; [intros [? [=]]|discriminate]|]. intros v vo [=]. }
  pose proof (streaming_run_events es _ _ _ (untouched_wf max_dim skip df size h Hu) H0 Hrun)
    as Hst.
  split; [exact Hst|]. destruct Hst as (S1 & S2 & S3 & S4 & S5).
  unfold armed in *. destruct (wo w'.1) as [o|] eqn:Hwo.
  - destruct (default false (hooks_set w'.1 !! Some o)) eqn:Ha.
    + right. destruct (proj2 S4 eq_refl) as [[v vo] Him].
      destruct (S5 v vo Him) as [Hcp Hin]. exists o, v, vo. auto 10.
    + left. repeat split; auto.
      destruct (instance_manager w'.1) eqn:Him; [|reflexivity].
      assert (Hs : is_Some (Some p)) by eauto. apply S4 in Hs. discriminate.
  - left. repeat split; auto.
    destruct (instance_manager w'.1) eqn:Him; [|reflexivity].
    assert (Hs : is_Some (Some p)) by eauto. apply S4 in Hs. discriminate.
Qed.

Lemma X4_witness :
  untouched example_host /\ streaming_inv example_final.
Proof.
  split; [exact untouched_example|].
  exact (proj1 (X4_streaming_or_not 256 2 0 {| dim_width := 0; dim_height := 0 |}
                  example_host example_run example_final _
                  untouched_example example_run_runs)).
Defined.

(** X5.  Along any such run every output the layout had when the plugin
    was loaded is still in the layout, with the name, mode and scale it
    had, and is never the plugin's [wo]: the plugin resizes and destroys
    only the output it created. *)
Theorem X5_other_outputs_untouched (max_dim skip df : Z) (size : dimensions_t)
    (h : host_t) (es : list event) (w' : world) (t : list call) :
  untouched h ->
  run_events es (init_plugin max_dim skip size df, h) = Some (tt, w', t) ->
  forall r, r ∈ outputs h -> r ∈ outputs (snd w') /\ wo (fst w') <> Some (o_id r).
Proof.
  intros Hu Hrun r Hr.
  assert (Hold : forall r, r ∈ outputs h -> (o_id r < next_handle h)%nat).
  { destruct Hu as (_ & _ & Hfresh & _). apply Forall_forall. exact Hfresh. }
  assert (H0 : keeps_outputs (outputs h) (next_handle h) (init_plugin max_dim skip size df, h)).
  { unfold keeps_outputs. cbn. repeat split; auto. discriminate. }
  destruct (keeps_outputs_run_events _ _ Hold es _ _ _
              (untouched_wf max_dim skip df size h Hu) H0 Hrun) as (_ & Hwo & Hin).
  split; [auto|]. intros E. specialize (Hwo _ E). specialize (Hold r Hr). lia.
Qed.

Lemma X5_witness :
  untouched example_host /\
  forall r, r ∈ outputs example_host ->
    r ∈ outputs (snd example_final) /\ wo (fst example_final) <> Some (o_id r).
Proof.
  split; [exact untouched_example|].
  exact (X5_other_outputs_untouched 256 2 0 {| dim_width := 0; dim_height := 0 |}
           example_host example_run example_final _ untouched_example example_run_runs).
Defined.

(** X6.  In any run, from any state, [wlr_headless_backend_create] is
    called at most once, and not at all when the plugin already holds a
    backend: destroying the output does not forget the backend, and the
    outputs created later are added to the same one. *)
Theorem X6_backend_created_once (es : list event) (w w' : world) (t : list call) :
  run_events es w = Some (tt, w', t) ->
  (count_calls is_backend_create t <= 1)%nat /\
  (has_backend w = true -> count_calls is_backend_create t = 0%nat) /\
  (has_backend w = true \/ count_calls is_backend_create t = 1%nat ->
   has_backend w' = true).
Proof.
  intros H. apply backend_run_events in H.
  destruct (has_backend w), (has_backend w'); cbn in H; repeat split; try lia;
    try (intros [?|?]; try discriminate; lia); intros; try reflexivity; lia.
Qed.

Lemma X6_witness :
  count_calls is_backend_create (trace_of (run_events example_run) (example_initial 2)) = 1%nat /\
  count_calls creates_output (trace_of (run_events example_run) (example_initial 2)) = 2%nat /\
  has_backend example_final = true.
Proof.
  split; [vm_compute; reflexivity|]. split; [vm_compute; reflexivity|].
  apply (X6_backend_created_once example_run (example_initial 2) example_final
           (trace_of (run_events example_run) (example_initial 2)) example_run_runs).
  right. vm_compute. reflexivity.
Defined.

Lemma streaming_destroyed_hooks (p : plugin_t) (h : host_t) :
  wf (p, h) -> forall (ans : host_answers) (o : output_id), wo p = Some o ->
  post_hooks (destroyed_host ans o h) = [] /\ effect_hooks (destroyed_host ans o h) = [].
Proof.
  intros (_ & _ & _ & _ & _ & Hinv) ans o Hwo.
  destruct (hooks_inv_output _ _ _ Hinv Hwo) as [Hp He].
  pose proof (remove_hook_all o _ Hp) as Ep. pose proof (remove_hook_all o _ He) as Ee.
  destruct h. cbn in *. auto.
Qed.

(** ** [destroy_output] *)

Lemma destroy_output_absent (ans : host_answers) (p : plugin_t) (h : host_t) :
  find_output_by_name live_preview_name (outputs h) = None ->
  destroy_output ans (p, h) = Some (tt, (p, h), []).
Proof. intros Hname. unfold destroy_output. cbn. rewrite Hname. reflexivity. Qed.

Lemma destroy_trace_shape (ans : host_answers) (o : output_id) (p : plugin_t) (h : host_t) :
  (exists t0, destroy_trace ans o p h =
              t0 ++ [wlr_output_layout_remove o; wlr_output_destroy o]) /\
  (focus_output (next_output ans) ∈ destroy_trace ans o p h <-> active_output h = Some o).
Proof.
  unfold destroy_trace. split.
  - eexists. rewrite !app_assoc. reflexivity.
  - destruct (decide (active_output h = Some o)) as [Ha|Ha].
    + rewrite bool_decide_eq_true_2 by exact Ha. split; [auto|intros _].
      rewrite !elem_of_app. do 4 right. left. left.
    + rewrite bool_decide_eq_false_2 by exact Ha. split; [|contradiction].
      destruct (instance_manager p), (default false (hooks_set p !! Some o)); cbn;
        rewrite ?elem_of_cons, elem_of_nil; intros H;
        repeat (destruct H as [H|H]; [discriminate|]); contradiction.
Qed.

(** X7.  [destroy_output] looks the output up by its name.  When the
    layout has no output named [live-preview] it returns at once, with no
    call and no change.  Otherwise it unwinds the whole session: the render
    instance manager, [current_preview], both connections and the hooks go,
    the focus moves to the next output exactly when the preview output had
    it, the output leaves the layout before it is destroyed (the last two
    calls), and [wo] is cleared; [current_size] and the backend stay, and
    so does every other output.  A second call finds nothing to do. *)
Theorem X7_destroy_output (ans : host_answers) (p : plugin_t) (h : host_t) :
  wf (p, h) ->
  exists p' h' t,
    destroy_output ans (p, h) = Some (tt, (p', h'), t) /\
    wo p' = None /\
    find_output_by_name live_preview_name (outputs h') = None /\
    post_hooks h' = [] /\ effect_hooks h' = [] /\
    headless_backend p' = headless_backend p /\ current_size p' = current_size p /\
    (forall r, r ∈ outputs h -> o_name r <> live_preview_name -> r ∈ outputs h') /\
    (wo p = None -> p' = p /\ h' = h /\ t = []) /\
    (forall o, wo p = Some o ->
       current_preview p' = None /\ instance_manager p' = None /\
       view_unmapped_conn p' = [] /\ on_output_pre_remove_conn p' = [] /\
       find_output o (outputs h') = None /\
       (exists t0, t = t0 ++ [wlr_output_layout_remove o; wlr_output_destroy o]) /\
       (focus_output (next_output ans) ∈ t <-> active_output h = Some o)) /\
    destroy_output ans (p', h') = Some (tt, (p', h'), []).
Proof.
  intros Hwf. pose proof (wf_name _ _ Hwf) as Hname.
  destruct (wo p) as [o|] eqn:Hwo.
  - pose proof (wf_destroyed _ _ Hwf ans o Hwo) as Hwf'.
    destruct (destroyed_fields ans o p h Hwo)
      as (E1 & E2 & E3 & E4 & E5 & E6 & E7 & E8 & E9 & E10).
    destruct (streaming_destroyed_hooks p h Hwf ans o Hwo) as [Ep Ee].
    destruct (destroy_trace_shape ans o p h) as [Hshape Hfocus].
    exists (destroyed_plugin o p), (destroyed_host ans o h), (destroy_trace ans o p h).
    pose proof (wf_name _ _ Hwf') as Hname'. rewrite E1 in Hname'.
    split; [apply destroy_output_run; exact Hname|].
    split; [exact E1|]. split; [exact Hname'|]. split; [exact Ep|]. split; [exact Ee|].
    split; [exact E6|]. split; [exact E7|].
    split; [|split; [discriminate|split]].
    + intros r Hr Hn. rewrite E8. apply remove_output_elem. split; [|exact Hr].
      intros Eid. apply Hn.
      destruct (find_output_by_name_Some _ _ _ Hname) as (r0 & Hr0 & Eid0 & En0).
      rewrite (nodup_ids_inj _ r r0 (wf_nodup _ _ Hwf) Hr Hr0) by congruence. exact En0.
    + intros o' [= <-]. rewrite E8.
      split; [exact E2|]. split; [exact E3|]. split; [exact E4|]. split; [exact E5|].
      split; [apply find_output_remove_eq|]. split; [exact Hshape|exact Hfocus].
    + apply destroy_output_absent. exact Hname'.
  - destruct Hwf as (_ & _ & _ & _ & _ & Hinv).
    destruct (hooks_inv_no_output _ _ Hinv Hwo) as [Ep Ee].
    exists p, h, []. rewrite (destroy_output_absent _ _ _ Hname).
    split; [reflexivity|]. split; [exact Hwo|]. split; [exact Hname|].
    split; [exact Ep|]. split; [exact Ee|]. split; [reflexivity|]. split; [reflexivity|].
    split; [auto|]. split; [auto|]. split; [discriminate|reflexivity].
Qed.

Lemma X7_witness :
  wf (example_bound 2) /\
  exists p' h' t,
    destroy_output (example_answers true) (fst (example_bound 2), snd (example_bound 2)) =
      Some (tt, (p', h'), t) /\ wo p' = None.
Proof.
  split; [apply wf_example_bound|].
  destruct (X7_destroy_output (example_answers true) (fst (example_bound 2))
              (snd (example_bound 2))) as (p' & h' & t & E & Hwo & _).
  - apply (bool_decide_unpack _). vm_compute. exact I.
  - exists p', h', t. auto.
Defined.

(** ** Frames *)

Lemma captures_none (t : list call) :
  Forall (fun c => not_snapshot c = true) t -> captures t = O.
Proof.
  induction 1 as [|c t Hc _ IH]; [reflexivity|]. destruct c; cbn; try exact IH.
  discriminate.
Qed.

Lemma capture_cases (v : view_id) (p : plugin_t) (h : host_t) (w' : world) (t : list call) :
  NoDup (map o_id (outputs h)) -> capture v (p, h) = Some (tt, w', t) ->
  exists view vo r,
    previewable h v view vo /\ find_output vo (outputs h) = Some r /\
    w' = (p, h) /\ t = capture_trace p v (v_geometry view) vo (o_scale r).
Proof.
  intros Hnd.
  destruct (views h !! v) as [view|] eqn:Hv.
  2:{ unfold capture, deref_view. cbn. rewrite Hv. discriminate. }
  destruct (v_toplevel view) eqn:Ht.
  2:{ unfold capture, deref_view. cbn. rewrite Hv. cbn. rewrite Ht. discriminate. }
  destruct (v_output view) as [vo|] eqn:Hvo.
  2:{ unfold capture, deref_view, deref. cbn. rewrite Hv. cbn. rewrite Ht. cbn.
      rewrite Hvo. discriminate. }
  destruct (find_output vo (outputs h)) as [r|] eqn:Hr.
  2:{ unfold capture, deref_view, deref, deref_output. cbn. rewrite Hv. cbn. rewrite Ht. cbn.
      rewrite Hvo. cbn. rewrite Hr. discriminate. }
  assert (Hprev : previewable h v view vo) by (unfold previewable; eauto).
  rewrite (capture_run p h v view vo r Hprev Hr Hnd).
  intros [= <- <-]. exists view, vo, r. auto.
Qed.

Lemma quiet_render_frame (o : output_id) :
  preserves quiet_call (fun _ : world => tt) (render_frame o).
Proof.
  unfold render_frame, damage_hook, post_hook, capture, deref_view, deref, deref_output.
  preserves_all.
Qed.

Lemma damage_hook_no_snapshot :
  preserves not_snapshot (fun _ : world => tt) damage_hook.
Proof. unfold damage_hook, deref_output. preserves_all. Qed.

(** X8.  A frame of any output, in any state in which it returns, changes
    nothing but [drop_frame], and that only when the post hook is
    registered on the output and a window is bound; it makes no call that
    creates, tests, resizes or destroys an output or a backend; and it takes
    exactly one snapshot when the post hook is registered on the output, a
    window is bound and [drop_frame >= frame_skip], and none otherwise. *)
Theorem X8_frame (o : output_id) (p : plugin_t) (h : host_t) (w' : world) (t : list call) :
  NoDup (map o_id (outputs h)) ->
  render_frame o (p, h) = Some (tt, w', t) ->
  snd w' = h /\
  fst w' = (if bool_decide (o ∈ post_hooks h) && bool_decide (is_Some (current_preview p))
            then set_drop_frame (next_drop_frame (frame_skip p) (drop_frame p)) p
            else p) /\
  Forall (fun c => quiet_call c = true) t /\
  captures t = (if frame_captures o (p, h) then 1 else 0)%nat.
Proof.
  intros Hnd H. destruct (quiet_render_frame o _ _ _ _ H) as [Hq _].
  unfold render_frame in H.
  apply bind_inv in H as (h0 & w1 & t1 & t2 & [= <- <- <-] & H & ->).
  apply bind_inv in H as ([] & w2 & t3 & t4 & Hd & H & ->).
  change ((p, h).2) with h in Hd, H.
  assert (Hd' : w2 = (p, h) /\ captures t3 = O).
  { destruct (bool_decide (o ∈ effect_hooks h)); unfold when in Hd.
    - split; [exact (damage_hook_state _ _ _ Hd)|].
      apply captures_none. exact (proj1 (damage_hook_no_snapshot _ _ _ _ Hd)).
    - injection Hd as <- <-. auto. }
  destruct Hd' as [-> Hc3]. cbn [app]. rewrite captures_app, Hc3. cbn [Nat.add].
  unfold frame_captures. cbn [fst snd].
  destruct (bool_decide (o ∈ post_hooks h)); unfold when in H; cbn [andb].
  2:{ injection H as <- <-. auto. }
  pose proof (post_hook_state _ _ _ _ Hnd H) as ->. cbn [fst snd].
  destruct (current_preview p) as [v|] eqn:Hcp.
  - rewrite bool_decide_eq_true_2 by eauto. cbn [andb].
    split; [reflexivity|]. split; [reflexivity|]. split; [exact Hq|].
    unfold post_hook in H. cbn in H. rewrite Hcp in H. cbn in H.
    destruct (drop_frame p >=? frame_skip p); cbn in H.
    + destruct (capture v _) as [[[[] w1] t1]|] eqn:E; [|discriminate].
      apply capture_cases in E as (view & vo & r & _ & _ & _ & ->); [|exact Hnd].
      injection H; intros; subst; reflexivity.
    + injection H; intros; subst; reflexivity.
  - rewrite bool_decide_eq_false_2 by (intros [? [=]]). cbn [andb].
    split; [reflexivity|]. split; [reflexivity|]. split; [exact Hq|].
    unfold post_hook in H. cbn in H. rewrite Hcp in H.
    injection H; intros; subst; reflexivity.
Qed.

Lemma X8_witness :
  captures (trace_of (render_frame 1%nat) (example_bound 2)) = 1%nat /\
  snd (state_after (render_frame 1%nat) (example_bound 2)) = snd (example_bound 2).
Proof.
  assert (E : render_frame 1%nat (fst (example_bound 2), snd (example_bound 2)) =
              Some (tt, state_after (render_frame 1%nat) (example_bound 2),
                    trace_of (render_frame 1%nat) (example_bound 2)))
    by (vm_compute; reflexivity).
  assert (Hnd : NoDup (map o_id (outputs (snd (example_bound 2)))))
    by (apply (bool_decide_unpack _); vm_compute; exact I).
  destruct (X8_frame _ _ _ _ _ Hnd E) as (Eh & _ & _ & Hc).
  split; [rewrite Hc; vm_compute; reflexivity|exact Eh].
Defined.

(** ** The computed size at its edges *)

(** X9.  The preview of a square window need not be square: for a window
    of side [s] the computed size is [max_dimension] wide and either
    [max_dimension] or [max_dimension - 1] high, since
    [s * (max_dimension / float(s))] may round to just below
    [max_dimension] before it is truncated.  A 41x41 window at 256 gives
    256x255, a 40x40 window 256x256. *)
Theorem X9_square_window (max_dim s x0 y0 : Z) :
  0 < s <= F32.INT_MAX -> 0 < max_dim <= 2 ^ 21 ->
  (exists p,
     scaled_geometry max_dim {| x := x0; y := y0; width := s; height := s |} =
       Some {| x := x0; y := y0; width := max_dim; height := p |} /\
     (p = max_dim \/ p = max_dim - 1)) /\
  scaled_geometry 256 (geometry_of 41 41) = Some (geometry_of 256 255) /\
  scaled_geometry 256 (geometry_of 40 40) = Some (geometry_of 256 256).
Proof.
  intros Hs Hm. unfold F32.INT_MAX in *. split; [|split; vm_compute; reflexivity].
  destruct (scale_side_correct s s max_dim) as (p & Ep & Hp & Habs & _); try lia.
  exists p. unfold scaled_geometry. cbn [width height x y].
  rewrite Z.ltb_irrefl, Ep. split; [reflexivity|].
  replace (s * max_dim / s) with max_dim in Habs
    by (rewrite (Z.mul_comm s max_dim), Z.div_mul; lia).
  lia.
Qed.

Lemma X9_witness :
  exists p,
    scaled_geometry 256 {| x := 0; y := 0; width := 1000; height := 1000 |} =
      Some {| x := 0; y := 0; width := 256; height := p |} /\
    (p = 256 \/ p = 256 - 1).
Proof.
  apply (X9_square_window 256 1000 0 0); unfold F32.INT_MAX; lia.
Defined.

(** X10.  A window more elongated than [max_dimension] to 1 gets a preview
    with an empty side: when [short * max_dimension < long] (and the
    product is small enough for the [float] arithmetic to be exact up to
    truncation) the computed short side is 0, whichever side it is.  A
    1x1000 window at 256 gives 0x256. *)
Theorem X10_elongated_window (max_dim s l x0 y0 : Z) :
  0 < s -> s * max_dim < l -> l <= F32.INT_MAX -> 0 < max_dim <= 2 ^ 21 ->
  7 * (s * max_dim) < 2 ^ 24 ->
  scaled_geometry max_dim {| x := x0; y := y0; width := s; height := l |} =
    Some {| x := x0; y := y0; width := 0; height := max_dim |} /\
  scaled_geometry max_dim {| x := x0; y := y0; width := l; height := s |} =
    Some {| x := x0; y := y0; width := max_dim; height := 0 |}.
Proof.
  intros Hs Hsl Hl Hm Hfine. unfold F32.INT_MAX in *.
  assert (Hlt : s < l) by nia.
  destruct (scale_side_correct s l max_dim) as (p & Ep & Hp & _ & Hex); try lia.
  assert (p = 0) as -> by (specialize (Hex Hfine); nia).
  unfold scaled_geometry. cbn [width height x y]. rewrite Ep.
  replace (s <? l) with true by (symmetry; apply Z.ltb_lt; lia).
  replace (l <? s) with false by (symmetry; apply Z.ltb_ge; lia).
  split; reflexivity.
Qed.

Lemma X10_witness :
  scaled_geometry 256 {| x := 0; y := 0; width := 1; height := 1000 |} =
    Some {| x := 0; y := 0; width := 0; height := 256 |} /\
  scaled_geometry 256 {| x := 0; y := 0; width := 1000; height := 1 |} =
    Some {| x := 0; y := 0; width := 256; height := 0 |}.
Proof.
  apply (X10_elongated_window 256 1 1000 0 0); unfold F32.INT_MAX; lia.
Defined.

(** ** The capture of a window without width *)

Lemma fdiv_by_zero (m : Z) :
  0 < m < 2 ^ 31 -> F32.fdiv (F32.of_int m) (F32.of_int 0) = S754_infinity false.
Proof.
  intros Hm. destruct (F32Facts.of_int_correct m Hm) as (mb & eb & Eb & _).
  rewrite Eb. reflexivity.
Qed.

(** X11.  [post_hook] divides by the width of the window without looking
    at it: when the bound window has width 0 (a request for such a window is
    accepted) and the throttle is due, the capture sets the scale of the
    window's output to [+infinity], takes the snapshot at that scale and
    then sets the old scale back. *)
Theorem X11_capture_without_width (p : plugin_t) (h : host_t) (v : view_id)
    (view : view_t) (vo : output_id) (r : output_t) :
  current_preview p = Some v -> previewable h v view vo ->
  find_output vo (outputs h) = Some r -> NoDup (map o_id (outputs h)) ->
  width (v_geometry view) = 0 -> 0 < max_dimension p <= F32.INT_MAX ->
  frame_skip p <= drop_frame p ->
  exists t,
    post_hook (p, h) = Some (tt, (set_drop_frame 0 p, h), t) /\
    t !! 1%nat = Some (set_scale vo (S754_infinity false)) /\
    t !! 2%nat = Some (take_snapshot v vo (S754_infinity false)) /\
    t !! 3%nat = Some (set_scale vo (o_scale r)).
Proof.
  intros Hcp Hprev Hr Hnd Hw Hm Hdue. unfold F32.INT_MAX in *.
  rewrite (post_hook_run p h v view vo r Hcp Hprev Hr Hnd).
  unfold next_drop_frame.
  replace (drop_frame p >=? frame_skip p) with true
    by (symmetry; rewrite Z.geb_leb; apply Z.leb_le; exact Hdue).
  eexists. split; [reflexivity|]. unfold capture_trace. rewrite Hw.
  rewrite fdiv_by_zero by lia. repeat split.
Qed.

Lemma X11_witness :
  current_preview (fst example_degenerate) = Some 3%N /\
  exists t,
    post_hook (fst example_degenerate, snd example_degenerate) =
      Some (tt, (set_drop_frame 0 (fst example_degenerate), snd example_degenerate), t) /\
    t !! 2%nat = Some (take_snapshot 3%N 0%nat (S754_infinity false)).
Proof.
  split; [vm_compute; reflexivity|].
  destruct (X11_capture_without_width (fst example_degenerate) (snd example_degenerate)
              3%N (toplevel_of 0 600) 0%nat
              {| o_id := 0%nat; o_name := "eDP-1";
                 o_mode := {| dim_width := 1920; dim_height := 1080 |};
                 o_scale := F32.of_int 1 |})
    as (t & E & _ & Ht & _).
  - vm_compute. reflexivity.
  - apply (bool_decide_unpack _). vm_compute. exact I.
  - vm_compute. reflexivity.
  - apply (bool_decide_unpack _). vm_compute. exact I.
  - reflexivity.
  - vm_compute. split; [reflexivity|discriminate].
  - vm_compute. discriminate.
  - exists t. auto.
Defined.

(** ** A window that is no longer the bound one *)

(** X12.  The preview is moved from one window to another by a second
    request; when the first window is unmapped afterwards, nothing happens
    to the preview of the second: [view_unmapped] returns at once for a view
    other than [current_preview], with no call and no change. *)
Theorem X12_unmap_of_another_view (p : plugin_t) (h : host_t) (a b : view_id)
    (view : view_t) (vo : output_id) (vg : geometry_t) (ans : host_answers) :
  wf (p, h) -> previewable h b view vo ->
  scaled_geometry (max_dimension p) (v_geometry view) = Some vg ->
  wo p <> Some vo -> a <> b ->
  exists w1 t1,
    request_stream b ans (p, h) = Some (json_ok, w1, t1) /\
    current_preview (fst w1) = Some b /\
    view_unmapped a w1 = Some (tt, w1, []) /\
    run_event (ev_view_unmapped a) w1 = Some (tt, w1, []).
Proof.
  intros Hwf Hprev Hvg Hne Hab.
  destruct (request_stream_ok p h b view vo vg ans Hwf Hprev Hvg Hne)
    as (p' & h' & t & E & Hcp & _).
  exists (p', h'), t. split; [exact E|]. split; [exact Hcp|].
  assert (Hv : view_unmapped a (p', h') = Some (tt, (p', h'), [])).
  { unfold view_unmapped. cbn. rewrite Hcp.
    rewrite bool_decide_eq_false_2 by congruence. reflexivity. }
  split; [exact Hv|]. cbn [run_event]. unfold bind, get_plugin. cbn [fst].
  destruct (bool_decide (a ∈ view_unmapped_conn p')); unfold when.
  - rewrite Hv. reflexivity.
  - reflexivity.
Qed.

Lemma X12_witness :
  wf (example_bound 2) /\
  exists w1 t1,
    request_stream 4%N (example_answers true)
      (fst (example_bound 2), snd (example_bound 2)) = Some (json_ok, w1, t1) /\
    run_event (ev_view_unmapped 1%N) w1 = Some (tt, w1, []).
Proof.
  split; [apply wf_example_bound|].
  destruct (X12_unmap_of_another_view (fst (example_bound 2)) (snd (example_bound 2))
              1%N 4%N (toplevel_of 1024 768) 0%nat (geometry_of 256 192)
              (example_answers true))
    as (w1 & t1 & E & _ & _ & Hrun).
  - apply (bool_decide_unpack _). vm_compute. exact I.
  - apply (bool_decide_unpack _). vm_compute. exact I.
  - vm_compute. reflexivity.
  - vm_compute. discriminate.
  - discriminate.
  - exists w1, t1. auto.
Defined.

(** ** The output is about to be removed *)

Lemma on_output_pre_remove_run (p : plugin_t) (h : host_t) (o : output_id) :
  wf (p, h) -> wo p = Some o ->
  exists t, on_output_pre_remove (p, h) =
            Some (tt, (pre_removed_plugin p, released_host p h), t).
Proof.
  intros Hwf Hwo. pose proof (wf_wo_alive p h o Hwf Hwo) as Halive.
  unfold on_output_pre_remove, pre_removed_plugin, released_plugin, released_host.
  cbn. rewrite Hwo. cbn. rewrite destroy_render_instance_manager_run. cbn.
  rewrite hooks_set_at_run. destruct p, h. cbn in *. subst wo0.
  destruct (hooks_set0 !! Some o) as [[]|] eqn:E; cbn; eauto.
  rewrite render_rem_post_run by exact Halive. cbn.
  rewrite render_rem_effect_run by exact Halive. cbn.
  rewrite insert_insert_eq. eauto.
Qed.

Lemma quiet_on_output_pre_remove :
  preserves quiet_call (fun _ : world => tt) on_output_pre_remove.
Proof.
  unfold on_output_pre_remove, destroy_render_instance_manager, hooks_set_at,
    hooks_set_assign, render_rem_post, render_rem_effect, deref, deref_output.
  preserves_all.
Qed.

(** X13.  [on_output_pre_remove] does nothing without an output.  With
    one, it tears down what [view_unmapped] tears down (the render instance
    manager, [current_preview], the two hooks) with no call that manages an
    output, but it keeps both connections and it does not clear [wo], which
    goes on pointing at the output that is being removed. *)
Theorem X13_on_output_pre_remove (p : plugin_t) (h : host_t) :
  wf (p, h) ->
  (wo p = None -> on_output_pre_remove (p, h) = Some (tt, (p, h), [])) /\
  (forall o, wo p = Some o ->
     exists t,
       on_output_pre_remove (p, h) =
         Some (tt, (pre_removed_plugin p, released_host p h), t) /\
       Forall (fun c => quiet_call c = true) t /\
       wo (pre_removed_plugin p) = Some o /\
       view_unmapped_conn (pre_removed_plugin p) = view_unmapped_conn p /\
       on_output_pre_remove_conn (pre_removed_plugin p) = on_output_pre_remove_conn p /\
       current_size (pre_removed_plugin p) = current_size p /\
       current_preview (pre_removed_plugin p) = None /\
       instance_manager (pre_removed_plugin p) = None /\
       armed (pre_removed_plugin p) = false /\
       post_hooks (released_host p h) = [] /\ effect_hooks (released_host p h) = [] /\
       outputs (released_host p h) = outputs h).
Proof.
  intros Hwf. split.
  - intros Hwo. unfold on_output_pre_remove. cbn. rewrite Hwo. reflexivity.
  - intros o Hwo. destruct (on_output_pre_remove_run p h o Hwf Hwo) as [t E].
    exists t. split; [exact E|].
    split; [exact (proj1 (quiet_on_output_pre_remove _ _ _ _ E))|].
    destruct Hwf as (_ & _ & _ & _ & _ & Hinv).
    destruct (released_host_hooks p h Hinv) as [Ep Ee].
    destruct (released_host_outputs p h) as (Eo & _).
    rewrite Ep, Ee, Eo. unfold pre_removed_plugin, armed.
    destruct p. cbn in *. subst. rewrite lookup_insert_eq. repeat split.
Qed.

Lemma X13_witness :
  wf (example_bound 2) /\
  exists t,
    on_output_pre_remove (fst (example_bound 2), snd (example_bound 2)) =
      Some (tt, (pre_removed_plugin (fst (example_bound 2)),
                 released_host (fst (example_bound 2)) (snd (example_bound 2))), t) /\
    wo (pre_removed_plugin (fst (example_bound 2))) = Some 1%nat.
Proof.
  split; [apply wf_example_bound|].
  destruct (X13_on_output_pre_remove (fst (example_bound 2)) (snd (example_bound 2)))
    as [_ H].
  - apply (bool_decide_unpack _). vm_compute. exact I.
  - destruct (H 1%nat) as (t & E & _ & Hwo & _); [vm_compute; reflexivity|].
    exists t. auto.
Defined.

(** ** Before the first request *)

(** X14.  In the state the plugin is loaded in nothing can go wrong before
    the first request: a [release_output] answers [json_ok], its only call
    is the disconnection and its only trace in the state is the entry
    [false] that reading [hooks_set[nullptr]] leaves in the map; an unmapped
    view, a frame of any output, [on_output_pre_remove] and
    [destroy_output] change nothing and call nothing. *)
Theorem X14_before_the_first_request (max_dim skip df : Z) (size : dimensions_t)
    (h : host_t) (ans : host_answers) :
  untouched h ->
  let p0 := init_plugin max_dim skip size df in
  release_output (p0, h) =
    Some (json_ok, (set_hooks_set {[None := false]} p0, h), [view_unmapped_disconnect]) /\
  (forall v, run_event (ev_view_unmapped v) (p0, h) = Some (tt, (p0, h), [])) /\
  (forall o, run_event (ev_frame o) (p0, h) = Some (tt, (p0, h), [])) /\
  on_output_pre_remove (p0, h) = Some (tt, (p0, h), []) /\
  destroy_output ans (p0, h) = Some (tt, (p0, h), []).
Proof.
  intros (Hn & _ & _ & Ep & Ee) p0.
  assert (Hd : destroy_output ans (p0, h) = Some (tt, (p0, h), [])).
  { apply destroy_output_absent, find_output_by_name_None. exact Hn. }
  split; [reflexivity|]. split; [reflexivity|]. split; [|split; [reflexivity|exact Hd]].
  intros o. unfold run_event, render_frame. cbn. rewrite Ep, Ee. reflexivity.
Qed.

Lemma X14_witness :
  untouched example_host /\
  release_output (example_initial 2) =
    Some (json_ok, (set_hooks_set {[None := false]} (example_plugin 2), example_host),
          [view_unmapped_disconnect]).
Proof.
  split; [exact untouched_example|].
  exact (proj1 (X14_before_the_first_request 256 2 0 {| dim_width := 0; dim_height := 0 |}
                  example_host (example_answers true) untouched_example)).
Defined.

Lemma request_stream_error_trace (id : view_id) (ans : host_answers) (w w' : world)
    (msg : string) (t : list call) :
  request_stream id ans w = Some (json_error msg, w', t) -> t = [].
Proof.
  intros H. unfold request_stream in H.
  destruct (views w.2 !! id) as [view|] eqn:Hv.
  - destruct (v_toplevel view) eqn:Ht.
    + fold (request_stream id ans w) in H.
      apply (request_stream_toplevel_ok _ _ _ _ _ _ _ Hv Ht) in H. discriminate.
    + cbn in H. rewrite Hv, Ht in H. cbn in H. injection H as _ _ <-. reflexivity.
  - cbn in H. rewrite Hv in H. injection H as _ _ <-. reflexivity.
Qed.

(** ** No commit without a test *)

Lemma commits_tested_app (t1 t2 : list call) :
  (forall prev, commits_tested prev t1 = true) ->
  (forall prev, commits_tested prev t2 = true) ->
  forall prev, commits_tested prev (t1 ++ t2) = true.
Proof.
  intros H1 H2. induction t1 as [|c t1 IH]; intros prev; [apply H2|].
  specialize (H1 prev). cbn in *. apply andb_true_iff in H1 as [Hc Ht].
  rewrite Hc. cbn.
  assert (Hgen : forall prev', commits_tested prev' t1 = true -> 
                               commits_tested prev' (t1 ++ t2) = true).
  { clear -H2. induction t1 as [|c' t1 IH']; intros prev' H; [apply H2|].
    cbn in *. apply andb_true_iff in H as [Hc' Ht']. rewrite Hc'. cbn. auto. }
  apply Hgen. exact Ht.
Qed.

Lemma commits_tested_none (t : list call) :
  Forall (fun c => not_commit c = true) t -> forall prev, commits_tested prev t = true.
Proof.
  induction 1 as [|c t Hc _ IH]; intros prev; [reflexivity|].
  cbn. rewrite IH. destruct c; try reflexivity. discriminate.
Qed.

Lemma attach_trace_no_commit (id : view_id) (vo o : output_id) (p : plugin_t) :
  Forall (fun c => not_commit c = true) (attach_trace id vo o p).
Proof.
  unfold attach_trace.
  destruct (default false (hooks_set p !! Some o)), (instance_manager p);
    repeat constructor.
Qed.

Lemma destroy_trace_no_commit (ans : host_answers) (o : output_id)
    (p : plugin_t) (h : host_t) :
  Forall (fun c => not_commit c = true) (destroy_trace ans o p h).
Proof.
  unfold destroy_trace.
  destruct (instance_manager p), (default false (hooks_set p !! Some o)),
    (bool_decide (active_output h = Some o)); repeat constructor.
Qed.

Lemma create_trace_tested (id : view_id) (vo n : output_id) (vg : geometry_t)
    (ans : host_answers) (p : plugin_t) :
  forall prev, commits_tested prev (create_trace id vo n vg ans p) = true.
Proof.
  intros prev. unfold create_trace.
  destruct (headless_backend p), (format_ok ans),
    (default false (hooks_set p !! Some n)), (instance_manager p); cbn;
    rewrite ?bool_decide_eq_true_2 by reflexivity; reflexivity.
Qed.

Lemma request_result_tested (id : view_id) (ans : host_answers) (vg : geometry_t)
    (vo : output_id) (p : plugin_t) (h : host_t) :
  forall prev, commits_tested prev (snd (request_result id ans vg vo p h)) = true.
Proof.
  unfold request_result. destruct (wo p) as [o|].
  - destruct (same_size vg (current_size p)); [|destruct (mode_ok ans)]; cbn [snd].
    + apply commits_tested_none, attach_trace_no_commit.
    + apply commits_tested_app; [|apply commits_tested_none, attach_trace_no_commit].
      intros prev. cbn. rewrite !bool_decide_eq_true_2 by reflexivity. reflexivity.
    + intros prev. cbn [commits_tested andb].
      apply commits_tested_app;
        [apply commits_tested_none, destroy_trace_no_commit|apply create_trace_tested].
  - cbn [snd]. apply create_trace_tested.
Qed.

Lemma no_commit_release_output : preserves not_commit (fun _ : world => tt) release_output.
Proof.
  unfold release_output, view_unmapped_disconnect_all,
    destroy_render_instance_manager, hooks_set_at, hooks_set_assign,
    render_rem_post, render_rem_effect, deref, deref_output.
  preserves_all.
Qed.

Lemma no_commit_view_unmapped (v : view_id) :
  preserves not_commit (fun _ : world => tt) (view_unmapped v).
Proof.
  unfold view_unmapped, view_unmapped_disconnect_all,
    destroy_render_instance_manager, hooks_set_at, hooks_set_assign,
    render_rem_post, render_rem_effect, deref, deref_output.
  preserves_all.
Qed.

Lemma no_commit_render_frame (o : output_id) :
  preserves not_commit (fun _ : world => tt) (render_frame o).
Proof.
  unfold render_frame, damage_hook, post_hook, capture, deref_view, deref, deref_output.
  preserves_all.
Qed.

Lemma run_event_tested (e : event) (w w' : world) (t : list call) :
  wf w -> run_event e w = Some (tt, w', t) ->
  forall prev, commits_tested prev t = true.
Proof.
  intros Hwf. destruct e as [id ans| |v|o|id view]; cbn [run_event]; intros H.
  - apply bind_inv in H as (j & w1 & t1 & t2 & H & [= <- <-] & ->).
    rewrite app_nil_r. destruct j as [|msg].
    + destruct w as [p h].
      apply (request_stream_cases _ _ _ _ _ _ Hwf) in H as (view & vg & vo & _ & _ & _ & E).
      replace t1 with (snd (request_result id ans vg vo p h)) by (rewrite <- E; reflexivity).
      apply request_result_tested.
    + rewrite (request_stream_error_trace _ _ _ _ _ _ H). reflexivity.
  - apply bind_inv in H as (j & w1 & t1 & t2 & H & [= <- <-] & ->).
    rewrite app_nil_r. apply commits_tested_none.
    exact (proj1 (no_commit_release_output _ _ _ _ H)).
  - apply commits_tested_none. revert H.
    assert (Hp : preserves not_commit (fun _ : world => tt)
                   (p <- get_plugin;;
                    when (bool_decide (v ∈ view_unmapped_conn p)) (view_unmapped v))).
    { apply preserves_bind; [apply preserves_get_plugin|intros ?].
      apply preserves_when, no_commit_view_unmapped. }
    intros H. exact (proj1 (Hp _ _ _ _ H)).
  - apply commits_tested_none. exact (proj1 (no_commit_render_frame o _ _ _ _ H)).
  - injection H as _ <-. reflexivity.
Qed.

(** X15.  In any run from a well-formed state every
    [wlr_output_commit_state] comes right after a [wlr_output_test_state]
    of the same output and the same state that succeeded: neither the mode
    change of the existing output nor the render format of a new one is
    ever committed untested, or after a test that failed. *)
Theorem X15_no_commit_without_test (es : list event) (w w' : world) (t : list call) :
  wf w -> run_events es w = Some (tt, w', t) -> commits_tested None t = true.
Proof.
  intros Hwf H.
  enough (Hall : forall prev, commits_tested prev t = true) by apply Hall.
  revert w t Hwf H. induction es as [|e es IH]; intros w t Hwf H.
  - injection H as _ <-. reflexivity.
  - cbn [run_events] in H.
    apply bind_inv in H as ([] & w1 & t1 & t2 & He & H & ->).
    apply commits_tested_app.
    + exact (run_event_tested _ _ _ _ Hwf He).
    + exact (IH _ _ (wf_run_event _ _ _ _ Hwf He) H).
Qed.

Lemma X15_witness :
  wf (example_initial 2) /\
  commits_tested None (trace_of (run_events example_run) (example_initial 2)) = true /\
  count_calls (fun c => negb (not_commit c))
    (trace_of (run_events example_run) (example_initial 2)) = 3%nat.
Proof.
  split; [apply wf_example_initial|].
  split; [|vm_compute; reflexivity].
  exact (X15_no_commit_without_test example_run (example_initial 2) example_final _
           (wf_example_initial 2) example_run_runs).
Defined.

(** ** The mode of the output and the recorded size *)

Lemma find_output_created (n : output_id) (vg : geometry_t) (os : list output_t) :
  (forall r, r ∈ os -> (o_id r < n)%nat) ->
  find_output n (os ++ [created_output n vg]) = Some (created_output n vg).
Proof.
  intros Hfresh. rewrite find_output_app, (find_output_fresh _ _ Hfresh). cbn.
  rewrite Nat.eqb_refl. reflexivity.
Qed.

Lemma mode_inv_created (id : view_id) (vo : output_id) (vg : geometry_t)
    (p : plugin_t) (h : host_t) :
  wf (p, h) -> current_size p = mode_of vg ->
  mode_inv (created_plugin id vo (next_handle h) p, created_host (next_handle h) vg p h).
Proof.
  intros Hwf Hcs o. cbn [fst snd].
  destruct (created_fields id vo (next_handle h) vg p h) as (E1 & _ & E2 & _).
  rewrite E1, E2. intros [= <-].
  rewrite (find_output_created _ _ _ (wf_fresh _ _ Hwf)). cbn.
  destruct p. cbn in *. rewrite Hcs. reflexivity.
Qed.

Lemma mode_inv_request_result (id : view_id) (ans : host_answers) (vg : geometry_t)
    (vo : output_id) (p : plugin_t) (h : host_t) :
  wf (p, h) -> mode_inv (p, h) ->
  mode_inv (fst (request_result id ans vg vo p h)).
Proof.
  intros Hwf Hm. assert (Hcs : current_size (sized vg p) = mode_of vg) by (destruct p; reflexivity).
  destruct (sized_fields vg p) as (Ewo & _).
  unfold request_result. destruct (wo p) as [o|] eqn:Hwo.
  - pose proof (wf_wo_alive _ _ _ Hwf Hwo) as [r Hr].
    specialize (Hm o Hwo). cbn [fst snd] in Hm.
    destruct (same_size vg (current_size p)) eqn:Hs; [|destruct (mode_ok ans)]; cbn [fst].
    + intros o'. cbn [fst snd].
      destruct (attached_fields id vo o (sized vg p)) as (E1 & _ & E3 & _).
      destruct (attached_host_outputs o p h) as [E2 _].
      rewrite E1, E2, E3, Ewo, Hcs. intros [= <-]. rewrite Hm.
      pose proof (same_size_mode _ _ Hs) as E. rewrite <- E at 1. destruct p; reflexivity.
    + intros o'. cbn [fst snd].
      destruct (attached_fields id vo o (sized vg p)) as (E1 & _ & E3 & _).
      destruct (attached_host_outputs o p
                  (set_outputs (update_output o (with_mode (mode_of vg)) (outputs h)) h))
        as [E2 _].
      rewrite E1, E2, E3, Ewo, Hcs. intros [= <-]. destruct h. cbn in *.
      rewrite find_output_update by reflexivity. rewrite Hr. cbn.
      rewrite (find_output_id _ _ _ Hr), Nat.eqb_refl. reflexivity.
    + replace (next_handle h) with (next_handle (destroyed_host ans o h))
        by (destruct h; reflexivity).
      apply mode_inv_created.
      * apply wf_destroyed; [apply wf_sized; exact Hwf|congruence].
      * destruct (destroyed_fields ans o (sized vg p) h ltac:(congruence))
          as (_ & _ & _ & _ & _ & _ & E & _).
        rewrite E. exact Hcs.
  - cbn [fst]. apply mode_inv_created; [apply wf_sized; exact Hwf|exact Hcs].
Qed.

Lemma mode_inv_run_events (es : list event) (w w' : world) (t : list call) :
  wf w -> mode_inv w -> run_events es w = Some (tt, w', t) -> mode_inv w'.
Proof.
  apply (run_events_invariant mode_inv). intros p h Hwf Hm.
  split; [intros; apply mode_inv_request_result; assumption|].
  destruct (released_host_outputs p h) as (Eo & _).
  destruct (released_plugin_fields p) as (_ & _ & _ & Ewo & Ecs & _).
  unfold mode_inv in *. cbn [fst snd] in *.
  split; [rewrite Eo, Ewo, Ecs; exact Hm|]. split; [|split].
  - destruct (released_plugin p); cbn in *. rewrite Eo, Ewo, Ecs. exact Hm.
  - intros d. destruct p; exact Hm.
  - intros vs. destruct h; exact Hm.
Qed.

(** X16.  Along any run from the state the plugin is loaded in, whenever
    the plugin has an output, that output is in the layout under the name
    [live-preview] and its mode is the size recorded in [current_size]: the
    destination of every blit is the whole output. *)
Theorem X16_output_mode_is_current_size (max_dim skip df : Z) (size : dimensions_t)
    (h : host_t) (es : list event) (w' : world) (t : list call) :
  untouched h ->
  run_events es (init_plugin max_dim skip size df, h) = Some (tt, w', t) ->
  forall o, wo (fst w') = Some o ->
    exists r, find_output o (outputs (snd w')) = Some r /\
      o_name r = live_preview_name /\ o_mode r = current_size (fst w').
Proof.
  intros Hu Hrun o Hwo.
  pose proof (untouched_wf max_dim skip df size h Hu) as Hwf0.
  assert (H0 : mode_inv (init_plugin max_dim skip size df, h)) by (intros o' [=]).
  pose proof (mode_inv_run_events es _ _ _ Hwf0 H0 Hrun o Hwo) as Hm.
  pose proof (wf_run_events _ _ _ _ Hwf0 Hrun) as Hwf.
  destruct w' as [p' h']. cbn [fst snd] in *.
  destruct (find_output o (outputs h')) as [r|] eqn:Hr; [|discriminate].
  exists r. split; [reflexivity|]. split; [|cbn in Hm; congruence].
  pose proof (wf_name _ _ Hwf) as Hname. rewrite Hwo in Hname.
  destruct (find_output_by_name_Some _ _ _ Hname) as (r0 & Hr0 & Eid & En).
  rewrite (nodup_ids_inj _ r r0 (wf_nodup _ _ Hwf) (find_output_elem _ _ _ Hr) Hr0); [exact En|].
  rewrite (find_output_id _ _ _ Hr). congruence.
Qed.

Lemma X16_witness :
  untouched example_host /\
  exists r, find_output 2%nat (outputs (snd example_final)) = Some r /\
    o_name r = live_preview_name /\ o_mode r = current_size (fst example_final).
Proof.
  split; [exact untouched_example|].
  apply (X16_output_mode_is_current_size 256 2 0 {| dim_width := 0; dim_height := 0 |}
           example_host example_run example_final
           (trace_of (run_events example_run) (example_initial 2))
           untouched_example example_run_runs 2%nat).
  vm_compute. reflexivity.
Defined.

(** ** A window without any size *)

(** X17.  For a toplevel whose geometry is 0x0 the size computation
    multiplies 0 by [max_dimension / float(0)], which is [+infinity]: the
    product is NaN, and its conversion to [int] has no defined result.  The
    request is undefined at that point, before it has assigned any member
    or made any call. *)
Theorem X17_window_without_size (id : view_id) (ans : host_answers) (p : plugin_t)
    (h : host_t) (view : view_t) :
  views h !! id = Some view -> v_toplevel view = true ->
  width (v_geometry view) = 0 -> height (v_geometry view) = 0 ->
  0 < max_dimension p <= F32.INT_MAX ->
  scale_float 0 0 (max_dimension p) = S754_nan /\
  scaled_geometry (max_dimension p) (v_geometry view) = None /\
  request_stream id ans (p, h) = None.
Proof.
  intros Hv Ht Hw Hh Hm. unfold F32.INT_MAX in *.
  assert (E : scale_float 0 0 (max_dimension p) = S754_nan).
  { unfold scale_float. rewrite fdiv_by_zero by lia. reflexivity. }
  assert (E' : scaled_geometry (max_dimension p) (v_geometry view) = None).
  { unfold scaled_geometry, scale_side. rewrite Hw, Hh, E. reflexivity. }
  split; [exact E|]. split; [exact E'|].
  unfold request_stream. cbn. rewrite Hv. cbn. rewrite Ht. cbn. rewrite E'. reflexivity.
Qed.

Lemma X17_witness :
  request_stream 1%N (example_answers true)
    (example_plugin 2, set_views {[ 1%N := toplevel_of 0 0 ]} example_host) = None.
Proof.
  apply (X17_window_without_size 1%N (example_answers true) (example_plugin 2)
           (set_views {[ 1%N := toplevel_of 0 0 ]} example_host) (toplevel_of 0 0)).
  - vm_compute. reflexivity.
  - reflexivity.
  - reflexivity.
  - reflexivity.
  - vm_compute. split; [reflexivity|discriminate].
Defined.

(** ** Requests that cannot fail *)

(** X18.  In a well-formed state a request for a mapped toplevel that is
    shown on a live output other than the plugin's own, whose sides are
    positive, with [max_dimension] between 1 and [2^21], is defined and
    answers [json_ok]: the window is bound, the plugin has an output at
    which [hooks_set] is true, and the recorded size has [max_dimension] as
    its longer side and a shorter side that is not negative. *)
Theorem X18_request_succeeds (p : plugin_t) (h : host_t) (id : view_id) (view : view_t)
    (vo : output_id) (ans : host_answers) :
  wf (p, h) -> previewable h id view vo -> wo p <> Some vo ->
  0 < width (v_geometry view) <= F32.INT_MAX ->
  0 < height (v_geometry view) <= F32.INT_MAX ->
  0 < max_dimension p <= 2 ^ 21 ->
  exists p' h' t,
    request_stream id ans (p, h) = Some (json_ok, (p', h'), t) /\
    current_preview p' = Some id /\ instance_manager p' = Some (id, vo) /\
    is_Some (wo p') /\ armed p' = true /\
    Z.max (dim_width (current_size p')) (dim_height (current_size p')) = max_dimension p /\
    0 <= Z.min (dim_width (current_size p')) (dim_height (current_size p')).
Proof.
  intros Hwf Hprev Hne Hw Hh Hm. unfold F32.INT_MAX in *.
  assert (Hvg : exists vg,
            scaled_geometry (max_dimension p) (v_geometry view) = Some vg /\
            Z.max (width vg) (height vg) = max_dimension p /\
            0 <= Z.min (width vg) (height vg)).
  { unfold scaled_geometry.
    destruct (Z.ltb_spec (width (v_geometry view)) (height (v_geometry view))) as [Hlt|Hge].
    - destruct (scale_side_correct (width (v_geometry view)) (height (v_geometry view))
                  (max_dimension p)) as (q & Eq & Hq & _); try lia.
      rewrite Eq. eexists. split; [reflexivity|]. cbn. lia.
    - destruct (scale_side_correct (height (v_geometry view)) (width (v_geometry view))
                  (max_dimension p)) as (q & Eq & Hq & _); try lia.
      rewrite Eq. eexists. split; [reflexivity|]. cbn. lia. }
  destruct Hvg as (vg & Hvg & Hmax & Hmin).
  destruct (request_stream_ok p h id view vo vg ans Hwf Hprev Hvg Hne)
    as (p' & h' & t & E & Hcp & Him & Hcs & Hwo & _).
  exists p', h', t. split; [exact E|]. split; [exact Hcp|]. split; [exact Him|].
  split; [exact Hwo|]. split; [|rewrite Hcs; cbn; auto].
  destruct (request_stream_cases _ _ _ _ _ _ Hwf E) as (view' & vg' & vo' & _ & _ & _ & E').
  assert (Ep : (p', h') = fst (request_result id ans vg' vo' p h)) by (rewrite <- E'; reflexivity).
  assert (Ha : forall q q0 o, armed (attached_plugin id vo' o
                 (set_on_output_pre_remove_conn q0 (set_wo (Some o) q))) = true).
  { intros q q0 o. unfold armed. destruct q. cbn. rewrite lookup_insert_eq. reflexivity. }
  unfold request_result in Ep. destruct (wo p) as [o|] eqn:Hwo0.
  - assert (Hb : armed (attached_plugin id vo' o (sized vg' p)) = true).
    { unfold armed. destruct p. cbn in *. subst. rewrite lookup_insert_eq. reflexivity. }
    destruct (same_size vg' (current_size p)); [|destruct (mode_ok ans)];
      injection Ep as -> _; first [exact Hb | apply Ha].
  - injection Ep as -> _. apply Ha.
Qed.

Lemma X18_witness :
  wf (example_initial 2) /\
  exists p' h' t,
    request_stream 4%N (example_answers true)
      (fst (example_initial 2), snd (example_initial 2)) = Some (json_ok, (p', h'), t) /\
    current_preview p' = Some 4%N.
Proof.
  split; [apply wf_example_initial|].
  destruct (X18_request_succeeds (fst (example_initial 2)) (snd (example_initial 2))
              4%N (toplevel_of 1024 768) 0%nat (example_answers true))
    as (p' & h' & t & E & Hcp & _).
  - apply (bool_decide_unpack _). vm_compute. exact I.
  - apply (bool_decide_unpack _). vm_compute. exact I.
  - vm_compute. discriminate.
  - vm_compute. split; [reflexivity|discriminate].
  - vm_compute. split; [reflexivity|discriminate].
  - vm_compute. split; [reflexivity|discriminate].
  - exists p', h', t. auto.
Defined.
